(** * civil-date: a shallow embedding of [src/index.ts]

    The library converts between three views of a calendar day: a day count
    since 1970-01-01, a three character radix-36 code, and the year, month and
    day fields of a JavaScript [Date].  The development below follows the
    source function by function.  The JavaScript built-ins the source calls
    ([Math.floor], [parseInt], [Number.prototype.toString], [String.prototype]
    helpers, regular expressions and [Date]) are embedded after ECMA-262. *)

From Stdlib Require Import ZArith QArith Qround Qabs Qcanon Bool List Ascii String Lia.
Import ListNotations.

Local Open Scope string_scope.
Local Open Scope Z_scope.

(** ** Exceptions

    Every [throw] of the source is [throw new Error(msg)]; a computation
    either returns or throws an [Error] carrying a message. *)

Inductive result (A : Type) : Type :=
| Ok (a : A)
| Throw (msg : string).

Arguments Ok {A} a.
Arguments Throw {A} msg.

Definition bind {A B : Type} (r : result A) (k : A -> result B) : result B :=
  match r with
  | Ok a => k a
  | Throw msg => Throw msg
  end.

Notation "'let*' x ':=' r 'in' k" := (bind r (fun x => k))
  (at level 10, x name, r at level 100, k at level 200).

(** ** Numbers

    A JavaScript number is a finite value, [NaN] or one of the two
    infinities; the finite ones are doubles, kept as the rationals they
    are.  Comparing and flooring are exact on doubles.  A product, a
    quotient, a sum and a difference are the exact result rounded to the
    nearest double, ties to even, as IEEE 754 has it. *)

Module Number.

Inductive number : Type :=
| Fin (q : Q)
| NaN
| PosInf
| NegInf.

Definition of_Z (z : Z) : number := Fin (inject_Z z).

(** [a < b]; any comparison with [NaN] is false. *)
Definition lt (a b : number) : bool :=
  match a, b with
  | NaN, _ | _, NaN => false
  | Fin x, Fin y => negb (Qle_bool y x)
  | Fin _, PosInf => true
  | Fin _, NegInf => false
  | PosInf, _ => false
  | NegInf, NegInf => false
  | NegInf, _ => true
  end.

(** [a > b] *)
Definition gt (a b : number) : bool := lt b a.

Definition sign (q : Q) : comparison := Qcompare q 0.

(** [n / d] scaled by [2 ^ k], as a fraction. *)
Definition scaled (n d k : Z) : Z * Z :=
  if 0 <=? k then (n * 2 ^ k, d) else (n, d * 2 ^ (- k)).

(** The integer nearest to [p / r], a half going to the even side. *)
Definition nearest_even (p r : Z) : Z :=
  let q := p / r in
  match 2 * (p mod r) ?= r with
  | Lt => q
  | Gt => q + 1
  | Eq => if Z.even q then q else q + 1
  end.

(** The binary exponent of [n / d > 0]: the [e] with
    [2 ^ e <= n / d < 2 ^ (e + 1)]. *)
Definition exponent (n d : Z) : Z :=
  let e := Z.log2 n - Z.log2 d in
  let '(p, r) := scaled n d (- e) in
  if r <=? p then e else e - 1.

(** The double nearest to [n / d > 0]: 53 significant bits, exponents from
    -1022 (below that the spacing stays [2 ^ -1074]), in lowest terms;
    [None] when the nearest value is [2 ^ 1024] or more. *)
Definition nearest_double (n d : Z) : option Q :=
  let k := Z.max (exponent n d) (-1022) - 52 in
  let '(p, r) := scaled n d (- k) in
  let m := nearest_even p r in
  if 0 <=? k then
    if 2 ^ 1024 <=? m * 2 ^ k then None else Some (inject_Z (m * 2 ^ k))
  else Some (Qred (m # Z.to_pos (2 ^ (- k)))).

(** Rounding the exact result of an operation to a number. *)
Definition round (q : Q) : number :=
  match Qnum q with
  | 0 => Fin 0
  | Zpos n =>
      match nearest_double (Zpos n) (Zpos (Qden q)) with
      | Some v => Fin v
      | None => PosInf
      end
  | Zneg n =>
      match nearest_double (Zpos n) (Zpos (Qden q)) with
      | Some v => Fin (- v)
      | None => NegInf
      end
  end.

(** [a * b] *)
Definition mul (a b : number) : number :=
  match a, b with
  | NaN, _ | _, NaN => NaN
  | Fin x, Fin y => round (x * y)
  | Fin x, PosInf | PosInf, Fin x =>
      match sign x with Eq => NaN | Gt => PosInf | Lt => NegInf end
  | Fin x, NegInf | NegInf, Fin x =>
      match sign x with Eq => NaN | Gt => NegInf | Lt => PosInf end
  | PosInf, PosInf | NegInf, NegInf => PosInf
  | PosInf, NegInf | NegInf, PosInf => NegInf
  end.

(** [a / b] *)
Definition div (a b : number) : number :=
  match a, b with
  | NaN, _ | _, NaN => NaN
  | Fin x, Fin y =>
      match sign y with
      | Eq => match sign x with Eq => NaN | Gt => PosInf | Lt => NegInf end
      | _ => round (x / y)
      end
  | Fin _, _ => Fin 0
  | PosInf, Fin y => match sign y with Lt => NegInf | _ => PosInf end
  | NegInf, Fin y => match sign y with Lt => PosInf | _ => NegInf end
  | _, _ => NaN
  end.

(** [a + b] *)
Definition add (a b : number) : number :=
  match a, b with
  | NaN, _ | _, NaN => NaN
  | Fin x, Fin y => round (x + y)
  | PosInf, NegInf | NegInf, PosInf => NaN
  | PosInf, _ | _, PosInf => PosInf
  | NegInf, _ | _, NegInf => NegInf
  end.

(** [a - b] *)
Definition sub (a b : number) : number :=
  match a, b with
  | NaN, _ | _, NaN => NaN
  | Fin x, Fin y => round (x - y)
  | PosInf, PosInf | NegInf, NegInf => NaN
  | PosInf, _ | _, NegInf => PosInf
  | NegInf, _ | _, PosInf => NegInf
  end.

(** [a === b] on numbers: [NaN] differs from everything, itself included. *)
Definition strict_eq (a b : number) : bool :=
  match a, b with
  | Fin x, Fin y => Qeq_bool x y
  | PosInf, PosInf | NegInf, NegInf => true
  | _, _ => false
  end.

(** [Math.floor] *)
Definition floor (a : number) : number :=
  match a with
  | Fin q => of_Z (Qfloor q)
  | other => other
  end.

(** [isNaN] *)
Definition isNaN (a : number) : bool :=
  match a with NaN => true | _ => false end.

(** ECMA-262 ToIntegerOrInfinity restricted to its finite results: the
    value truncated toward zero, [None] for [NaN] and the infinities
    (every caller below gives up on a non-finite argument). *)
Definition truncate (q : Q) : Z := Z.quot (Qnum q) (Zpos (Qden q)).

Definition to_integer (a : number) : option Z :=
  match a with
  | Fin q => Some (truncate q)
  | _ => None
  end.

End Number.

Export Number(number, Fin, NaN, PosInf, NegInf).

Declare Scope number_scope.
Delimit Scope number_scope with num.
Bind Scope number_scope with number.
Infix "<" := Number.lt : number_scope.
Infix ">" := Number.gt : number_scope.
Infix "*" := Number.mul : number_scope.
Infix "/" := Number.div : number_scope.
Infix "+" := Number.add : number_scope.
Infix "-" := Number.sub : number_scope.
Infix "===" := Number.strict_eq (at level 70, no associativity) : number_scope.

(** ** Strings

    Strings are sequences of code units below 256.  Both regular expressions
    of the source accept ASCII characters only, so any other code unit is
    rejected there like every character outside the class; [toUpperCase] is
    given on ASCII, which is all the source and the properties below apply
    it to. *)

Module Str.

Definition code (c : ascii) : Z := Z.of_N (N_of_ascii c).
Definition char (z : Z) : ascii := ascii_of_N (Z.to_N z).

Definition between (lo hi : ascii) (c : ascii) : bool :=
  (code lo <=? code c) && (code c <=? code hi).

Definition is_digit : ascii -> bool := between "0" "9".
Definition is_lower : ascii -> bool := between "a" "z".
Definition is_upper : ascii -> bool := between "A" "Z".

(** [String.prototype.toUpperCase] *)
Definition upper_char (c : ascii) : ascii :=
  if is_lower c then char (code c - 32) else c.

Fixpoint toUpperCase (s : string) : string :=
  match s with
  | EmptyString => EmptyString
  | String c s' => String (upper_char c) (toUpperCase s')
  end.

Fixpoint repeat_char (c : ascii) (n : nat) : string :=
  match n with
  | O => EmptyString
  | S n' => String c (repeat_char c n')
  end.

(** [s.padStart(n, c)] for a one character filler [c] *)
Definition padStart (n : nat) (c : ascii) (s : string) : string :=
  repeat_char c (n - String.length s) ++ s.

(** The digit of value [d] as [Number.prototype.toString] writes it. *)
Definition digit_char (d : Z) : ascii :=
  if d <? 10 then char (48 + d) else char (87 + d).

(** The value of a character as a digit, letters in either case. *)
Definition digit_value (c : ascii) : option Z :=
  if is_digit c then Some (code c - 48)
  else if is_lower c then Some (code c - 87)
  else if is_upper c then Some (code c - 55)
  else None.

(** The digits of a non-negative integer, most significant first.  Each
    round divides by the radix, so one round per bit of [n] is enough. *)
Fixpoint digits_loop (rounds : nat) (radix n : Z) (acc : string) : string :=
  match rounds with
  | O => acc
  | S r =>
      if n <? radix then String (digit_char n) acc
      else digits_loop r radix (n / radix) (String (digit_char (n mod radix)) acc)
  end.

Definition digits (radix n : Z) : string :=
  digits_loop (S (Z.to_nat (Z.log2 n))) radix n EmptyString.

(** [n.toString(radix)] for an integer [n] *)
Definition int_toString (radix n : Z) : string :=
  if n <? 0 then String "-" (digits radix (- n)) else digits radix n.

(** [Number.prototype.toString(radix)].  Every number the source prints is
    integral or [NaN] (a [Math.floor] result or a [Date] field); the
    fraction digits of other finite numbers are not produced here. *)
Definition toString (radix : Z) (n : number) : string :=
  match n with
  | Fin q => int_toString radix (Qfloor q)
  | NaN => "NaN"
  | PosInf => "Infinity"
  | NegInf => "-Infinity"
  end.

(** The longest prefix of [s] made of digits valid in [radix], folded into
    its value; [None] when the prefix is empty. *)
Fixpoint parse_digits (radix : Z) (acc : option Z) (s : string) : option Z :=
  match s with
  | EmptyString => acc
  | String c s' =>
      match digit_value c with
      | Some d =>
          if d <? radix
          then parse_digits radix
                 (Some (match acc with Some a => a * radix + d | None => d end)) s'
          else acc
      | None => acc
      end
  end.

(** White space and line terminators among the first 256 code units. *)
Definition is_space (c : ascii) : bool :=
  let n := code c in
  (n =? 32) || ((9 <=? n) && (n <=? 13)) || (n =? 160).

Fixpoint trim_start (s : string) : string :=
  match s with
  | String c s' => if is_space c then trim_start s' else s
  | EmptyString => s
  end.

Definition strip_sign (s : string) : bool * string :=
  match s with
  | String c s' =>
      if Ascii.eqb c "-" then (true, s')
      else if Ascii.eqb c "+" then (false, s')
      else (false, s)
  | EmptyString => (false, s)
  end.

Definition strip_hex_prefix (s : string) : option string :=
  match s with
  | String c0 (String c1 s') =>
      if Ascii.eqb c0 "0" && (Ascii.eqb c1 "x" || Ascii.eqb c1 "X")
      then Some s' else None
  | _ => None
  end.

(** [parseInt(s, radix)] after ECMA-262; a call that leaves the radix out
    passes [0]. *)
Definition parseInt (s : string) (radix : Z) : number :=
  let '(neg, s) := strip_sign (trim_start s) in
  if negb (radix =? 0) && ((radix <? 2) || (36 <? radix)) then NaN
  else
    let stripPrefix := (radix =? 0) || (radix =? 16) in
    let r := if radix =? 0 then 10 else radix in
    let '(r, s) :=
      match (if stripPrefix then strip_hex_prefix s else None) with
      | Some s' => (16, s')
      | None => (r, s)
      end in
    match parse_digits r None s with
    | Some v => Number.of_Z (if neg : bool then - v else v)
    | None => NaN
    end.

End Str.

(** ** Regular expressions

    The two patterns of the source use character classes, sequencing,
    alternation, counted repetition and capture groups.  Matching follows
    ECMA-262: a matcher takes the rest of the input, the captures so far and
    a continuation, and alternatives are tried left to right.  Both patterns
    start with [^] and end with [$]: the pattern is tried at index 0 only
    and the final continuation demands that the input is used up. *)

Module RegExp.

Inductive re : Type :=
| Empty
| Class (p : ascii -> bool)
| Seq (a b : re)
| Alt (a b : re)
| Group (a : re).

(** [a{n}] *)
Fixpoint times (n : nat) (a : re) : re :=
  match n with
  | O => Empty
  | S n' => Seq a (times n' a)
  end.

(** The text consumed between two positions of the same input. *)
Definition consumed (before after : string) : string :=
  substring 0 (String.length before - String.length after) before.

Fixpoint run {R : Type} (r : re) (s : string) (caps : list string)
    (k : string -> list string -> option R) : option R :=
  match r with
  | Empty => k s caps
  | Class p =>
      match s with
      | String c s' => if p c then k s' caps else None
      | EmptyString => None
      end
  | Seq a b => run a s caps (fun s' caps' => run b s' caps' k)
  | Alt a b =>
      match run a s caps k with
      | Some x => Some x
      | None => run b s caps k
      end
  | Group a => run a s caps (fun s' caps' => k s' (caps' ++ [consumed s s'])%list)
  end.

(** [s.match(/^r$/)]: the capture groups of the match, or [None]. *)
Definition exec (r : re) (s : string) : option (list string) :=
  run r s [] (fun rest caps =>
                match rest with EmptyString => Some caps | _ => None end).

(** [/^r$/.test(s)] *)
Definition test (r : re) (s : string) : bool :=
  match exec r s with Some _ => true | None => false end.

Definition digit : re := Class Str.is_digit.
Definition one_of (cs : string) : re :=
  Class (fun c => existsb (Ascii.eqb c) (list_ascii_of_string cs)).
Definition chr (c : ascii) : re := Class (Ascii.eqb c).
Definition range (lo hi : ascii) : re := Class (Str.between lo hi).

End RegExp.

(** ** Time values and the calendar (ECMA-262, Date objects)

    A time value is an integer count of milliseconds since the epoch, or
    [NaN]; the integer ones are [Z] here and [option Z] where [NaN] can
    occur. *)

Module Time.

Definition msPerDay : Z := 86400000.
Definition msPerHour : Z := 3600000.
Definition msPerMinute : Z := 60000.
Definition msPerSecond : Z := 1000.

(** The largest magnitude of a time value: 8.64e15 ms, 100,000,000 days. *)
Definition maxTime : Z := 8640000000000000.

Definition Day (t : Z) : Z := t / msPerDay.
Definition TimeWithinDay (t : Z) : Z := t mod msPerDay.

Definition DaysInYear (y : Z) : Z :=
  if negb (y mod 4 =? 0) then 365
  else if negb (y mod 100 =? 0) then 366
  else if negb (y mod 400 =? 0) then 365
  else 366.

Definition DayFromYear (y : Z) : Z :=
  365 * (y - 1970) + (y - 1969) / 4 - (y - 1901) / 100 + (y - 1601) / 400.

Definition TimeFromYear (y : Z) : Z := msPerDay * DayFromYear y.

(** The year a day number falls in: the largest [y] with
    [DayFromYear y <= d].  The mean year has 146097/400 days; the estimate
    from it is off by one at most and is then adjusted. *)
Definition YearFromDay (d : Z) : Z :=
  let y := 1970 + (400 * d) / 146097 in
  if d <? DayFromYear y then y - 1
  else if DayFromYear (y + 1) <=? d then y + 1
  else y.

Definition YearFromTime (t : Z) : Z := YearFromDay (Day t).

Definition leap (y : Z) : Z := if DaysInYear y =? 366 then 1 else 0.
Definition InLeapYear (t : Z) : Z := leap (YearFromTime t).

Definition DayWithinYear (t : Z) : Z := Day t - DayFromYear (YearFromTime t).

Definition MonthFromTime (t : Z) : Z :=
  let d := DayWithinYear t in
  let l := InLeapYear t in
  if d <? 31 then 0
  else if d <? 59 + l then 1
  else if d <? 90 + l then 2
  else if d <? 120 + l then 3
  else if d <? 151 + l then 4
  else if d <? 181 + l then 5
  else if d <? 212 + l then 6
  else if d <? 243 + l then 7
  else if d <? 273 + l then 8
  else if d <? 304 + l then 9
  else if d <? 334 + l then 10
  else 11.

Definition DateFromTime (t : Z) : Z :=
  let d := DayWithinYear t in
  let l := InLeapYear t in
  match MonthFromTime t with
  | 0 => d + 1
  | 1 => d - 30
  | 2 => d - 58 - l
  | 3 => d - 89 - l
  | 4 => d - 119 - l
  | 5 => d - 150 - l
  | 6 => d - 180 - l
  | 7 => d - 211 - l
  | 8 => d - 242 - l
  | 9 => d - 272 - l
  | 10 => d - 303 - l
  | _ => d - 333 - l
  end.

Definition HourFromTime (t : Z) : Z := (t / msPerHour) mod 24.
Definition MinFromTime (t : Z) : Z := (t / msPerMinute) mod 60.

Definition MakeTime (hour min sec ms : Z) : Z :=
  hour * msPerHour + min * msPerMinute + sec * msPerSecond + ms.

(** Days of the year before month [mn] (0 to 11) starts. *)
Definition DayFromMonth (mn l : Z) : Z :=
  match mn with
  | 0 => 0
  | 1 => 31
  | 2 => 59 + l
  | 3 => 90 + l
  | 4 => 120 + l
  | 5 => 151 + l
  | 6 => 181 + l
  | 7 => 212 + l
  | 8 => 243 + l
  | 9 => 273 + l
  | 10 => 304 + l
  | _ => 334 + l
  end.

(** [MakeDay]: the day number of the first of month [mn] of year [ym],
    moved by [dt - 1]; [NaN] when an argument is not finite or that first
    of the month is no time value. *)
Definition MakeDay (year month date : number) : option Z :=
  match Number.to_integer year, Number.to_integer month, Number.to_integer date with
  | Some y, Some m, Some dt =>
      let ym := y + m / 12 in
      let mn := m mod 12 in
      let first := DayFromYear ym + DayFromMonth mn (leap ym) in
      if Z.abs (first * msPerDay) <=? maxTime
      then Some (first + dt - 1)
      else None
  | _, _, _ => None
  end.

Definition MakeDate (day : option Z) (time : Z) : option Z :=
  match day with
  | Some d => Some (d * msPerDay + time)
  | None => None
  end.

Definition TimeClip (time : number) : option Z :=
  match time with
  | Fin q =>
      if Qle_bool (Qabs q) (inject_Z maxTime)
      then Some (Number.truncate q)
      else None
  | _ => None
  end.

Definition TimeClipZ (time : option Z) : option Z :=
  match time with
  | Some t => if Z.abs t <=? maxTime then Some t else None
  | None => None
  end.

(** Two digit years mean 1900 to 1999 in [new Date(y, m, d)] and
    [Date.UTC(y, m, d)]. *)
Definition MakeFullYear (year : number) : number :=
  match Number.to_integer year with
  | Some yi => if (0 <=? yi) && (yi <=? 99) then Number.of_Z (1900 + yi) else year
  | None => year
  end.

(** What the host supplies: the current time value and the local time
    zone adjustment in milliseconds, asked either for a UTC time value
    ([isUTC] true) or for a local one. *)
Record Host : Type := {
  now : Z;
  LocalTZA : Z -> bool -> Z
}.

Definition LocalTime (h : Host) (t : Z) : Z := t + LocalTZA h t true.
Definition UTC (h : Host) (t : Z) : Z := t - LocalTZA h t false.

(** A host whose local time is a fixed offset from UTC. *)
Definition fixed_offset (current offset : Z) : Host :=
  {| now := current; LocalTZA := fun _ _ => offset |}.

End Time.

(** ** Date objects *)

Module Date.
Import Time.

(** A [Date] holds a time value, [None] standing for [NaN]
    ("Invalid Date"). *)
Record Date : Type := mk { DateValue : option Z }.

(** [new Date()] *)
Definition current (h : Host) : Date := mk (TimeClipZ (Some (now h))).

(** [new Date(value)] for a number *)
Definition of_number (value : number) : Date := mk (TimeClip value).

(** [Date.UTC(year, month, day)] *)
Definition UTC (year month day : number) : number :=
  match TimeClipZ (MakeDate (MakeDay (MakeFullYear year) month day)
                            (MakeTime 0 0 0 0)) with
  | Some t => Number.of_Z t
  | None => NaN
  end.

(** [new Date(year, month, day)]: the fields are local ones. *)
Definition of_fields (h : Host) (year month day : number) : Date :=
  mk (TimeClipZ
        (option_map (Time.UTC h)
           (MakeDate (MakeDay (MakeFullYear year) month day)
                     (MakeTime 0 0 0 0)))).

Definition field (f : Z -> Z) (d : Date) : number :=
  match DateValue d with
  | Some t => Number.of_Z (f t)
  | None => NaN
  end.

Definition getUTCFullYear : Date -> number := field YearFromTime.
Definition getUTCMonth : Date -> number := field MonthFromTime.
Definition getUTCDate : Date -> number := field DateFromTime.
Definition getUTCHours : Date -> number := field HourFromTime.
Definition getUTCMinutes : Date -> number := field MinFromTime.

Definition getFullYear (h : Host) : Date -> number :=
  field (fun t => YearFromTime (LocalTime h t)).
Definition getMonth (h : Host) : Date -> number :=
  field (fun t => MonthFromTime (LocalTime h t)).
Definition getDate (h : Host) : Date -> number :=
  field (fun t => DateFromTime (LocalTime h t)).

End Date.

Export Date(Date, DateValue).

(** ** The source: [src/index.ts] *)

Import RegExp.

Definition MS_PER_DAY : number := Number.of_Z 86400000.

(** [/^(\d{4})-(0[1-9]|1[0-2])-(0[1-9]|[12]\d|3[01])$/] *)
Definition ISO_REGEX : re :=
  Seq (Group (times 4 digit))
 (Seq (chr "-")
 (Seq (Group (Alt (Seq (chr "0") (range "1" "9"))
                  (Seq (chr "1") (range "0" "2"))))
 (Seq (chr "-")
      (Group (Alt (Seq (chr "0") (range "1" "9"))
             (Alt (Seq (one_of "12") digit)
                  (Seq (chr "3") (one_of "01")))))))).

(** [/^[0-9A-Za-z]{3}$/] *)
Definition alnum (c : ascii) : bool :=
  Str.is_digit c || Str.is_upper c || Str.is_lower c.

Definition CODE_REGEX : re := times 3 (Class alnum).

Definition MIN_DAYS : number := Number.of_Z 1296.
Definition MAX_DAYS : number := Number.of_Z 46655.

Definition encode (days : number) : result string :=
  if (days < MIN_DAYS)%num || (days > MAX_DAYS)%num then
    Throw "Days out of range"
  else
    Ok (Str.padStart 3 "0" (Str.toUpperCase (Str.toString 36 (Number.floor days)))).

Definition decode (code : string) : result number :=
  if negb (test CODE_REGEX code) then Throw "Invalid civil-date code"
  else
    let days := Str.parseInt code 36 in
    if Number.isNaN days then Throw "Invalid civil-date code"
    else Ok days.

Definition fromDate (h : Time.Host) (date : Date) : number :=
  let year := Date.getFullYear h date in
  let month := Date.getMonth h date in
  let day := Date.getDate h date in
  let utcTimestamp := Date.UTC year month day in
  Number.floor (utcTimestamp / MS_PER_DAY)%num.

(** The argument of [toDate] is a number or a string. *)
Inductive number_or_string : Type :=
| OfNumber (n : number)
| OfString (s : string).

Definition toDate (value : number_or_string) : result Date :=
  let* days :=
    match value with
    | OfString s => decode s
    | OfNumber n => Ok n
    end in
  Ok (Date.of_number (days * MS_PER_DAY)%num).

Definition toISOString (h : Time.Host) (date : Date) : string :=
  let y := Date.getFullYear h date in
  let m := Str.padStart 2 "0" (Str.toString 10 (Date.getMonth h date + Number.of_Z 1)%num) in
  let d := Str.padStart 2 "0" (Str.toString 10 (Date.getDate h date)) in
  Str.toString 10 y ++ "-" ++ m ++ "-" ++ d.

Module CivilDate.

(** The class holds one read-only field. *)
Record t : Type := mk { value : number }.

(** What the constructor can be called with. *)
Inductive argument : Type :=
| Undefined
| ADate (d : Date)
| ANumber (n : number)
| AString (s : string).

(** [match[i]] for [i >= 1] *)
Definition group (i : nat) (m : list string) : string := nth (i - 1) m "".

Definition new (h : Time.Host) (v : argument) : result t :=
  match v with
  | ADate d => Ok (mk (fromDate h d))
  | Undefined => Ok (mk (fromDate h (Date.current h)))
  | ANumber n =>
      if (n < MIN_DAYS)%num || (n > MAX_DAYS)%num then Throw "Days out of range"
      else Ok (mk n)
  | AString s =>
      match exec ISO_REGEX s with
      | Some m =>
          let y := Str.parseInt (group 1 m) 0 in
          let m' := Str.parseInt (group 2 m) 0 in
          let d := Str.parseInt (group 3 m) 0 in
          let date := Date.of_fields h y (m' - Number.of_Z 1)%num d in
          let valid :=
            (Date.getFullYear h date === y)%num
            && (Date.getMonth h date === m' - Number.of_Z 1)%num
            && (Date.getDate h date === d)%num in
          if valid then Ok (mk (fromDate h date))
          else Throw "Invalid date"
      | None =>
          let* days := decode s in Ok (mk days)
      end
  end.

Definition toString (self : t) : result string := encode (value self).

Definition toDate (self : t) : result Date := toDate (OfNumber (value self)).

Definition toISOString (h : Time.Host) (self : t) : result string :=
  let* date := toDate self in
  let local := Date.of_fields h (Date.getUTCFullYear date)
                 (Date.getUTCMonth date) (Date.getUTCDate date) in
  Ok (toISOString h local).

End CivilDate.

(** ** Vocabulary of the properties

    The predicates the statements below are written with: the shape of a
    code, the range of day counts, the Gregorian calendar, the numbers
    written in an ISO string, and what is asked of the host's time zone. *)

Section Vocabulary.
Import Time.

Definition all_chars : list ascii := map ascii_of_nat (seq 0 256).

Definition option_beq (a b : option Z) : bool :=
  match a, b with
  | Some x, Some y => x =? y
  | None, None => true
  | _, _ => false
  end.

(** What is known of a character of the class [[0-9A-Za-z]]. *)
Definition alnum_check (c : ascii) : bool :=
  implb (alnum c)
    match Str.digit_value c with
    | Some v =>
        (0 <=? v) && (v <? 36)
        && Ascii.eqb (Str.upper_char (Str.digit_char v)) (Str.upper_char c)
    | None => false
    end.

Definition digit_check (c : ascii) : bool :=
  implb (Str.is_digit c)
    match Str.digit_value c with
    | Some v => (0 <=? v) && (v <? 10) && Ascii.eqb (Str.digit_char v) c
    | None => false
    end.

(** The strings [/^[0-9A-Za-z]{3}$/] accepts: three characters, each of
    them a digit or a letter. *)
Definition code_shape (s : string) : Prop :=
  exists a b c,
    s = String a (String b (String c EmptyString))
    /\ alnum a = true /\ alnum b = true /\ alnum c = true.

(** The closed range of day counts. *)
Definition in_range (n : number) : Prop :=
  match n with
  | Fin q => (1296 <= q <= 46655)%Q
  | _ => False
  end.

Definition upper3 (a b c : Z) : string :=
  String (Str.upper_char (Str.digit_char a))
    (String (Str.upper_char (Str.digit_char b))
       (String (Str.upper_char (Str.digit_char c)) EmptyString)).

(** The Gregorian rule for leap years and the length of each month, month
    numbers running from 1 to 12. *)
Definition is_leap_year (y : Z) : bool :=
  (y mod 4 =? 0) && (negb (y mod 100 =? 0) || (y mod 400 =? 0)).

Definition days_in_month (y m : Z) : Z :=
  match m with
  | 2 => if is_leap_year y then 29 else 28
  | 4 | 6 | 9 | 11 => 30
  | _ => 31
  end.

(** A year, a month of 1 to 12 and a day that exists in that month. *)
Definition real_date (y m d : Z) : Prop :=
  1 <= m <= 12 /\ 1 <= d <= days_in_month y m.

(** The day number of a calendar date. *)
Definition day_number (y m d : Z) : Z :=
  DayFromYear y + DayFromMonth (m - 1) (leap y) + d - 1.

Definition digit_of (c : ascii) : Z := Str.code c - 48.

(** The year, month and day written in a string of the form
    [dddd-dd-dd], whatever the numbers are. *)
Definition iso_triple (s : string) : option (Z * Z * Z) :=
  match s with
  | String y1 (String y2 (String y3 (String y4 (String h1
      (String m1 (String m2 (String h2 (String d1 (String d2 EmptyString))))))))) =>
      if forallb Str.is_digit [y1; y2; y3; y4; m1; m2; d1; d2]
         && Ascii.eqb h1 "-" && Ascii.eqb h2 "-"
      then Some (((digit_of y1 * 10 + digit_of y2) * 10 + digit_of y3) * 10
                 + digit_of y4,
                 digit_of m1 * 10 + digit_of m2,
                 digit_of d1 * 10 + digit_of d2)
      else None
  | _ => None
  end.

(** Every offset the host reports is less than a day. *)
Definition offsets_bounded (h : Host) : Prop :=
  forall t isUTC, Z.abs (LocalTZA h t isUTC) < msPerDay.

(** Local midnight of day [n] is a time of that same local day: the day
    is not skipped by a change of offset. *)
Definition local_midnight (h : Host) (n : Z) : Prop :=
  Day (LocalTime h (Time.UTC h (n * msPerDay))) = n.

End Vocabulary.

(** ** The examples of the test suite *)

(** The host of the tests: six hours behind UTC, the clock standing at
    2023-03-14T22:15:37-06:00. *)
Definition central : Time.Host := Time.fixed_offset 1678853737000 (-21600000).

(** A host that moves across the date line as Samoa did: ten hours behind
    UTC until 2011-12-30T10:00:00Z, fourteen hours ahead from then on, so
    that local time passes from the end of 29 December to the start of
    31 December.  A local time of the day left out is read with the offset
    in force before the change, as ECMA-262 asks. *)
Definition apia : Time.Host :=
  {| Time.now := 1325239200000;
     Time.LocalTZA := fun t isUTC =>
       if isUTC : bool
       then if t <? 1325239200000 then -36000000 else 50400000
       else if t <? 1325289600000 then -36000000 else 50400000 |}.

Example encode_1296 : encode (Number.of_Z 1296) = Ok "100".
Proof. reflexivity. Qed.
Example encode_20445 : encode (Number.of_Z 20445) = Ok "FRX".
Proof. reflexivity. Qed.
Example encode_46655 : encode (Number.of_Z 46655) = Ok "ZZZ".
Proof. reflexivity. Qed.
Example encode_fraction : encode (Fin (204459 # 10)) = Ok "FRX".
Proof. reflexivity. Qed.
Example encode_0 : encode (Number.of_Z 0) = Throw "Days out of range".
Proof. reflexivity. Qed.
Example decode_FRX : decode "FRX" = Ok (Number.of_Z 20445).
Proof. reflexivity. Qed.
Example decode_frx : decode "frx" = Ok (Number.of_Z 20445).
Proof. reflexivity. Qed.
Example decode_bad : decode "???" = Throw "Invalid civil-date code".
Proof. reflexivity. Qed.
Example new_iso :
  CivilDate.new central (CivilDate.AString "2025-12-23")
  = Ok (CivilDate.mk (Number.of_Z 20445)).
Proof. vm_compute. reflexivity. Qed.
Example new_iso_feb30 :
  CivilDate.new central (CivilDate.AString "2025-02-30") = Throw "Invalid date".
Proof. vm_compute. reflexivity. Qed.
Example iso_of_100 :
  CivilDate.toISOString central (CivilDate.mk (Number.of_Z 1296)) = Ok "1973-07-20".
Proof. vm_compute. reflexivity. Qed.
Example fromDate_local_fields :
  fromDate central (Date.of_fields central (Number.of_Z 1970) (Number.of_Z 0)
                      (Number.of_Z 2))
  = Number.of_Z 1.
Proof. vm_compute. reflexivity. Qed.
Example new_date_iso :
  (let* cd := CivilDate.new central
                (CivilDate.ADate
                   (Date.of_fields central (Number.of_Z 2025) (Number.of_Z 11)
                      (Number.of_Z 23))) in
   CivilDate.toISOString central cd) = Ok "2025-12-23".
Proof. vm_compute. reflexivity. Qed.
Example toDate_FRX :
  (let* date := toDate (OfString "FRX") in
   Ok (Date.getUTCFullYear date, Date.getUTCHours date, Date.getUTCMinutes date))
  = Ok (Number.of_Z 2025, Number.of_Z 0, Number.of_Z 0).
Proof. vm_compute. reflexivity. Qed.
Example new_code :
  CivilDate.new central (CivilDate.AString "FRX")
  = Ok (CivilDate.mk (Number.of_Z 20445)).
Proof. vm_compute. reflexivity. Qed.
Example new_number_code :
  (let* cd := CivilDate.new central (CivilDate.ANumber (Number.of_Z 20445)) in
   CivilDate.toString cd) = Ok "FRX".
Proof. vm_compute. reflexivity. Qed.
Example new_now_iso :
  (let* cd := CivilDate.new central CivilDate.Undefined in
   CivilDate.toISOString central cd) = Ok "2023-03-14".
Proof. vm_compute. reflexivity. Qed.

(** * Properties *)

(** ** Numbers *)

Section NumberFacts.

Lemma lt_of_Z (a b : Z) : (Number.of_Z a < Number.of_Z b)%num = (a <? b).
Proof.
  unfold Number.lt, Number.of_Z.
  destruct (Qle_bool (inject_Z b) (inject_Z a)) eqn:E; simpl; symmetry.
  - apply Qle_bool_iff in E. rewrite <- Zle_Qle in E. apply Z.ltb_ge. exact E.
  - apply Z.ltb_lt. apply Z.lt_nge. intros H. rewrite Zle_Qle in H.
    apply Qle_bool_iff in H. congruence.
Qed.

Lemma gt_of_Z (a b : Z) : (Number.of_Z a > Number.of_Z b)%num = (b <? a).
Proof. apply lt_of_Z. Qed.

Lemma floor_of_Z (z : Z) : Number.floor (Number.of_Z z) = Number.of_Z z.
Proof. unfold Number.floor, Number.of_Z. now rewrite Qfloor_Z. Qed.

Lemma truncate_of_Z (z : Z) : Number.truncate (inject_Z z) = z.
Proof. unfold Number.truncate. simpl. apply Z.quot_1_r. Qed.

Lemma to_integer_of_Z (z : Z) : Number.to_integer (Number.of_Z z) = Some z.
Proof. simpl. now rewrite truncate_of_Z. Qed.

Lemma strict_eq_of_Z (a b : Z) :
  (Number.of_Z a === Number.of_Z b)%num = (a =? b).
Proof.
  unfold Number.strict_eq, Number.of_Z, Qeq_bool. simpl.
  now rewrite !Z.mul_1_r.
Qed.

Lemma of_Z_inj (a b : Z) : Number.of_Z a = Number.of_Z b -> a = b.
Proof. unfold Number.of_Z, inject_Z. congruence. Qed.

(** A finite number is outside the closed range exactly when one of the
    two comparisons of the source holds. *)
Lemma out_of_range_Fin (q : Q) :
  (Fin q < MIN_DAYS)%num || (Fin q > MAX_DAYS)%num = false
  <-> (1296 <= q <= 46655)%Q.
Proof.
  unfold Number.gt, Number.lt, MIN_DAYS, MAX_DAYS, Number.of_Z.
  rewrite orb_false_iff, !negb_false_iff, !Qle_bool_iff. tauto.
Qed.

Lemma mul_of_Z (a b : Z) :
  (Number.of_Z a * Number.of_Z b)%num = Number.round (inject_Z (a * b)).
Proof. reflexivity. Qed.

(** *** Rounding whole numbers *)

Lemma exponent_whole (a : Z) : 0 < a -> Number.exponent a 1 = Z.log2 a.
Proof.
  intros H. unfold Number.exponent. change (Z.log2 1) with 0. rewrite Z.sub_0_r.
  pose proof (Z.log2_nonneg a) as L. pose proof (Z.log2_spec a H) as [S _].
  unfold Number.scaled. destruct (Z.leb_spec 0 (- Z.log2 a)).
  - replace (- Z.log2 a) with 0 by lia. rewrite Z.pow_0_r.
    destruct (Z.leb_spec 1 (a * 1)); [ reflexivity | lia ].
  - rewrite Z.opp_involutive, Z.mul_1_l.
    destruct (Z.leb_spec (2 ^ Z.log2 a) a); [ reflexivity | lia ].
Qed.

Lemma nearest_even_whole (p : Z) : Number.nearest_even p 1 = p.
Proof.
  unfold Number.nearest_even. rewrite Z.mod_1_r, Z.div_1_r. reflexivity.
Qed.

Lemma nearest_even_floor (p r : Z) : p / r <= Number.nearest_even p r.
Proof.
  unfold Number.nearest_even. destruct (2 * (p mod r) ?= r); try lia.
  destruct (Z.even (p / r)); lia.
Qed.

Lemma Qred_whole (z : Z) (d : positive) (a : Z) :
  z = a * Zpos d -> Qred (z # d) = inject_Z a.
Proof.
  intros E.
  rewrite <- (Qred_identity (inject_Z a)) by (simpl; apply Z.gcd_1_r).
  apply Qred_complete. unfold Qeq, inject_Z. simpl. lia.
Qed.

(** A whole number below [2 ^ 53] is a double. *)
Lemma nearest_double_exact (a : Z) :
  0 < a < 2 ^ 53 -> Number.nearest_double a 1 = Some (inject_Z a).
Proof.
  intros [H0 H1]. unfold Number.nearest_double. rewrite (exponent_whole a H0).
  pose proof (Z.log2_nonneg a) as L.
  assert (U : Z.log2 a < 53) by (apply Z.log2_lt_pow2; lia).
  rewrite Z.max_l by lia.
  unfold Number.scaled.
  destruct (Z.leb_spec 0 (- (Z.log2 a - 52))) as [ K | K ]; [ | lia ].
  rewrite nearest_even_whole.
  destruct (Z.leb_spec 0 (Z.log2 a - 52)) as [ K' | K' ].
  - replace (Z.log2 a - 52) with 0 by lia. change (- 0) with 0.
    rewrite Z.pow_0_r, !Z.mul_1_r.
    destruct (Z.leb_spec (2 ^ 1024) a) as [ B | _ ]; [ | reflexivity ].
    assert (2 ^ 53 < 2 ^ 1024) by (apply Z.pow_lt_mono_r; lia). lia.
  - f_equal. apply Qred_whole.
    assert (0 < 2 ^ (- (Z.log2 a - 52))) by (apply Z.pow_pos_nonneg; lia).
    rewrite Z2Pos.id by assumption. reflexivity.
Qed.

(** A whole number from [2 ^ 53] on rounds to a whole number that is not
    below [2 ^ 53 - 1], or past the largest double. *)
Lemma nearest_double_large (a : Z) :
  2 ^ 53 <= a ->
  match Number.nearest_double a 1 with
  | Some v => exists m, v = inject_Z m /\ 2 ^ 53 - 1 <= m
  | None => True
  end.
Proof.
  intros H.
  assert (H0 : 0 < a) by (pose proof (Z.pow_pos_nonneg 2 53); lia).
  unfold Number.nearest_double. rewrite (exponent_whole a H0).
  assert (L : 53 <= Z.log2 a) by (apply Z.log2_le_pow2; lia).
  pose proof (Z.log2_spec a H0) as [S _].
  rewrite Z.max_l by lia.
  unfold Number.scaled.
  destruct (Z.leb_spec 0 (- (Z.log2 a - 52))) as [ K | K ]; [ lia | ].
  destruct (Z.leb_spec 0 (Z.log2 a - 52)) as [ _ | K' ]; [ | lia ].
  rewrite Z.opp_involutive, Z.mul_1_l.
  set (k := Z.log2 a - 52) in *.
  assert (P : 2 <= 2 ^ k)
    by (change 2 with (2 ^ 1) at 1; apply Z.pow_le_mono_r; lia).
  assert (E : 2 ^ Z.log2 a = 2 ^ k * 2 ^ 52)
    by (rewrite <- Z.pow_add_r by lia; f_equal; lia).
  destruct (2 ^ 1024 <=? Number.nearest_even a (2 ^ k) * 2 ^ k); [ exact I | ].
  eexists. split; [ reflexivity | ].
  pose proof (nearest_even_floor a (2 ^ k)) as F.
  pose proof (Z.div_mod a (2 ^ k) ltac:(lia)) as D.
  pose proof (Z.mod_pos_bound a (2 ^ k) ltac:(lia)) as M.
  change (2 ^ 52) with 4503599627370496 in E.
  change (2 ^ 53) with 9007199254740992.
  nia.
Qed.

(** The two lemmas for a whole number of either sign. *)
Lemma round_whole (z : Z) :
  (Z.abs z < 2 ^ 53 -> Number.round (inject_Z z) = Number.of_Z z)
  /\ (2 ^ 53 <= Z.abs z ->
      match Number.round (inject_Z z) with
      | Fin q => exists m, q = inject_Z m /\ 2 ^ 53 - 1 <= Z.abs m
      | NaN => False
      | _ => True
      end).
Proof.
  unfold Number.round, Number.of_Z. cbn [Qnum Qden inject_Z].
  destruct z as [ | p | p ].
  - split; [ reflexivity | ]. intros H. change (Z.abs 0) with 0 in H.
    pose proof (Z.pow_pos_nonneg 2 53). lia.
  - split; intros H.
    + rewrite nearest_double_exact by lia. reflexivity.
    + pose proof (nearest_double_large (Z.pos p) ltac:(lia)) as N.
      destruct (Number.nearest_double (Z.pos p) 1) as [ v | ]; [ | exact I ].
      destruct N as (m & -> & Hm). exists m. split; [ reflexivity | lia ].
  - split; intros H.
    + rewrite nearest_double_exact by lia. reflexivity.
    + pose proof (nearest_double_large (Z.pos p) ltac:(lia)) as N.
      destruct (Number.nearest_double (Z.pos p) 1) as [ v | ]; [ | exact I ].
      destruct N as (m & -> & Hm). exists (- m). split; [ reflexivity | lia ].
Qed.

(** *** Rounding a ratio that is a whole number *)

Lemma exponent_ratio (a d : Z) :
  0 < a -> 0 < d -> Number.exponent (a * d) d = Z.log2 a.
Proof.
  intros Ha Hd. unfold Number.exponent.
  pose proof (Z.log2_nonneg a) as La. pose proof (Z.log2_nonneg d) as Ld.
  pose proof (Z.log2_spec a Ha) as [Sa Ta].
  pose proof (Z.log2_mul_below a d Ha Hd) as Lo.
  pose proof (Z.log2_mul_above a d ltac:(lia) ltac:(lia)) as Hi.
  set (e := Z.log2 (a * d) - Z.log2 d) in *.
  assert (E : e = Z.log2 a \/ e = Z.log2 a + 1) by lia.
  unfold Number.scaled. destruct (Z.leb_spec 0 (- e)) as [ K | K ].
  - assert (e = 0) by lia. replace (- e) with 0 by lia. rewrite Z.pow_0_r, Z.mul_1_r.
    destruct (Z.leb_spec d (a * d)); [ lia | nia ].
  - rewrite Z.opp_involutive.
    assert (P : 0 < 2 ^ e) by (apply Z.pow_pos_nonneg; lia).
    destruct E as [ E | E ]; rewrite E in *.
    + destruct (Z.leb_spec (d * 2 ^ Z.log2 a) (a * d)); [ reflexivity | nia ].
    + replace (Z.succ (Z.log2 a)) with (Z.log2 a + 1) in Ta by lia.
      destruct (Z.leb_spec (d * 2 ^ (Z.log2 a + 1)) (a * d)); [ nia | lia ].
Qed.

Lemma nearest_even_ratio (q r : Z) : 0 < r -> Number.nearest_even (q * r) r = q.
Proof.
  intros H. unfold Number.nearest_even.
  rewrite Z.mod_mul, Z.div_mul by lia.
  change (2 * 0) with 0. destruct (Z.compare_spec 0 r); [ lia | reflexivity | lia ].
Qed.

(** A ratio that is a whole number below [2 ^ 53] is a double. *)
Lemma nearest_double_ratio (a d : Z) :
  0 < a < 2 ^ 53 -> 0 < d -> Number.nearest_double (a * d) d = Some (inject_Z a).
Proof.
  intros [H0 H1] Hd. unfold Number.nearest_double. rewrite (exponent_ratio a d H0 Hd).
  pose proof (Z.log2_nonneg a) as L.
  assert (U : Z.log2 a < 53) by (apply Z.log2_lt_pow2; lia).
  rewrite Z.max_l by lia.
  unfold Number.scaled.
  destruct (Z.leb_spec 0 (- (Z.log2 a - 52))) as [ K | K ]; [ | lia ].
  replace (a * d * 2 ^ (- (Z.log2 a - 52)))
    with (a * 2 ^ (- (Z.log2 a - 52)) * d) by ring.
  rewrite (nearest_even_ratio _ d Hd).
  destruct (Z.leb_spec 0 (Z.log2 a - 52)) as [ K' | K' ].
  - replace (Z.log2 a - 52) with 0 by lia. change (- 0) with 0.
    rewrite Z.pow_0_r, !Z.mul_1_r.
    destruct (Z.leb_spec (2 ^ 1024) a) as [ B | _ ]; [ | reflexivity ].
    assert (2 ^ 53 < 2 ^ 1024) by (apply Z.pow_lt_mono_r; lia). lia.
  - f_equal. apply Qred_whole.
    assert (0 < 2 ^ (- (Z.log2 a - 52))) by (apply Z.pow_pos_nonneg; lia).
    rewrite Z2Pos.id by assumption. reflexivity.
Qed.

(** An exact result that is a whole number below [2 ^ 53] is not changed
    by rounding. *)
Lemma round_exact (q : Q) (a : Z) :
  Qeq q (inject_Z a) -> Z.abs a < 2 ^ 53 -> Number.round q = Number.of_Z a.
Proof.
  destruct q as [ z d ]. unfold Qeq, Number.round, Number.of_Z.
  cbn [Qnum Qden inject_Z]. rewrite Z.mul_1_r. intros E B.
  destruct z as [ | p | p ].
  - assert (a = 0) by nia. subst a. reflexivity.
  - rewrite E, nearest_double_ratio by lia. reflexivity.
  - assert (E' : Z.pos p = (- a) * Z.pos d) by lia.
    rewrite E', nearest_double_ratio by lia.
    unfold Qopp, inject_Z. cbn [Qnum Qden]. now rewrite Z.opp_involutive.
Qed.

Lemma add_of_Z (a b : Z) :
  Z.abs (a + b) < 2 ^ 53 ->
  (Number.of_Z a + Number.of_Z b)%num = Number.of_Z (a + b).
Proof.
  intros B. unfold Number.add, Number.of_Z at 1 2. apply round_exact; [ | exact B ].
  now rewrite inject_Z_plus.
Qed.

Lemma sub_of_Z (a b : Z) :
  Z.abs (a - b) < 2 ^ 53 ->
  (Number.of_Z a - Number.of_Z b)%num = Number.of_Z (a - b).
Proof.
  intros B. unfold Number.sub, Number.of_Z at 1 2. apply round_exact; [ | exact B ].
  unfold Z.sub. now rewrite inject_Z_plus, inject_Z_opp.
Qed.

Lemma div_of_Z (a b : Z) :
  Z.abs a < 2 ^ 53 -> b <> 0 ->
  (Number.of_Z (a * b) / Number.of_Z b)%num = Number.of_Z a.
Proof.
  intros B N. unfold Number.div, Number.of_Z at 1 2.
  assert (S : Number.sign (inject_Z b) <> Eq).
  { unfold Number.sign. rewrite <- Qeq_alt. unfold Qeq, inject_Z. simpl. lia. }
  assert (R : Number.round (inject_Z (a * b) / inject_Z b) = Number.of_Z a).
  { apply round_exact; [ | exact B ].
    rewrite inject_Z_mult. field. unfold Qeq, inject_Z. simpl. lia. }
  destruct (Number.sign (inject_Z b)); [ contradiction | exact R | exact R ].
Qed.

End NumberFacts.

(** ** Characters and digits

    Facts about single characters and single digits are decided by running
    a boolean check over all 256 characters, or over all digit values. *)

Section Digits.

Lemma every_char (p : ascii -> bool) :
  forallb p all_chars = true -> forall c, p c = true.
Proof.
  intros H c. rewrite forallb_forall in H. apply H.
  unfold all_chars. rewrite <- (ascii_nat_embedding c).
  apply in_map, in_seq. pose proof (nat_ascii_bounded c). lia.
Qed.

Lemma every_below (p : Z -> bool) (n : nat) :
  forallb p (map Z.of_nat (seq 0 n)) = true ->
  forall k, 0 <= k < Z.of_nat n -> p k = true.
Proof.
  intros H k Hk. rewrite forallb_forall in H. apply H.
  rewrite <- (Z2Nat.id k) by lia. apply in_map, in_seq. lia.
Qed.

Lemma option_beq_eq (a b : option Z) : option_beq a b = true -> a = b.
Proof.
  destruct a, b; simpl; try discriminate; try reflexivity.
  intros H. apply Z.eqb_eq in H. now subst.
Qed.

Lemma digit_value_digit_char (k : Z) :
  0 <= k < 36 -> Str.digit_value (Str.digit_char k) = Some k.
Proof.
  intros H. apply option_beq_eq. revert k H.
  apply (every_below
           (fun k => option_beq (Str.digit_value (Str.digit_char k)) (Some k))
           36).
  vm_compute. reflexivity.
Qed.

Lemma digit_value_upper_digit_char (k : Z) :
  0 <= k < 36 ->
  Str.digit_value (Str.upper_char (Str.digit_char k)) = Some k.
Proof.
  intros H. apply option_beq_eq. revert k H.
  apply (every_below
           (fun k => option_beq
                       (Str.digit_value (Str.upper_char (Str.digit_char k)))
                       (Some k))
           36).
  vm_compute. reflexivity.
Qed.

Lemma alnum_upper_digit_char (k : Z) :
  0 <= k < 36 -> alnum (Str.upper_char (Str.digit_char k)) = true.
Proof.
  revert k.
  apply (every_below (fun k => alnum (Str.upper_char (Str.digit_char k))) 36).
  vm_compute. reflexivity.
Qed.

Lemma is_digit_digit_char (k : Z) :
  0 <= k < 10 -> Str.is_digit (Str.digit_char k) = true.
Proof.
  revert k. apply (every_below (fun k => Str.is_digit (Str.digit_char k)) 10).
  vm_compute. reflexivity.
Qed.

Lemma alnum_digit_value (c : ascii) :
  alnum c = true ->
  exists v, Str.digit_value c = Some v /\ 0 <= v < 36
            /\ Str.upper_char (Str.digit_char v) = Str.upper_char c.
Proof.
  intros Hc.
  assert (H : alnum_check c = true)
    by (apply every_char; vm_compute; reflexivity).
  unfold alnum_check in H. rewrite Hc in H. simpl in H.
  destruct (Str.digit_value c) as [ v | ]; [ | discriminate ].
  exists v. apply andb_true_iff in H. destruct H as [H Hu].
  apply andb_true_iff in H. destruct H as [H0 H1].
  apply Ascii.eqb_eq in Hu. split; [ reflexivity | ]. split; [ lia | exact Hu ].
Qed.

Lemma alnum_upper_char (c : ascii) : alnum (Str.upper_char c) = alnum c.
Proof.
  apply eqb_prop.
  apply (every_char (fun c => Bool.eqb (alnum (Str.upper_char c)) (alnum c))).
  vm_compute. reflexivity.
Qed.

Lemma digit_value_upper_char (c : ascii) :
  Str.digit_value (Str.upper_char c) = Str.digit_value c.
Proof.
  apply option_beq_eq.
  apply (every_char
           (fun c => option_beq (Str.digit_value (Str.upper_char c))
                                (Str.digit_value c))).
  vm_compute. reflexivity.
Qed.

Lemma is_digit_value (c : ascii) :
  Str.is_digit c = true ->
  exists v, Str.digit_value c = Some v /\ 0 <= v < 10 /\ Str.digit_char v = c.
Proof.
  intros Hc.
  assert (H : digit_check c = true)
    by (apply every_char; vm_compute; reflexivity).
  unfold digit_check in H. rewrite Hc in H. simpl in H.
  destruct (Str.digit_value c) as [ v | ]; [ | discriminate ].
  exists v. apply andb_true_iff in H. destruct H as [H Hu].
  apply andb_true_iff in H. destruct H as [H0 H1].
  apply Ascii.eqb_eq in Hu. split; [ reflexivity | ]. split; [ lia | exact Hu ].
Qed.

(** *** Writing digits *)

Lemma digits_loop_small (r : nat) (radix n : Z) (acc : string) :
  n < radix ->
  Str.digits_loop (S r) radix n acc = String (Str.digit_char n) acc.
Proof. intros H. simpl. apply Z.ltb_lt in H. now rewrite H. Qed.

Lemma digits_loop_step (r : nat) (radix n : Z) (acc : string) :
  radix <= n ->
  Str.digits_loop (S r) radix n acc
  = Str.digits_loop r radix (n / radix)
      (String (Str.digit_char (n mod radix)) acc).
Proof. intros H. simpl. apply Z.ltb_ge in H. now rewrite H. Qed.

(** The result does not depend on the number of rounds once there is one
    round per bit. *)
Lemma digits_loop_enough (radix : Z) (r1 : nat) :
  2 <= radix ->
  forall (r2 : nat) (n : Z) (acc : string),
    0 <= n < 2 ^ Z.of_nat (S r1) -> n < 2 ^ Z.of_nat (S r2) ->
    Str.digits_loop (S r1) radix n acc = Str.digits_loop (S r2) radix n acc.
Proof.
  intros Hr. induction r1 as [ | r1 IH ]; intros r2 n acc H1 H2.
  - change (2 ^ Z.of_nat 1) with 2 in H1.
    rewrite !digits_loop_small by lia. reflexivity.
  - destruct (Z.lt_ge_cases n radix) as [Hlt | Hge].
    + rewrite !digits_loop_small by lia. reflexivity.
    + destruct r2 as [ | r2 ].
      * change (2 ^ Z.of_nat 1) with 2 in H2. lia.
      * rewrite (digits_loop_step (S r1)), (digits_loop_step (S r2)) by lia.
        assert (Hhalf : forall k : nat,
                   n < 2 ^ Z.of_nat (S (S k)) -> n / radix < 2 ^ Z.of_nat (S k)).
        { intros k Hk. apply Z.div_lt_upper_bound; [ lia | ].
          rewrite (Nat2Z.inj_succ (S k)), Z.pow_succ_r in Hk by lia.
          assert (0 < 2 ^ Z.of_nat (S k)) by (apply Z.pow_pos_nonneg; lia).
          nia. }
        apply IH.
        -- split; [ apply Z.div_pos; lia | apply Hhalf; lia ].
        -- apply Hhalf; lia.
Qed.

Lemma append_assoc (a b c : string) : (a ++ b) ++ c = a ++ (b ++ c).
Proof. induction a as [ | x a IH ]; simpl; [ reflexivity | now rewrite IH ]. Qed.

Lemma digits_loop_acc (radix : Z) (r : nat) :
  forall (n : Z) (acc : string),
    Str.digits_loop r radix n acc
    = Str.digits_loop r radix n EmptyString ++ acc.
Proof.
  induction r as [ | r IH ]; intros n acc; simpl; [ reflexivity | ].
  destruct (n <? radix); [ reflexivity | ].
  rewrite IH.
  rewrite (IH _ (String (Str.digit_char (n mod radix)) EmptyString)).
  rewrite append_assoc. reflexivity.
Qed.

Lemma log2_rounds (n : Z) : 0 <= n -> n < 2 ^ Z.of_nat (S (Z.to_nat (Z.log2 n))).
Proof.
  intros H. rewrite Nat2Z.inj_succ, Z2Nat.id by apply Z.log2_nonneg.
  destruct (Z.eq_dec n 0) as [-> | Hn]; [ reflexivity | ].
  apply Z.log2_spec. lia.
Qed.

Lemma digits_one (radix n : Z) :
  n < radix -> Str.digits radix n = String (Str.digit_char n) EmptyString.
Proof. intros H. unfold Str.digits. now apply digits_loop_small. Qed.

(** One more digit at the end. *)
Lemma digits_snoc (radix n c : Z) :
  2 <= radix -> 0 < n -> 0 <= c < radix ->
  Str.digits radix (n * radix + c)
  = Str.digits radix n ++ String (Str.digit_char c) EmptyString.
Proof.
  intros Hr Hn Hc. unfold Str.digits.
  assert (Hbig : radix <= n * radix + c) by nia.
  pose proof (log2_rounds (n * radix + c) ltac:(lia)) as Hb.
  destruct (Z.to_nat (Z.log2 (n * radix + c))) as [ | r ] eqn:E.
  - change (2 ^ Z.of_nat 1) with 2 in Hb. lia.
  - rewrite digits_loop_step by lia.
    replace ((n * radix + c) / radix) with n
      by (apply Z.div_unique with c; lia).
    replace ((n * radix + c) mod radix) with c
      by (apply Z.mod_unique with n; lia).
    rewrite digits_loop_acc. f_equal.
    apply digits_loop_enough; [ lia | | apply log2_rounds; lia ].
    split; [ lia | ].
    rewrite (Nat2Z.inj_succ (S r)), Z.pow_succ_r in Hb by lia. nia.
Qed.

(** *** Reading digits *)

Lemma parse_digits_cons (radix : Z) (acc : option Z) (c : ascii) (s : string) (d : Z) :
  Str.digit_value c = Some d -> d < radix ->
  Str.parse_digits radix acc (String c s)
  = Str.parse_digits radix
      (Some (match acc with Some a => a * radix + d | None => d end)) s.
Proof. intros Hd Hlt. simpl. rewrite Hd. apply Z.ltb_lt in Hlt. now rewrite Hlt. Qed.

Lemma append_empty (s : string) : s ++ EmptyString = s.
Proof. induction s as [ | c s IH ]; simpl; [ reflexivity | now rewrite IH ]. Qed.

(** What [digits] writes, [parse_digits] reads back: the digits of [n]
    start with a digit and extend any value read so far by [n]. *)
Lemma digits_read_back (radix : Z) :
  2 <= radix <= 36 ->
  forall (m : nat) (n : Z),
    0 <= n < Z.of_nat m ->
    (exists c s' d,
        Str.digits radix n = String c s'
        /\ Str.digit_value c = Some d /\ d < radix)
    /\ exists k,
        0 <= k
        /\ forall a s2,
            Str.parse_digits radix (Some a) (Str.digits radix n ++ s2)
            = Str.parse_digits radix (Some (a * radix ^ k + n)) s2.
Proof.
  intros Hr. induction m as [ | m IH ]; intros n Hn; [ lia | ].
  destruct (Z.lt_ge_cases n radix) as [ Small | Big ].
  - rewrite digits_one by exact Small.
    assert (Dv : Str.digit_value (Str.digit_char n) = Some n)
      by (apply digit_value_digit_char; lia).
    split.
    + exists (Str.digit_char n), EmptyString, n. auto.
    + exists 1. split; [ lia | ]. intros a s2. cbn [append].
      rewrite (parse_digits_cons radix _ _ _ n Dv Small).
      now rewrite Z.pow_1_r.
  - pose proof (Z.div_mod n radix ltac:(lia)) as E.
    pose proof (Z.mod_pos_bound n radix ltac:(lia)) as Rm.
    assert (Q : 0 < n / radix) by (apply Z.div_str_pos; lia).
    assert (Ql : n / radix < n) by (apply Z.div_lt; lia).
    destruct (IH (n / radix) ltac:(lia))
      as [(c & s' & d & Dq & Dc & Dl) (k & Hk & Rd)].
    assert (Dv : Str.digit_value (Str.digit_char (n mod radix))
                 = Some (n mod radix))
      by (apply digit_value_digit_char; lia).
    assert (Dn : Str.digits radix n
                 = Str.digits radix (n / radix)
                   ++ String (Str.digit_char (n mod radix)) EmptyString)
      by (rewrite <- digits_snoc by lia; f_equal; lia).
    rewrite Dn. split.
    + exists c, (s' ++ String (Str.digit_char (n mod radix)) EmptyString), d.
      rewrite Dq. auto.
    + exists (Z.succ k). split; [ lia | ]. intros a s2.
      rewrite append_assoc. cbn [append]. rewrite Rd.
      rewrite (parse_digits_cons radix _ _ _ (n mod radix) Dv ltac:(lia)).
      rewrite Z.pow_succ_r by exact Hk. do 2 f_equal. nia.
Qed.

Lemma parse_digits_digits (radix n : Z) :
  2 <= radix <= 36 -> 0 <= n ->
  Str.parse_digits radix None (Str.digits radix n) = Some n.
Proof.
  intros Hr Hn.
  destruct (digits_read_back radix Hr (S (Z.to_nat n)) n ltac:(lia))
    as [(c & s' & d & Dq & Dc & Dl) (k & Hk & Rd)].
  specialize (Rd 0 EmptyString). rewrite append_empty in Rd.
  rewrite Dq in *.
  rewrite (parse_digits_cons radix None c s' d Dc Dl).
  rewrite (parse_digits_cons radix (Some 0) c s' d Dc Dl) in Rd.
  cbn [Z.mul Z.add] in Rd. rewrite Rd. reflexivity.
Qed.

Lemma alnum_plain (c : ascii) :
  alnum c = true ->
  Str.is_space c = false /\ Ascii.eqb c "-" = false /\ Ascii.eqb c "+" = false.
Proof.
  intros Hc.
  assert (H : implb (alnum c)
                (negb (Str.is_space c) && negb (Ascii.eqb c "-")
                 && negb (Ascii.eqb c "+")) = true)
    by (revert c Hc; intros c _;
        apply (every_char
                 (fun c => implb (alnum c)
                             (negb (Str.is_space c) && negb (Ascii.eqb c "-")
                              && negb (Ascii.eqb c "+"))));
        vm_compute; reflexivity).
  rewrite Hc in H. simpl in H.
  rewrite !andb_true_iff, !negb_true_iff in H. tauto.
Qed.

Lemma digit_not_x (c : ascii) :
  Str.is_digit c = true -> Ascii.eqb c "x" || Ascii.eqb c "X" = false.
Proof.
  intros Hc.
  assert (H : implb (Str.is_digit c)
                (negb (Ascii.eqb c "x" || Ascii.eqb c "X")) = true)
    by (apply (every_char
                 (fun c => implb (Str.is_digit c)
                             (negb (Ascii.eqb c "x" || Ascii.eqb c "X"))));
        vm_compute; reflexivity).
  rewrite Hc in H. simpl in H. now apply negb_true_iff in H.
Qed.

Lemma is_digit_alnum (c : ascii) : Str.is_digit c = true -> alnum c = true.
Proof. intros H. unfold alnum. now rewrite H. Qed.

End Digits.

(** ** The radix-36 codec *)

Section Codec.

Lemma test_CODE_REGEX (s : string) : test CODE_REGEX s = true <-> code_shape s.
Proof.
  unfold code_shape, test, exec. split.
  - destruct s as [ | a [ | b [ | c [ | d s ] ] ] ]; simpl; try discriminate;
      try (destruct (alnum a); discriminate);
      try (destruct (alnum a), (alnum b); discriminate).
    + destruct (alnum a) eqn:Ha, (alnum b) eqn:Hb, (alnum c) eqn:Hc;
        try discriminate.
      intros _. exists a, b, c. auto.
    + destruct (alnum a), (alnum b), (alnum c); discriminate.
  - intros (a & b & c & -> & Ha & Hb & Hc). simpl. now rewrite Ha, Hb, Hc.
Qed.

Lemma in_range_of_Z (d : Z) : in_range (Number.of_Z d) <-> 1296 <= d <= 46655.
Proof.
  unfold in_range, Number.of_Z.
  change 1296%Q with (inject_Z 1296). change 46655%Q with (inject_Z 46655).
  rewrite <- !Zle_Qle. tauto.
Qed.

Lemma in_range_guard (n : number) :
  n <> NaN ->
  ((n < MIN_DAYS)%num || (n > MAX_DAYS)%num = false <-> in_range n).
Proof.
  intros Hn. destruct n as [ q | | | ]; simpl.
  - apply out_of_range_Fin.
  - congruence.
  - split; [ discriminate | tauto ].
  - split; [ discriminate | tauto ].
Qed.

Lemma parseInt_alnum (a : ascii) (s : string) :
  alnum a = true ->
  Str.parseInt (String a s) 36
  = match Str.parse_digits 36 None (String a s) with
    | Some v => Number.of_Z v
    | None => NaN
    end.
Proof.
  intros Ha. destruct (alnum_plain a Ha) as (Hs & Hm & Hp).
  unfold Str.parseInt. cbn [Str.trim_start]. rewrite Hs.
  cbn [Str.strip_sign]. rewrite Hm, Hp. reflexivity.
Qed.

Lemma parse_three (a b c : ascii) (va vb vc : Z) :
  Str.digit_value a = Some va -> Str.digit_value b = Some vb ->
  Str.digit_value c = Some vc -> va < 36 -> vb < 36 -> vc < 36 ->
  Str.parse_digits 36 None (String a (String b (String c EmptyString)))
  = Some ((va * 36 + vb) * 36 + vc).
Proof.
  intros Ha Hb Hc La Lb Lc.
  rewrite (parse_digits_cons 36 None a _ va Ha La).
  rewrite (parse_digits_cons 36 _ b _ vb Hb Lb).
  rewrite (parse_digits_cons 36 _ c _ vc Hc Lc). reflexivity.
Qed.

(** [decode] on an accepted string: the base-36 value of its characters. *)
Lemma decode_shape (a b c : ascii) :
  alnum a = true -> alnum b = true -> alnum c = true ->
  exists va vb vc,
    (0 <= va < 36 /\ 0 <= vb < 36 /\ 0 <= vc < 36)
    /\ (Str.digit_value a = Some va /\ Str.digit_value b = Some vb
        /\ Str.digit_value c = Some vc)
    /\ upper3 va vb vc
       = Str.toUpperCase (String a (String b (String c EmptyString)))
    /\ decode (String a (String b (String c EmptyString)))
       = Ok (Number.of_Z ((va * 36 + vb) * 36 + vc)).
Proof.
  intros Ha Hb Hc.
  destruct (alnum_digit_value a Ha) as (va & Da & Ra & Ua).
  destruct (alnum_digit_value b Hb) as (vb & Db & Rb & Ub).
  destruct (alnum_digit_value c Hc) as (vc & Dc & Rc & Uc).
  exists va, vb, vc. repeat split; try lia; try assumption.
  - unfold upper3. simpl. now rewrite Ua, Ub, Uc.
  - unfold decode.
    assert (T : test CODE_REGEX (String a (String b (String c EmptyString))) = true)
      by (apply test_CODE_REGEX; exists a, b, c; auto).
    rewrite T. simpl negb. cbv iota.
    rewrite (parseInt_alnum a _ Ha).
    rewrite (parse_three a b c va vb vc) by (assumption || lia).
    reflexivity.
Qed.

(** [encode] on a three digit value. *)
Lemma encode_three (a b c : Z) :
  1 <= a < 36 -> 0 <= b < 36 -> 0 <= c < 36 ->
  encode (Number.of_Z ((a * 36 + b) * 36 + c)) = Ok (upper3 a b c).
Proof.
  intros Ha Hb Hc. unfold encode.
  assert (R : 1296 <= (a * 36 + b) * 36 + c <= 46655) by lia.
  unfold MIN_DAYS, MAX_DAYS. rewrite lt_of_Z, gt_of_Z.
  destruct (Z.ltb_spec ((a * 36 + b) * 36 + c) 1296); [ lia | ].
  destruct (Z.ltb_spec 46655 ((a * 36 + b) * 36 + c)); [ lia | ].
  simpl orb. cbv iota. rewrite floor_of_Z.
  unfold Str.toString, Number.of_Z. rewrite Qfloor_Z.
  unfold Str.int_toString.
  destruct (Z.ltb_spec ((a * 36 + b) * 36 + c) 0); [ lia | ].
  rewrite (digits_snoc 36 (a * 36 + b) c) by lia.
  rewrite (digits_snoc 36 a b) by lia.
  rewrite (digits_one 36 a) by lia.
  reflexivity.
Qed.

Lemma three_digits (d : Z) :
  1296 <= d <= 46655 ->
  exists a b c,
    d = (a * 36 + b) * 36 + c /\ 1 <= a < 36 /\ 0 <= b < 36 /\ 0 <= c < 36.
Proof.
  intros H. exists (d / 36 / 36), ((d / 36) mod 36), (d mod 36).
  pose proof (Z.div_mod d 36 ltac:(lia)).
  pose proof (Z.div_mod (d / 36) 36 ltac:(lia)).
  pose proof (Z.mod_pos_bound d 36 ltac:(lia)).
  pose proof (Z.mod_pos_bound (d / 36) 36 ltac:(lia)).
  repeat split; try lia.
Qed.

Lemma decode_upper3 (a b c : Z) :
  0 <= a < 36 -> 0 <= b < 36 -> 0 <= c < 36 ->
  decode (upper3 a b c) = Ok (Number.of_Z ((a * 36 + b) * 36 + c)).
Proof.
  intros Ha Hb Hc.
  destruct (decode_shape _ _ _ (alnum_upper_digit_char a Ha)
              (alnum_upper_digit_char b Hb) (alnum_upper_digit_char c Hc))
    as (va & vb & vc & _ & (Da & Db & Dc) & _ & D).
  rewrite digit_value_upper_digit_char in Da, Db, Dc by assumption.
  injection Da as <-. injection Db as <-. injection Dc as <-. exact D.
Qed.

End Codec.

Section CodecClaims.

Lemma floor_in_range (q : Q) :
  (1296 <= q <= 46655)%Q -> 1296 <= Qfloor q <= 46655.
Proof.
  intros [Hlo Hhi]. split.
  - change 1296 with (Qfloor (inject_Z 1296)). now apply Qfloor_resp_le.
  - change 46655 with (Qfloor (inject_Z 46655)). now apply Qfloor_resp_le.
Qed.

Lemma encode_in_range (d : Z) :
  1296 <= d <= 46655 ->
  exists a b c,
    d = (a * 36 + b) * 36 + c
    /\ (0 <= a < 36 /\ 0 <= b < 36 /\ 0 <= c < 36)
    /\ encode (Number.of_Z d) = Ok (upper3 a b c)
    /\ decode (upper3 a b c) = Ok (Number.of_Z d).
Proof.
  intros H. destruct (three_digits d H) as (a & b & c & -> & Ha & Hb & Hc).
  exists a, b, c. repeat split; try lia.
  - now apply encode_three.
  - apply decode_upper3; lia.
Qed.

Lemma encode_floors (q : Q) :
  (1296 <= q <= 46655)%Q -> encode (Fin q) = encode (Number.of_Z (Qfloor q)).
Proof.
  intros H. pose proof (floor_in_range q H) as Hf. unfold encode.
  rewrite (proj2 (in_range_guard (Fin q) ltac:(discriminate)) H).
  rewrite (proj2 (in_range_guard (Number.of_Z (Qfloor q)) ltac:(discriminate))
             (proj2 (in_range_of_Z _) Hf)).
  rewrite floor_of_Z. reflexivity.
Qed.

(** C3: the codec round-trips in both directions.  Encoding an integer of
    [1296, 46655] and decoding the code gives the integer back; for a
    string the pattern of [decode] accepts and whose value lies in that
    range, decoding its upper-case form and encoding the value gives the
    upper-case form back. *)
Theorem codec_round_trip :
  (forall d : Z,
      1296 <= d <= 46655 ->
      (let* code := encode (Number.of_Z d) in decode code) = Ok (Number.of_Z d))
  /\ (forall (c : string) (v : number),
         test CODE_REGEX c = true -> decode c = Ok v -> in_range v ->
         (let* days := decode (Str.toUpperCase c) in encode days)
         = Ok (Str.toUpperCase c)).
Proof.
  split.
  - intros d H. destruct (encode_in_range d H) as (a & b & c & _ & _ & E & D).
    rewrite E. exact D.
  - intros c v T D R. apply test_CODE_REGEX in T.
    destruct T as (x & y & z & -> & Hx & Hy & Hz).
    destruct (decode_shape x y z Hx Hy Hz)
      as (vx & vy & vz & (Bx & By & Bz) & _ & U & Dv).
    rewrite Dv in D. injection D as <-.
    apply (proj1 (in_range_of_Z _)) in R.
    rewrite <- U. rewrite (decode_upper3 vx vy vz Bx By Bz). simpl bind.
    apply encode_three; lia.
Qed.

Lemma codec_round_trip_witness :
  (let* code := encode (Number.of_Z 20445) in decode code)
  = Ok (Number.of_Z 20445)
  /\ (let* days := decode (Str.toUpperCase "frx") in encode days)
     = Ok (Str.toUpperCase "frx").
Proof.
  split.
  - apply (proj1 codec_round_trip 20445). lia.
  - apply (proj2 codec_round_trip "frx" (Number.of_Z 20445)).
    + reflexivity.
    + reflexivity.
    + apply in_range_of_Z. lia.
Defined.

(** C4: [decode] succeeds exactly on the strings of three characters
    drawn from the digits and the letters, and throws "Invalid civil-date
    code" on every other string.  A lower-case letter counts as its
    upper-case one.  Every accepted string decodes to an integer of
    [0, 46655]; there is no lower bound of 1296 at this layer. *)
Theorem decode_accepts_three_alphanumerics :
  (forall s : string,
      code_shape s ->
      exists v : Z,
        decode s = Ok (Number.of_Z v) /\ 0 <= v <= 46655
        /\ decode (Str.toUpperCase s) = Ok (Number.of_Z v))
  /\ (forall s : string,
         ~ code_shape s -> decode s = Throw "Invalid civil-date code")
  /\ (forall s : string, code_shape s <-> test CODE_REGEX s = true)
  /\ (decode "FRX" = Ok (Number.of_Z 20445)
      /\ decode "frx" = Ok (Number.of_Z 20445)
      /\ decode "000" = Ok (Number.of_Z 0)
      /\ decode "ZZZ" = Ok (Number.of_Z 46655))
  /\ (decode "???" = Throw "Invalid civil-date code"
      /\ decode "" = Throw "Invalid civil-date code"
      /\ decode "FR" = Throw "Invalid civil-date code"
      /\ decode "FRXX" = Throw "Invalid civil-date code").
Proof.
  split; [ | split; [ | split; [ | split ] ] ].
  - intros s (a & b & c & -> & Ha & Hb & Hc).
    destruct (decode_shape a b c Ha Hb Hc)
      as (va & vb & vc & (Ba & Bb & Bc) & _ & U & D).
    exists ((va * 36 + vb) * 36 + vc). split; [ exact D | ]. split; [ lia | ].
    rewrite <- U. apply decode_upper3; lia.
  - intros s Hs. unfold decode.
    destruct (test CODE_REGEX s) eqn:T; [ | reflexivity ].
    apply test_CODE_REGEX in T. contradiction.
  - intros s. symmetry. apply test_CODE_REGEX.
  - repeat split; reflexivity.
  - repeat split; reflexivity.
Qed.

Lemma decode_accepts_three_alphanumerics_witness :
  (exists v : Z,
      decode "frx" = Ok (Number.of_Z v) /\ 0 <= v <= 46655
      /\ decode (Str.toUpperCase "frx") = Ok (Number.of_Z v))
  /\ decode "FR-" = Throw "Invalid civil-date code".
Proof.
  split.
  - apply (proj1 decode_accepts_three_alphanumerics "frx").
    exists "f"%char, "r"%char, "x"%char. repeat split; reflexivity.
  - apply (proj1 (proj2 decode_accepts_three_alphanumerics) "FR-").
    intros (a & b & c & E & _ & _ & Hc).
    injection E as <- <- <-. discriminate Hc.
Defined.

(** C2, as the code has it: [encode] validates the number it is given and
    floors afterwards.  For every number other than [NaN], [encode]
    returns exactly when the number itself lies in [1296, 46655]; the
    result is then the three character code of its floor.  Otherwise it
    throws "Days out of range". *)
Theorem encode_validates_then_floors (days : number) :
  days <> NaN ->
  (in_range days ->
   exists code : string,
     encode days = Ok code
     /\ encode (Number.floor days) = Ok code
     /\ String.length code = 3%nat
     /\ decode code = Ok (Number.floor days))
  /\ (~ in_range days -> encode days = Throw "Days out of range").
Proof.
  intros Hn. split.
  - destruct days as [ q | | | ]; simpl in_range; try tauto.
    intros R. pose proof (floor_in_range q R) as Hf.
    destruct (encode_in_range (Qfloor q) Hf) as (a & b & c & _ & _ & E & D).
    exists (upper3 a b c). simpl Number.floor.
    rewrite (encode_floors q R). auto.
  - intros R. unfold encode.
    destruct ((days < MIN_DAYS)%num || (days > MAX_DAYS)%num) eqn:G;
      [ reflexivity | ].
    apply in_range_guard in G; [ contradiction | exact Hn ].
Qed.

Lemma encode_validates_then_floors_witness :
  (exists code : string,
      encode (Fin (204459 # 10)) = Ok code
      /\ encode (Number.floor (Fin (204459 # 10))) = Ok code
      /\ String.length code = 3%nat
      /\ decode code = Ok (Number.floor (Fin (204459 # 10))))
  /\ encode (Fin (466559 # 10)) = Throw "Days out of range".
Proof.
  split.
  - apply (proj1 (encode_validates_then_floors (Fin (204459 # 10))
                    ltac:(discriminate))).
    split; discriminate.
  - apply (proj2 (encode_validates_then_floors (Fin (466559 # 10))
                    ltac:(discriminate))).
    intros [_ H]. apply H. reflexivity.
Defined.

(** C2, as the claim has it, fails: the floor of 46655.9 is 46655, inside
    the range, and [encode] throws all the same. *)
Lemma encode_rejects_fraction_above_max :
  in_range (Number.floor (Fin (466559 # 10)))
  /\ encode (Fin (466559 # 10)) = Throw "Days out of range".
Proof. split; [ split; discriminate | reflexivity ]. Qed.

(** [NaN] passes both comparisons of the guard. *)
Example encode_NaN : encode NaN = Ok "NAN".
Proof. reflexivity. Qed.

End CodecClaims.

(** ** The calendar *)

Section Calendar.
Import Time.

Lemma mod_100_4 (y : Z) : y mod 100 = 0 -> y mod 4 = 0.
Proof. intros H. Z.div_mod_to_equations. lia. Qed.

Lemma mod_400_100 (y : Z) : y mod 400 = 0 -> y mod 100 = 0.
Proof. intros H. Z.div_mod_to_equations. lia. Qed.

Lemma leap_is_leap_year (y : Z) : leap y = if is_leap_year y then 1 else 0.
Proof.
  unfold leap, DaysInYear, is_leap_year.
  pose proof (mod_100_4 y). pose proof (mod_400_100 y).
  destruct (Z.eqb_spec (y mod 4) 0);
    destruct (Z.eqb_spec (y mod 100) 0);
    destruct (Z.eqb_spec (y mod 400) 0); cbv [negb andb orb]; try reflexivity; lia.
Qed.

Lemma DaysInYear_leap (y : Z) : DaysInYear y = 365 + leap y.
Proof.
  unfold leap, DaysInYear.
  destruct (Z.eqb_spec (y mod 4) 0);
    destruct (Z.eqb_spec (y mod 100) 0);
    destruct (Z.eqb_spec (y mod 400) 0); cbv [negb]; reflexivity.
Qed.

Lemma leap_cases (y : Z) : leap y = 0 \/ leap y = 1.
Proof. unfold leap. destruct (DaysInYear y =? 366); auto. Qed.

Lemma quarter_step (y : Z) :
  (y + 1 - 1969) / 4 = (y - 1969) / 4 + (if y mod 4 =? 0 then 1 else 0).
Proof. destruct (Z.eqb_spec (y mod 4) 0); Z.div_mod_to_equations; lia. Qed.

Lemma century_step (y : Z) :
  (y + 1 - 1901) / 100 = (y - 1901) / 100 + (if y mod 100 =? 0 then 1 else 0).
Proof. destruct (Z.eqb_spec (y mod 100) 0); Z.div_mod_to_equations; lia. Qed.

Lemma cycle_step (y : Z) :
  (y + 1 - 1601) / 400 = (y - 1601) / 400 + (if y mod 400 =? 0 then 1 else 0).
Proof. destruct (Z.eqb_spec (y mod 400) 0); Z.div_mod_to_equations; lia. Qed.

Lemma DayFromYear_succ (y : Z) : DayFromYear (y + 1) = DayFromYear y + DaysInYear y.
Proof.
  unfold DayFromYear, DaysInYear.
  replace (y + 1 - 1970) with (y - 1970 + 1) by lia.
  rewrite quarter_step, century_step, cycle_step.
  pose proof (mod_100_4 y). pose proof (mod_400_100 y).
  destruct (Z.eqb_spec (y mod 4) 0);
    destruct (Z.eqb_spec (y mod 100) 0);
    destruct (Z.eqb_spec (y mod 400) 0); cbv [negb]; lia.
Qed.

Lemma DayFromYear_mono (a b : Z) : a <= b -> DayFromYear a <= DayFromYear b.
Proof. unfold DayFromYear. intros H. Z.div_mod_to_equations. lia. Qed.

(** [YearFromDay] meets its definition in ECMA-262: the year found is the
    largest one that starts on or before the day. *)
Lemma YearFromDay_spec (d : Z) :
  DayFromYear (YearFromDay d) <= d < DayFromYear (YearFromDay d + 1).
Proof.
  unfold YearFromDay. cbv zeta.
  destruct (Z.ltb_spec d (DayFromYear (1970 + 400 * d / 146097))).
  - replace (1970 + 400 * d / 146097 - 1 + 1)
      with (1970 + 400 * d / 146097) by lia.
    split; [ | lia ]. unfold DayFromYear in *. Z.div_mod_to_equations. lia.
  - destruct (Z.leb_spec (DayFromYear (1970 + 400 * d / 146097 + 1)) d).
    + split; [ lia | ]. unfold DayFromYear in *. Z.div_mod_to_equations. lia.
    + lia.
Qed.

Lemma YearFromDay_unique (d y : Z) :
  DayFromYear y <= d < DayFromYear (y + 1) -> YearFromDay d = y.
Proof.
  intros H. pose proof (YearFromDay_spec d) as S.
  destruct (Z.lt_trichotomy (YearFromDay d) y) as [ L | [ E | G ] ].
  - pose proof (DayFromYear_mono (YearFromDay d + 1) y ltac:(lia)). lia.
  - exact E.
  - pose proof (DayFromYear_mono (y + 1) (YearFromDay d) ltac:(lia)). lia.
Qed.

Lemma DayWithinYear_range (t : Z) :
  0 <= DayWithinYear t < 365 + InLeapYear t.
Proof.
  unfold DayWithinYear, InLeapYear, YearFromTime.
  pose proof (YearFromDay_spec (Day t)) as S.
  rewrite DayFromYear_succ, DaysInYear_leap in S. lia.
Qed.

Ltac month_cascade :=
  repeat match goal with
         | |- context [ if ?a <? ?b then _ else _ ] =>
             destruct (Z.ltb_spec a b)
         end.

(** The fields of a time value name its day: putting them back together
    gives the day number. *)
Lemma fields_day_number (t : Z) :
  day_number (YearFromTime t) (MonthFromTime t + 1) (DateFromTime t) = Day t.
Proof.
  unfold day_number.
  replace (MonthFromTime t + 1 - 1) with (MonthFromTime t) by lia.
  unfold DateFromTime, MonthFromTime.
  fold (InLeapYear t).
  generalize (InLeapYear t) as l. intros l.
  assert (D : DayWithinYear t = Day t - DayFromYear (YearFromTime t))
    by reflexivity.
  revert D. generalize (DayWithinYear t) as d. intros d D.
  month_cascade; unfold DayFromMonth; lia.
Qed.

(** The fields of a time value are a date of the calendar. *)
Lemma fields_real_date (t : Z) :
  real_date (YearFromTime t) (MonthFromTime t + 1) (DateFromTime t).
Proof.
  unfold real_date, days_in_month, DateFromTime, MonthFromTime.
  pose proof (DayWithinYear_range t) as R.
  assert (L : InLeapYear t = if is_leap_year (YearFromTime t) then 1 else 0)
    by apply leap_is_leap_year.
  revert R L. generalize (InLeapYear t) as l. intros l.
  generalize (DayWithinYear t) as d. intros d R L.
  destruct (is_leap_year (YearFromTime t));
    month_cascade;
    match goal with
    | |- context [ (?k + 1) ] =>
        let v := eval compute in (k + 1) in change (k + 1) with v
    end; cbv beta iota; lia.
Qed.

Ltac month_literal H :=
  match type of H with
  | context [ days_in_month _ (?k + 1) ] =>
      let v := eval compute in (k + 1) in
      change (k + 1) with v in H
  end;
  unfold days_in_month in H; unfold DayFromMonth in *.

Lemma month_cases (mn : Z) :
  0 <= mn <= 11 ->
  mn = 0 \/ mn = 1 \/ mn = 2 \/ mn = 3 \/ mn = 4 \/ mn = 5 \/ mn = 6
  \/ mn = 7 \/ mn = 8 \/ mn = 9 \/ mn = 10 \/ mn = 11.
Proof. lia. Qed.

Lemma first_of_month_fields (y mn d t : Z) :
  0 <= mn <= 11 -> 1 <= d <= days_in_month y (mn + 1) ->
  Day t = DayFromYear y + DayFromMonth mn (leap y) + d - 1 ->
  YearFromTime t = y /\ MonthFromTime t = mn /\ DateFromTime t = d.
Proof.
  intros Hm Hd Ht.
  assert (Ll : leap y = if is_leap_year y then 1 else 0)
    by apply leap_is_leap_year.
  assert (Hy : YearFromTime t = y).
  { unfold YearFromTime. apply YearFromDay_unique.
    rewrite DayFromYear_succ, DaysInYear_leap, Ht, Ll. clear Ll Ht.
    destruct (month_cases mn Hm)
      as [ M | [ M | [ M | [ M | [ M | [ M | [ M | [ M | [ M | [ M | [ M | M ]]]]]]]]]]];
      subst mn; month_literal Hd; destruct (is_leap_year y); lia. }
  split; [ exact Hy | ].
  unfold DateFromTime, MonthFromTime, InLeapYear, DayWithinYear.
  rewrite Hy, Ht, Ll. clear Hy Ht Ll.
  destruct (month_cases mn Hm)
    as [ M | [ M | [ M | [ M | [ M | [ M | [ M | [ M | [ M | [ M | [ M | M ]]]]]]]]]]];
    subst mn; month_literal Hd; destruct (is_leap_year y);
    month_cascade; try lia; split; lia.
Qed.

(** The day [MakeDay] counts from is the one ECMA-262 asks for: a day of
    year [y] and month [mn] whose date is 1. *)
Lemma first_of_month_is_first (y mn t : Z) :
  0 <= mn <= 11 ->
  Day t = DayFromYear y + DayFromMonth mn (leap y) ->
  YearFromTime t = y /\ MonthFromTime t = mn /\ DateFromTime t = 1.
Proof.
  intros Hm Ht. apply first_of_month_fields; [ exact Hm | | lia ].
  split; [ lia | ]. unfold days_in_month.
  destruct (mn + 1) as [ | p | p ]; try lia.
  destruct (is_leap_year y);
    repeat (destruct p as [ p | p | ]; try lia).
Qed.

(** A date of the calendar is found again in the fields of its day. *)
Lemma day_number_fields (y m d t : Z) :
  real_date y m d -> Day t = day_number y m d ->
  YearFromTime t = y /\ MonthFromTime t = m - 1 /\ DateFromTime t = d.
Proof.
  intros [Hm Hd] Ht. apply first_of_month_fields.
  - lia.
  - now replace (m - 1 + 1) with m by lia.
  - rewrite Ht. unfold day_number. lia.
Qed.

End Calendar.

(** ** Arithmetic on integral numbers *)

Section IntegralNumbers.
Import Time.

Lemma Qfloor_whole (z : Z) : Qfloor (z # 1) = z.
Proof. apply Qfloor_Z. Qed.

Lemma truncate_whole (z : Z) : Number.truncate (z # 1) = z.
Proof. apply truncate_of_Z. Qed.

Lemma to_integer_sub (a b : Z) :
  Z.abs (a - b) < 2 ^ 53 ->
  Number.to_integer (Number.of_Z a - Number.of_Z b)%num = Some (a - b).
Proof. intros B. rewrite sub_of_Z by exact B. apply to_integer_of_Z. Qed.

Lemma strict_eq_sub (x a b : Z) :
  Z.abs (a - b) < 2 ^ 53 ->
  (Number.of_Z x === Number.of_Z a - Number.of_Z b)%num = (x =? a - b).
Proof. intros B. rewrite sub_of_Z by exact B. apply strict_eq_of_Z. Qed.

Lemma toString_of_Z (radix a : Z) :
  Str.toString radix (Number.of_Z a) = Str.int_toString radix a.
Proof. unfold Str.toString, Number.of_Z. now rewrite Qfloor_Z. Qed.

Lemma toString_add_one (radix a : Z) :
  Z.abs (a + 1) < 2 ^ 53 ->
  Str.toString radix (Number.of_Z a + Number.of_Z 1)%num
  = Str.int_toString radix (a + 1).
Proof. intros B. rewrite add_of_Z by exact B. apply toString_of_Z. Qed.

(** Whole days: dividing a multiple of [MS_PER_DAY] and flooring. *)
Lemma floor_div_day (n : Z) :
  Z.abs n < 2 ^ 53 ->
  Number.floor (Number.of_Z (n * msPerDay) / MS_PER_DAY)%num = Number.of_Z n.
Proof.
  intros B. unfold MS_PER_DAY, msPerDay.
  rewrite div_of_Z by (exact B || discriminate). apply floor_of_Z.
Qed.

Lemma Day_whole (n : Z) : Day (n * msPerDay) = n.
Proof. unfold Day, msPerDay. apply Z.div_mul. discriminate. Qed.

Lemma Qabs_whole_le (a b : Z) :
  Qle_bool (Qabs (inject_Z a)) (inject_Z b) = (Z.abs a <=? b).
Proof.
  unfold Qle_bool, Qabs, inject_Z. simpl. now rewrite !Z.mul_1_r.
Qed.

(** [new Date(n * MS_PER_DAY)] for an integer [n]. *)
Lemma TimeClip_days (n : Z) :
  TimeClip (Number.of_Z n * MS_PER_DAY)%num
  = if Z.abs n <=? 100000000 then Some (n * msPerDay) else None.
Proof.
  unfold MS_PER_DAY. rewrite mul_of_Z. unfold msPerDay.
  destruct (round_whole (n * 86400000)) as [Small Large].
  change (2 ^ 53) with 9007199254740992 in Small, Large.
  destruct (Z.lt_ge_cases (Z.abs (n * 86400000)) 9007199254740992) as [ S | L ].
  - rewrite (Small S). unfold TimeClip, Number.of_Z.
    rewrite Qabs_whole_le, truncate_of_Z. unfold maxTime.
    destruct (Z.leb_spec (Z.abs (n * 86400000)) 8640000000000000);
      destruct (Z.leb_spec (Z.abs n) 100000000); try reflexivity; lia.
  - specialize (Large L).
    destruct (Z.leb_spec (Z.abs n) 100000000); [ lia | ].
    destruct (Number.round (inject_Z (n * 86400000))) as [ q | | | ];
      try reflexivity.
    destruct Large as (m & -> & Hm). unfold TimeClip.
    rewrite Qabs_whole_le. unfold maxTime.
    destruct (Z.leb_spec (Z.abs m) 8640000000000000); [ lia | reflexivity ].
Qed.

End IntegralNumbers.

(** ** Dates built from fields *)

Section DateFields.
Import Time.

Lemma day_number_within_year (y m d : Z) :
  real_date y m d ->
  DayFromYear y <= day_number y m d < DayFromYear (y + 1).
Proof.
  intros [Hm Hd].
  rewrite DayFromYear_succ, DaysInYear_leap, leap_is_leap_year.
  unfold day_number. rewrite leap_is_leap_year.
  replace m with (m - 1 + 1) in Hd by lia.
  assert (Hmn : 0 <= m - 1 <= 11) by lia.
  revert Hd Hmn. generalize (m - 1) as mn. intros mn Hd Hmn.
  destruct (month_cases mn Hmn)
    as [ M | [ M | [ M | [ M | [ M | [ M | [ M | [ M | [ M | [ M | [ M | M ]]]]]]]]]]];
    subst mn;
    match type of Hd with
    | context [ days_in_month _ (?k + 1) ] =>
        let v := eval compute in (k + 1) in
        change (k + 1) with v in Hd
    end;
    unfold days_in_month in Hd; unfold DayFromMonth;
    destruct (is_leap_year y); lia.
Qed.

Lemma day_number_year (y m d : Z) :
  real_date y m d -> 0 <= day_number y m d -> 1970 <= y.
Proof.
  intros R H. pose proof (day_number_within_year y m d R) as W.
  destruct (Z.le_gt_cases 1970 y) as [ | L ]; [ assumption | ].
  pose proof (DayFromYear_mono (y + 1) 1970 ltac:(lia)) as Mo.
  change (DayFromYear 1970) with 0 in Mo. lia.
Qed.

Lemma first_of_month_range (y m d : Z) :
  real_date y m d -> 0 <= day_number y m d ->
  0 <= DayFromYear y + DayFromMonth (m - 1) (leap y) <= day_number y m d.
Proof.
  intros R H. pose proof (day_number_year y m d R H) as Hy.
  pose proof (DayFromYear_mono 1970 y Hy) as Mo.
  change (DayFromYear 1970) with 0 in Mo.
  destruct R as [Hm Hd]. unfold day_number.
  assert (0 <= DayFromMonth (m - 1) (leap y)).
  { assert (Hmn : 0 <= m - 1 <= 11) by lia.
    destruct (leap_cases y) as [ -> | -> ];
      destruct (month_cases (m - 1) Hmn)
        as [ M | [ M | [ M | [ M | [ M | [ M | [ M | [ M | [ M | [ M | [ M | M ]]]]]]]]]]];
      rewrite M; discriminate. }
  lia.
Qed.

Lemma MakeFullYear_of_Z (y : Z) :
  100 <= y -> MakeFullYear (Number.of_Z y) = Number.of_Z y.
Proof.
  intros H. unfold MakeFullYear. rewrite to_integer_of_Z.
  destruct (Z.leb_spec y 99); [ lia | ]. now rewrite andb_false_r.
Qed.

(** [MakeDay] on the fields of a calendar date from 1970 on. *)
Lemma MakeDay_real_date (y m d : Z) (month : number) :
  real_date y m d -> 0 <= day_number y m d <= 100000000 ->
  Number.to_integer month = Some (m - 1) ->
  MakeDay (Number.of_Z y) month (Number.of_Z d) = Some (day_number y m d).
Proof.
  intros R [H0 H1] Hm. pose proof (first_of_month_range y m d R H0) as F.
  unfold MakeDay. rewrite !to_integer_of_Z, Hm.
  destruct R as [Rm Rd].
  replace ((m - 1) / 12) with 0 by (symmetry; apply Z.div_small; lia).
  replace ((m - 1) mod 12) with (m - 1) by (symmetry; apply Z.mod_small; lia).
  rewrite Z.add_0_r.
  destruct (Z.leb_spec
              (Z.abs ((DayFromYear y + DayFromMonth (m - 1) (leap y)) * msPerDay))
              maxTime) as [ _ | B ].
  - reflexivity.
  - unfold msPerDay, maxTime in B. lia.
Qed.

Lemma Date_UTC_real_date (y m d : Z) (month : number) :
  real_date y m d -> 0 <= day_number y m d <= 100000000 ->
  Number.to_integer month = Some (m - 1) ->
  Date.UTC (Number.of_Z y) month (Number.of_Z d)
  = Number.of_Z (day_number y m d * msPerDay).
Proof.
  intros R H Hm. unfold Date.UTC.
  rewrite MakeFullYear_of_Z
    by (pose proof (day_number_year y m d R (proj1 H)); lia).
  rewrite (MakeDay_real_date y m d month R H Hm).
  unfold MakeDate, MakeTime, TimeClipZ. cbn [Z.mul Z.add]. rewrite Z.add_0_r.
  destruct (Z.leb_spec (Z.abs (day_number y m d * msPerDay)) maxTime) as [ _ | B ].
  - reflexivity.
  - unfold msPerDay, maxTime in B. lia.
Qed.

Lemma of_fields_real_date (h : Host) (y m d : Z) (month : number) :
  real_date y m d -> 0 <= day_number y m d <= 100000000 ->
  Number.to_integer month = Some (m - 1) ->
  Date.of_fields h (Number.of_Z y) month (Number.of_Z d)
  = Date.mk (TimeClipZ (Some (Time.UTC h (day_number y m d * msPerDay)))).
Proof.
  intros R H Hm. unfold Date.of_fields.
  rewrite MakeFullYear_of_Z
    by (pose proof (day_number_year y m d R (proj1 H)); lia).
  rewrite (MakeDay_real_date y m d month R H Hm).
  unfold MakeDate, MakeTime. cbn [Z.mul Z.add option_map]. now rewrite Z.add_0_r.
Qed.

(** [fromDate] returns the day number of the local calendar date of its
    argument; stated for dates from 1970-01-01 on. *)
Lemma fromDate_local_day (h : Host) (t : Z) :
  0 <= Day (LocalTime h t) <= 100000000 ->
  fromDate h (Date.mk (Some t)) = Number.of_Z (Day (LocalTime h t)).
Proof.
  intros H. unfold fromDate, Date.getFullYear, Date.getMonth, Date.getDate,
    Date.field. cbn [DateValue].
  pose proof (fields_real_date (LocalTime h t)) as R.
  pose proof (fields_day_number (LocalTime h t)) as N.
  rewrite (Date_UTC_real_date _ (MonthFromTime (LocalTime h t) + 1) _ _ R).
  - rewrite N, floor_div_day by lia. reflexivity.
  - rewrite N. exact H.
  - rewrite to_integer_of_Z. f_equal. lia.
Qed.

End DateFields.

(** ** The ISO pattern *)

Section IsoPattern.

Lemma code_inj (a b : ascii) : Str.code a = Str.code b -> a = b.
Proof.
  unfold Str.code. intros H. apply N2Z.inj in H.
  rewrite <- (ascii_N_embedding a), <- (ascii_N_embedding b). now rewrite H.
Qed.

Lemma code_range (c : ascii) : 0 <= Str.code c < 256.
Proof.
  unfold Str.code. pose proof (N_ascii_bounded c). lia.
Qed.

Lemma is_digit_code (c : ascii) :
  Str.is_digit c = true <-> 48 <= Str.code c <= 57.
Proof.
  unfold Str.is_digit, Str.between.
  change (Str.code "0") with 48. change (Str.code "9") with 57.
  rewrite andb_true_iff, !Z.leb_le. tauto.
Qed.

Lemma between_code (lo hi c : ascii) :
  Str.between lo hi c = true <-> Str.code lo <= Str.code c <= Str.code hi.
Proof. unfold Str.between. rewrite andb_true_iff, !Z.leb_le. tauto. Qed.

Lemma eqb_code (a b : ascii) : Ascii.eqb a b = true <-> Str.code a = Str.code b.
Proof.
  rewrite Ascii.eqb_eq. split; [ now intros -> | apply code_inj ].
Qed.

Lemma digit_value_code (c : ascii) :
  Str.is_digit c = true -> Str.digit_value c = Some (digit_of c).
Proof. intros H. unfold Str.digit_value. now rewrite H. Qed.

Lemma digit_char_code (v : Z) : 0 <= v < 10 -> Str.code (Str.digit_char v) = 48 + v.
Proof.
  intros H. apply Z.eqb_eq. revert v H.
  apply (every_below (fun v => Str.code (Str.digit_char v) =? 48 + v) 10).
  vm_compute. reflexivity.
Qed.

Lemma digit_char_digit_of (c : ascii) :
  Str.is_digit c = true -> Str.digit_char (digit_of c) = c.
Proof.
  intros H. apply is_digit_code in H. apply code_inj.
  rewrite digit_char_code; unfold digit_of; lia.
Qed.

(** *** Inverting a run of the matcher *)

Lemma run_Class_inv {R : Type} (p : ascii -> bool) (s : string)
    (caps : list string) (k : string -> list string -> option R) (r : R) :
  run (Class p) s caps k = Some r ->
  exists c s', s = String c s' /\ p c = true /\ k s' caps = Some r.
Proof.
  destruct s as [ | c s' ]; simpl; [ discriminate | ].
  destruct (p c) eqn:E; [ | discriminate ].
  intros H. exists c, s'. auto.
Qed.

Lemma run_Class {R : Type} (p : ascii -> bool) (c : ascii) (s : string)
    (caps : list string) (k : string -> list string -> option R) :
  p c = true -> run (Class p) (String c s) caps k = k s caps.
Proof. intros H. simpl. now rewrite H. Qed.

Lemma run_Class_fail {R : Type} (p : ascii -> bool) (c : ascii) (s : string)
    (caps : list string) (k : string -> list string -> option R) :
  p c = false -> run (Class p) (String c s) caps k = None.
Proof. intros H. simpl. now rewrite H. Qed.

Lemma run_Empty {R : Type} (s : string) (caps : list string)
    (k : string -> list string -> option R) :
  run Empty s caps k = k s caps.
Proof. reflexivity. Qed.

Lemma run_Seq {R : Type} (a b : re) (s : string) (caps : list string)
    (k : string -> list string -> option R) :
  run (Seq a b) s caps k = run a s caps (fun s' caps' => run b s' caps' k).
Proof. reflexivity. Qed.

Lemma run_Group {R : Type} (a : re) (s : string) (caps : list string)
    (k : string -> list string -> option R) :
  run (Group a) s caps k
  = run a s caps (fun s' caps' => k s' (caps' ++ [consumed s s'])%list).
Proof. reflexivity. Qed.

Lemma run_Alt {R : Type} (a b : re) (s : string) (caps : list string)
    (k : string -> list string -> option R) :
  run (Alt a b) s caps k
  = match run a s caps k with Some x => Some x | None => run b s caps k end.
Proof. reflexivity. Qed.

Ltac invert_run H :=
  cbv beta in H;
  lazymatch type of H with
  | run Empty _ _ _ = Some _ => rewrite run_Empty in H; invert_run H
  | run (Seq _ _) _ _ _ = Some _ => rewrite run_Seq in H; invert_run H
  | run (Group _) _ _ _ = Some _ => rewrite run_Group in H; invert_run H
  | run (Alt ?a ?b) ?s ?caps ?k = Some _ =>
      let E := fresh "E" in
      rewrite run_Alt in H;
      destruct (run a s caps k) eqn:E;
      [ injection H as <-; invert_run E | clear E; invert_run H ]
  | run (Class _) _ _ _ = Some _ =>
      let c := fresh "c" in
      let s := fresh "s" in
      let P := fresh "P" in
      apply run_Class_inv in H; destruct H as (c & s & -> & P & H);
      invert_run H
  | _ => idtac
  end.

Ltac code_literals :=
  repeat match goal with
         | H : context [ Str.code (Ascii ?a ?b ?c ?d ?e ?f ?g ?h) ] |- _ =>
             let v := eval vm_compute in (Str.code (Ascii a b c d e f g h)) in
             change (Str.code (Ascii a b c d e f g h)) with v in H
         | |- context [ Str.code (Ascii ?a ?b ?c ?d ?e ?f ?g ?h) ] =>
             let v := eval vm_compute in (Str.code (Ascii a b c d e f g h)) in
             change (Str.code (Ascii a b c d e f g h)) with v
         end.

Ltac char_facts :=
  repeat match goal with
         | H : Ascii.eqb _ _ = true |- _ => apply Ascii.eqb_eq in H; subst
         | H : Str.is_digit _ = true |- _ => apply is_digit_code in H
         | H : Str.between _ _ _ = true |- _ => apply between_code in H
         | H : existsb _ _ = true |- _ => cbn [existsb list_ascii_of_string] in H
         | H : _ || _ = true |- _ => apply orb_true_iff in H; destruct H as [ H | H ]
         | H : false = true |- _ => discriminate H
         end;
  code_literals.

Ltac end_of_input :=
  match goal with
  | H : match ?s with EmptyString => Some _ | String _ _ => None end = Some _ |- _ =>
      destruct s; [ injection H as <- | discriminate H ]
  end.

Ltac digits_goal :=
  cbn [forallb]; rewrite ?andb_true_iff; repeat split;
  try (apply is_digit_code; code_literals; lia).

(** What a match of the ISO pattern tells: the shape of the string, the
    three captures, and the ranges the pattern itself enforces. *)
Lemma exec_ISO_REGEX_inv (s : string) (caps : list string) :
  exec ISO_REGEX s = Some caps ->
  exists y1 y2 y3 y4 m1 m2 d1 d2,
    s = String y1 (String y2 (String y3 (String y4 (String "-"
          (String m1 (String m2 (String "-" (String d1 (String d2 EmptyString)))))))))
    /\ caps = [ String y1 (String y2 (String y3 (String y4 EmptyString)));
                String m1 (String m2 EmptyString);
                String d1 (String d2 EmptyString) ]
    /\ forallb Str.is_digit [y1; y2; y3; y4; m1; m2; d1; d2] = true
    /\ 1 <= digit_of m1 * 10 + digit_of m2 <= 12
    /\ 1 <= digit_of d1 * 10 + digit_of d2 <= 31.
Proof.
  unfold exec, ISO_REGEX. cbn [times]. unfold digit, chr, range, one_of. intros H.
  invert_run H; end_of_input;
    match goal with
    | |- exists _ _ _ _ _ _ _ _,
          String ?a (String ?b (String ?c (String ?d (String _
            (String ?f (String ?g (String _ (String ?i (String ?j _))))))))) = _ /\ _ =>
        exists a, b, c, d, f, g, i, j
    end;
    char_facts;
    (split; [ reflexivity | ]);
    (split; [ reflexivity | ]);
    (split; [ digits_goal | ]);
    unfold digit_of; code_literals; lia.
Qed.

(** *** Running the matcher on a well-formed string *)

Ltac class_holds :=
  first [ assumption
        | reflexivity
        | apply is_digit_code; code_literals; lia
        | apply between_code; code_literals; lia
        | cbn [existsb list_ascii_of_string];
          rewrite !orb_true_iff, !eqb_code; code_literals; lia ].

Ltac step_run :=
  first [ rewrite run_Empty
        | rewrite run_Seq
        | rewrite run_Group
        | rewrite run_Alt
        | rewrite run_Class by class_holds
        | rewrite run_Class_fail by reflexivity ];
  cbv beta iota.

Lemma triple_shape (s : string) (y m d : Z) :
  iso_triple s = Some (y, m, d) ->
  exists y1 y2 y3 y4 m1 m2 d1 d2,
    s = String y1 (String y2 (String y3 (String y4 (String "-"
          (String m1 (String m2 (String "-" (String d1 (String d2 EmptyString)))))))))
    /\ forallb Str.is_digit [y1; y2; y3; y4; m1; m2; d1; d2] = true
    /\ y = ((digit_of y1 * 10 + digit_of y2) * 10 + digit_of y3) * 10 + digit_of y4
    /\ m = digit_of m1 * 10 + digit_of m2
    /\ d = digit_of d1 * 10 + digit_of d2.
Proof.
  destruct s as [ | y1 [ | y2 [ | y3 [ | y4 [ | h1 [ | m1 [ | m2 [ | h2
                [ | d1 [ | d2 [ | x s ] ] ] ] ] ] ] ] ] ] ];
    try discriminate.
  unfold iso_triple.
  destruct (forallb Str.is_digit [y1; y2; y3; y4; m1; m2; d1; d2]) eqn:D;
    [ | discriminate ].
  destruct (Ascii.eqb h1 "-") eqn:H1; [ | discriminate ].
  destruct (Ascii.eqb h2 "-") eqn:H2; [ | discriminate ].
  apply Ascii.eqb_eq in H1, H2. subst h1 h2.
  cbn [andb]. intros E. injection E as <- <- <-.
  exists y1, y2, y3, y4, m1, m2, d1, d2. auto.
Qed.

Lemma digit_is (c : ascii) (v : Z) :
  digit_of c = v -> c = Str.char (48 + v).
Proof.
  intros H. apply code_inj. unfold digit_of in H.
  pose proof (code_range c) as R.
  replace (48 + v) with (Str.code c) by lia.
  unfold Str.char, Str.code. rewrite N2Z.id. now rewrite ascii_N_embedding.
Qed.

(** The pattern accepts every [dddd-dd-dd] whose month is 01 to 12 and
    whose day is 01 to 31, and captures the three fields. *)
Lemma exec_ISO_REGEX_complete (s : string) (y m d : Z) :
  iso_triple s = Some (y, m, d) -> 1 <= m <= 12 -> 1 <= d <= 31 ->
  exec ISO_REGEX s
  = Some [ substring 0 4 s; substring 5 2 s; substring 8 2 s ].
Proof.
  intros T Hm Hd.
  destruct (triple_shape s y m d T)
    as (y1 & y2 & y3 & y4 & m1 & m2 & d1 & d2 & -> & D & _ & -> & ->).
  clear T. cbn [forallb] in D. rewrite !andb_true_iff in D.
  destruct D as (Y1 & Y2 & Y3 & Y4 & M1 & M2 & D1 & D2 & _).
  pose proof (proj1 (is_digit_code _) M1) as CM1.
  pose proof (proj1 (is_digit_code _) M2) as CM2.
  pose proof (proj1 (is_digit_code _) D1) as CD1.
  pose proof (proj1 (is_digit_code _) D2) as CD2.
  unfold digit_of in Hm, Hd.
  assert (Em : digit_of m1 = 0 \/ digit_of m1 = 1) by (unfold digit_of; lia).
  assert (Ed : digit_of d1 = 0 \/ digit_of d1 = 1 \/ digit_of d1 = 2
               \/ digit_of d1 = 3) by (unfold digit_of; lia).
  unfold exec, ISO_REGEX. cbn [times]. unfold digit, chr, range, one_of.
  destruct Em as [ Em | Em ]; apply digit_is in Em; subst m1;
    destruct Ed as [ Ed | [ Ed | [ Ed | Ed ] ] ]; apply digit_is in Ed; subst d1;
    change (Str.char (48 + 0)) with "0"%char in *;
    change (Str.char (48 + 1)) with "1"%char in *;
    change (Str.char (48 + 2)) with "2"%char in *;
    change (Str.char (48 + 3)) with "3"%char in *;
    code_literals;
    repeat step_run; reflexivity.
Qed.

(** *** Reading and writing the fields *)

Lemma parseInt_digits (c1 c2 : ascii) (rest : string) :
  Str.is_digit c1 = true -> Str.is_digit c2 = true ->
  Str.parseInt (String c1 (String c2 rest)) 0
  = match Str.parse_digits 10 None (String c1 (String c2 rest)) with
    | Some v => Number.of_Z v
    | None => NaN
    end.
Proof.
  intros H1 H2.
  destruct (alnum_plain c1 (is_digit_alnum c1 H1)) as (Hs & Hm & Hp).
  unfold Str.parseInt. cbn [Str.trim_start]. rewrite Hs.
  cbn [Str.strip_sign]. rewrite Hm, Hp.
  cbn [Str.strip_hex_prefix]. rewrite (digit_not_x c2 H2), andb_false_r.
  reflexivity.
Qed.

Lemma parseInt_two (c1 c2 : ascii) :
  Str.is_digit c1 = true -> Str.is_digit c2 = true ->
  Str.parseInt (String c1 (String c2 EmptyString)) 0
  = Number.of_Z (digit_of c1 * 10 + digit_of c2).
Proof.
  intros H1 H2. rewrite parseInt_digits by assumption.
  pose proof (proj1 (is_digit_code _) H1). pose proof (proj1 (is_digit_code _) H2).
  rewrite (parse_digits_cons 10 None c1 _ _ (digit_value_code c1 H1))
    by (unfold digit_of; lia).
  rewrite (parse_digits_cons 10 _ c2 _ _ (digit_value_code c2 H2))
    by (unfold digit_of; lia).
  reflexivity.
Qed.

Lemma parseInt_four (c1 c2 c3 c4 : ascii) :
  Str.is_digit c1 = true -> Str.is_digit c2 = true ->
  Str.is_digit c3 = true -> Str.is_digit c4 = true ->
  Str.parseInt (String c1 (String c2 (String c3 (String c4 EmptyString)))) 0
  = Number.of_Z
      (((digit_of c1 * 10 + digit_of c2) * 10 + digit_of c3) * 10 + digit_of c4).
Proof.
  intros H1 H2 H3 H4. rewrite parseInt_digits by assumption.
  pose proof (proj1 (is_digit_code _) H1). pose proof (proj1 (is_digit_code _) H2).
  pose proof (proj1 (is_digit_code _) H3). pose proof (proj1 (is_digit_code _) H4).
  rewrite (parse_digits_cons 10 None c1 _ _ (digit_value_code c1 H1))
    by (unfold digit_of; lia).
  rewrite (parse_digits_cons 10 _ c2 _ _ (digit_value_code c2 H2))
    by (unfold digit_of; lia).
  rewrite (parse_digits_cons 10 _ c3 _ _ (digit_value_code c3 H3))
    by (unfold digit_of; lia).
  rewrite (parse_digits_cons 10 _ c4 _ _ (digit_value_code c4 H4))
    by (unfold digit_of; lia).
  reflexivity.
Qed.

Lemma write_two (c1 c2 : ascii) :
  Str.is_digit c1 = true -> Str.is_digit c2 = true ->
  Str.padStart 2 "0" (Str.int_toString 10 (digit_of c1 * 10 + digit_of c2))
  = String c1 (String c2 EmptyString).
Proof.
  intros H1 H2.
  pose proof (proj1 (is_digit_code _) H1) as C1.
  pose proof (proj1 (is_digit_code _) H2) as C2.
  unfold Str.int_toString.
  destruct (Z.ltb_spec (digit_of c1 * 10 + digit_of c2) 0) as [ L | _ ];
    [ unfold digit_of in L; lia | ].
  destruct (Z.eq_dec (digit_of c1) 0) as [ E | N ].
  - rewrite E. cbn [Z.mul Z.add].
    rewrite digits_one by (unfold digit_of; lia).
    rewrite (digit_char_digit_of c2 H2).
    apply digit_is in E. subst c1. reflexivity.
  - rewrite digits_snoc by (unfold digit_of in *; lia).
    rewrite digits_one by (unfold digit_of; lia).
    now rewrite (digit_char_digit_of c1 H1), (digit_char_digit_of c2 H2).
Qed.

Lemma write_four (c1 c2 c3 c4 : ascii) :
  Str.is_digit c1 = true -> Str.is_digit c2 = true ->
  Str.is_digit c3 = true -> Str.is_digit c4 = true ->
  1000 <= ((digit_of c1 * 10 + digit_of c2) * 10 + digit_of c3) * 10 + digit_of c4 ->
  Str.int_toString 10
    (((digit_of c1 * 10 + digit_of c2) * 10 + digit_of c3) * 10 + digit_of c4)
  = String c1 (String c2 (String c3 (String c4 EmptyString))).
Proof.
  intros H1 H2 H3 H4 Hy.
  pose proof (proj1 (is_digit_code _) H1) as C1.
  pose proof (proj1 (is_digit_code _) H2) as C2.
  pose proof (proj1 (is_digit_code _) H3) as C3.
  pose proof (proj1 (is_digit_code _) H4) as C4.
  unfold Str.int_toString.
  destruct (Z.ltb_spec
              (((digit_of c1 * 10 + digit_of c2) * 10 + digit_of c3) * 10
               + digit_of c4) 0) as [ L | _ ]; [ lia | ].
  unfold digit_of in Hy.
  rewrite !digits_snoc by (unfold digit_of in *; lia).
  rewrite digits_one by (unfold digit_of; lia).
  now rewrite (digit_char_digit_of c1 H1), (digit_char_digit_of c2 H2),
    (digit_char_digit_of c3 H3), (digit_char_digit_of c4 H4).
Qed.

End IsoPattern.

(** ** The host's time zone *)

Section Hosts.
Import Time.

Lemma fixed_offset_bounded (current offset : Z) :
  Z.abs offset < msPerDay -> offsets_bounded (fixed_offset current offset).
Proof. intros H t b. exact H. Qed.

Lemma fixed_offset_midnight (current offset n : Z) :
  local_midnight (fixed_offset current offset) n.
Proof.
  unfold local_midnight, LocalTime, Time.UTC. cbn [LocalTZA fixed_offset].
  replace (n * msPerDay - offset + offset) with (n * msPerDay) by lia.
  apply Day_whole.
Qed.

Lemma TimeClipZ_midnight (h : Host) (n : Z) :
  offsets_bounded h -> 0 <= n <= 99999999 ->
  TimeClipZ (Some (Time.UTC h (n * msPerDay)))
  = Some (Time.UTC h (n * msPerDay)).
Proof.
  intros B H. unfold TimeClipZ, Time.UTC.
  specialize (B (n * msPerDay) false). unfold msPerDay in *.
  destruct (Z.leb_spec (Z.abs (n * 86400000 - LocalTZA h (n * 86400000) false))
              maxTime) as [ _ | G ]; [ reflexivity | ].
  unfold maxTime in G. lia.
Qed.

End Hosts.

(** ** Constructing from an ISO string *)

Section IsoConstruction.
Import Time.

Variable h : Host.

Lemma days_in_month_le (y m : Z) : days_in_month y m <= 31.
Proof.
  unfold days_in_month.
  destruct m as [ | p | p ]; try lia.
  destruct (is_leap_year y);
    repeat (destruct p as [ p | p | ]; try lia).
Qed.

(** The constructor on a string of the ISO form, in terms of the numbers
    written in it. *)
Lemma new_iso_unfold (s : string) (y m d : Z) :
  iso_triple s = Some (y, m, d) -> 1 <= m <= 12 -> 1 <= d <= 31 ->
  CivilDate.new h (CivilDate.AString s)
  = let date := Date.of_fields h (Number.of_Z y)
                  (Number.of_Z m - Number.of_Z 1)%num (Number.of_Z d) in
    if (Date.getFullYear h date === Number.of_Z y)%num
       && (Date.getMonth h date === Number.of_Z m - Number.of_Z 1)%num
       && (Date.getDate h date === Number.of_Z d)%num
    then Ok (CivilDate.mk (fromDate h date))
    else Throw "Invalid date".
Proof.
  intros T Hm Hd. unfold CivilDate.new.
  rewrite (exec_ISO_REGEX_complete s y m d T Hm Hd).
  destruct (triple_shape s y m d T)
    as (y1 & y2 & y3 & y4 & m1 & m2 & d1 & d2 & -> & D & -> & -> & ->).
  cbn [forallb] in D. rewrite !andb_true_iff in D.
  destruct D as (Y1 & Y2 & Y3 & Y4 & M1 & M2 & D1 & D2 & _).
  cbn [CivilDate.group Nat.sub nth substring].
  rewrite (parseInt_four y1 y2 y3 y4), (parseInt_two m1 m2), (parseInt_two d1 d2)
    by assumption.
  reflexivity.
Qed.

Lemma valid_fields_real (date : Date) (y m d : Z) :
  1 <= m <= 12 ->
  (Date.getFullYear h date === Number.of_Z y)%num
  && (Date.getMonth h date === Number.of_Z m - Number.of_Z 1)%num
  && (Date.getDate h date === Number.of_Z d)%num = true ->
  real_date y m d.
Proof.
  intros M. unfold Date.getFullYear, Date.getMonth, Date.getDate, Date.field.
  destruct (DateValue date) as [ t | ]; [ | discriminate ].
  rewrite !strict_eq_of_Z, strict_eq_sub, !andb_true_iff, !Z.eqb_eq by lia.
  intros [[Hy Hm] Hd].
  pose proof (fields_real_date (LocalTime h t)) as R.
  rewrite Hy, Hd in R. now replace (MonthFromTime (LocalTime h t) + 1) with m in R by lia.
Qed.

(** A string of the ISO form that does not name a date of the calendar
    is refused. *)
Lemma new_iso_unreal (s : string) (y m d : Z) :
  exec ISO_REGEX s <> None -> iso_triple s = Some (y, m, d) ->
  ~ real_date y m d ->
  CivilDate.new h (CivilDate.AString s) = Throw "Invalid date".
Proof.
  intros E T N.
  destruct (exec ISO_REGEX s) as [ caps | ] eqn:X; [ clear E | congruence ].
  destruct (exec_ISO_REGEX_inv s caps X)
    as (y1 & y2 & y3 & y4 & m1 & m2 & d1 & d2 & S & _ & _ & Hm & Hd).
  destruct (triple_shape s y m d T)
    as (z1 & z2 & z3 & z4 & n1 & n2 & e1 & e2 & S' & _ & Ey & Em & Ed).
  rewrite S in S'. injection S' as <- <- <- <- <- <- <- <-.
  rewrite <- Em in Hm. rewrite <- Ed in Hd.
  rewrite (new_iso_unfold s y m d T Hm Hd).
  cbv zeta.
  match goal with
  | |- (if ?b then _ else _) = _ => destruct b eqn:V
  end; [ | reflexivity ].
  apply valid_fields_real in V; [ contradiction | exact Hm ].
Qed.

(** A calendar date from 1970 on is accepted when its local midnight
    exists, and the value is its day number. *)
Lemma new_iso_real (s : string) (y m d : Z) :
  offsets_bounded h ->
  iso_triple s = Some (y, m, d) -> real_date y m d ->
  0 <= day_number y m d <= 99999999 ->
  local_midnight h (day_number y m d) ->
  CivilDate.new h (CivilDate.AString s)
  = Ok (CivilDate.mk (Number.of_Z (day_number y m d))).
Proof.
  intros B T R N L.
  assert (Hm : 1 <= m <= 12) by apply R.
  assert (Hd : 1 <= d <= 31)
    by (destruct R as [_ R]; pose proof (days_in_month_le y m); lia).
  rewrite (new_iso_unfold s y m d T Hm Hd). cbv zeta.
  rewrite (of_fields_real_date h y m d _ R ltac:(lia) (to_integer_sub m 1 ltac:(lia))).
  rewrite (TimeClipZ_midnight h _ B N).
  unfold Date.getFullYear, Date.getMonth, Date.getDate, Date.field.
  cbn [DateValue].
  destruct (day_number_fields y m d _ R L) as (Fy & Fm & Fd).
  rewrite Fy, Fm, Fd.
  rewrite !strict_eq_of_Z, strict_eq_sub, !Z.eqb_refl by lia. cbn [andb].
  rewrite fromDate_local_day by (rewrite L; lia).
  now rewrite L.
Qed.

End IsoConstruction.

(** ** Projections of a [CivilDate] *)

Section Projections.
Import Time.

Lemma toDate_days (n : Z) :
  Z.abs n <= 100000000 ->
  toDate (OfNumber (Number.of_Z n)) = Ok (Date.mk (Some (n * msPerDay))).
Proof.
  intros H. unfold toDate, bind, Date.of_number. rewrite TimeClip_days.
  destruct (Z.leb_spec (Z.abs n) 100000000); [ reflexivity | lia ].
Qed.

Lemma midnight_hours (n : Z) :
  HourFromTime (n * msPerDay) = 0 /\ MinFromTime (n * msPerDay) = 0.
Proof.
  unfold HourFromTime, MinFromTime, msPerDay, msPerHour, msPerMinute. split.
  - replace (n * 86400000) with (n * 24 * 3600000) by lia.
    rewrite Z.div_mul by discriminate. apply Z.mod_mul. discriminate.
  - replace (n * 86400000) with (n * 24 * 60 * 60000) by lia.
    rewrite Z.div_mul by discriminate. apply Z.mod_mul. discriminate.
Qed.

(** The ISO string of the day number of a calendar date is the string the
    date is written as. *)
Lemma toISOString_day_number (h : Host) (s : string) (y m d : Z) :
  offsets_bounded h ->
  iso_triple s = Some (y, m, d) -> real_date y m d -> 1000 <= y ->
  0 <= day_number y m d <= 99999999 ->
  local_midnight h (day_number y m d) ->
  CivilDate.toISOString h (CivilDate.mk (Number.of_Z (day_number y m d)))
  = Ok s.
Proof.
  intros B T R Hy N L.
  unfold CivilDate.toISOString, CivilDate.toDate. cbn [CivilDate.value].
  rewrite toDate_days by lia. cbn [bind].
  unfold Date.getUTCFullYear, Date.getUTCMonth, Date.getUTCDate, Date.field.
  cbn [DateValue].
  destruct (day_number_fields y m d (day_number y m d * msPerDay) R
              (Day_whole _)) as (Fy & Fm & Fd).
  rewrite Fy, Fm, Fd.
  rewrite (of_fields_real_date h y m d _ R ltac:(lia) (to_integer_of_Z (m - 1))).
  rewrite (TimeClipZ_midnight h _ B N).
  unfold toISOString, Date.getFullYear, Date.getMonth, Date.getDate, Date.field.
  cbn [DateValue].
  destruct (day_number_fields y m d _ R L) as (Gy & Gm & Gd).
  rewrite Gy, Gm, Gd.
  rewrite !toString_of_Z, toString_add_one by (destruct R; lia).
  replace (m - 1 + 1) with m by lia.
  destruct (triple_shape s y m d T)
    as (y1 & y2 & y3 & y4 & m1 & m2 & d1 & d2 & -> & D & -> & -> & ->).
  cbn [forallb] in D. rewrite !andb_true_iff in D.
  destruct D as (Y1 & Y2 & Y3 & Y4 & M1 & M2 & D1 & D2 & _).
  rewrite write_four, !write_two by assumption.
  reflexivity.
Qed.

End Projections.

(** ** The claims about dates and the [CivilDate] class *)

Section DateClaims.
Import Time.

Lemma decode_throws (s : string) (msg : string) :
  decode s = Throw msg -> msg = "Invalid civil-date code".
Proof.
  unfold decode. destruct (negb (test CODE_REGEX s)); [ congruence | ].
  destruct (Number.isNaN (Str.parseInt s 36)); congruence.
Qed.

Lemma decode_value (s : string) (n : number) :
  decode s = Ok n -> exists v, n = Number.of_Z v /\ 0 <= v <= 46655.
Proof.
  intros D. destruct (test CODE_REGEX s) eqn:T.
  - apply test_CODE_REGEX in T. destruct T as (a & b & c & -> & Ha & Hb & Hc).
    destruct (decode_shape a b c Ha Hb Hc)
      as (va & vb & vc & (Ba & Bb & Bc) & _ & _ & E).
    rewrite E in D. injection D as <-. eexists. split; [ reflexivity | lia ].
  - unfold decode in D. rewrite T in D. discriminate.
Qed.

Lemma new_number (h : Host) (n : number) :
  n <> NaN ->
  (in_range n -> CivilDate.new h (CivilDate.ANumber n) = Ok (CivilDate.mk n))
  /\ (~ in_range n ->
      CivilDate.new h (CivilDate.ANumber n) = Throw "Days out of range").
Proof.
  intros Hn. unfold CivilDate.new.
  destruct ((n < MIN_DAYS)%num || (n > MAX_DAYS)%num) eqn:G.
  - split; [ | reflexivity ].
    intros R. apply in_range_guard in R; [ congruence | exact Hn ].
  - split; [ reflexivity | ].
    intros R. apply in_range_guard in G; [ contradiction | exact Hn ].
Qed.

(** C1, as the code has it: the range [1296, 46655] is enforced where a
    number enters the constructor and where a value is encoded, not at
    every entry point.  A [CivilDate] built from a number other than [NaN]
    has its value in the range, and a number outside is refused with
    "Days out of range".  A [CivilDate] built from a code has the value
    [decode] returns, an integer of [0, 46655] with no lower bound of
    1296.  [toString] returns for a value other than [NaN] only when the
    value lies in the range. *)
Theorem range_enforced_on_numbers_and_encode (h : Host) :
  (forall (n : number) (cd : CivilDate.t),
      n <> NaN -> CivilDate.new h (CivilDate.ANumber n) = Ok cd ->
      in_range (CivilDate.value cd))
  /\ (forall n : number,
         n <> NaN -> ~ in_range n ->
         CivilDate.new h (CivilDate.ANumber n) = Throw "Days out of range")
  /\ (forall (s : string) (cd : CivilDate.t),
         exec ISO_REGEX s = None ->
         CivilDate.new h (CivilDate.AString s) = Ok cd ->
         decode s = Ok (CivilDate.value cd)
         /\ exists v : Z, CivilDate.value cd = Number.of_Z v /\ 0 <= v <= 46655)
  /\ (forall (cd : CivilDate.t) (code : string),
         CivilDate.value cd <> NaN -> CivilDate.toString cd = Ok code ->
         in_range (CivilDate.value cd)).
Proof.
  split; [ | split; [ | split ] ].
  - intros n cd Hn E. destruct (new_number h n Hn) as [_ Out].
    unfold CivilDate.new in E.
    destruct ((n < MIN_DAYS)%num || (n > MAX_DAYS)%num) eqn:G;
      [ discriminate | ].
    injection E as <-. now apply in_range_guard.
  - intros n Hn R. now apply (new_number h n Hn).
  - intros s cd X E. unfold CivilDate.new in E. rewrite X in E.
    destruct (decode s) as [ days | msg ] eqn:D; [ | discriminate ].
    injection E as <-. split; [ reflexivity | ].
    now apply (decode_value s).
  - intros cd code Hn E. unfold CivilDate.toString, encode in E.
    destruct ((CivilDate.value cd < MIN_DAYS)%num
              || (CivilDate.value cd > MAX_DAYS)%num) eqn:G;
      [ discriminate | ].
    now apply in_range_guard.
Qed.

Lemma range_enforced_on_numbers_and_encode_witness :
  in_range (CivilDate.value (CivilDate.mk (Number.of_Z 20445)))
  /\ CivilDate.new central (CivilDate.ANumber (Number.of_Z 1000))
     = Throw "Days out of range"
  /\ (decode "000" = Ok (CivilDate.value (CivilDate.mk (Number.of_Z 0)))
      /\ exists v : Z,
          CivilDate.value (CivilDate.mk (Number.of_Z 0)) = Number.of_Z v
          /\ 0 <= v <= 46655).
Proof.
  destruct (range_enforced_on_numbers_and_encode central)
    as (P1 & P2 & P3 & P4).
  split; [ | split ].
  - apply (P1 (Number.of_Z 20445)); [ discriminate | reflexivity ].
  - apply P2; [ discriminate | ]. intros [H _]. apply H. reflexivity.
  - apply (P3 "000"); reflexivity.
Defined.

(** C1, as the claim has it, fails: the code "000" is accepted and gives
    a [CivilDate] whose value 0 lies outside the range. *)
Lemma new_accepts_code_below_range :
  CivilDate.new central (CivilDate.AString "000")
  = Ok (CivilDate.mk (Number.of_Z 0))
  /\ ~ in_range (CivilDate.value (CivilDate.mk (Number.of_Z 0))).
Proof.
  split; [ reflexivity | ]. intros [H _]. apply H. reflexivity.
Qed.

(** The paths through [fromDate] check no range either. *)
Example new_accepts_early_iso :
  CivilDate.new central (CivilDate.AString "1970-01-02")
  = Ok (CivilDate.mk (Number.of_Z 1)).
Proof. vm_compute. reflexivity. Qed.

(** C5: [fromDate] reads nothing of its argument but the local year,
    month and day.  Two dates that agree on these three fields give the
    same day count, whatever their time of day and whatever offset is in
    effect, and the result is the floor of [Date.UTC] of the three fields
    over 86,400,000.  For local dates from 1970 on this is the day number
    of the local date. *)
Theorem fromDate_reads_local_date :
  (forall (h1 h2 : Host) (d1 d2 : Date),
      Date.getFullYear h1 d1 = Date.getFullYear h2 d2 ->
      Date.getMonth h1 d1 = Date.getMonth h2 d2 ->
      Date.getDate h1 d1 = Date.getDate h2 d2 ->
      fromDate h1 d1 = fromDate h2 d2)
  /\ (forall (h : Host) (d : Date),
         fromDate h d
         = Number.floor
             (Date.UTC (Date.getFullYear h d) (Date.getMonth h d)
                (Date.getDate h d) / MS_PER_DAY)%num)
  /\ (forall (h : Host) (t : Z),
         0 <= Day (LocalTime h t) <= 100000000 ->
         fromDate h (Date.mk (Some t)) = Number.of_Z (Day (LocalTime h t))).
Proof.
  split; [ | split ].
  - intros h1 h2 d1 d2 Hy Hm Hd. unfold fromDate. now rewrite Hy, Hm, Hd.
  - reflexivity.
  - apply fromDate_local_day.
Qed.

Lemma fromDate_reads_local_date_witness :
  fromDate central (Date.mk (Some 1766473200000))
  = fromDate central (Date.mk (Some 1766552400000))
  /\ fromDate central (Date.mk (Some 1766473200000)) = Number.of_Z 20445.
Proof.
  split.
  - apply (proj1 fromDate_reads_local_date); reflexivity.
  - apply (proj2 (proj2 fromDate_reads_local_date) central 1766473200000).
    split; discriminate.
Defined.

(** C6: the order in which the constructor tries a string.  A string of
    the ISO form whose numbers are not a date of the calendar is refused
    with "Invalid date", as are 2025-02-30 and 2023-02-29; 2024-02-29 is
    accepted (on a host whose local midnight of that day exists); a
    string that is not of the ISO form goes to [decode], and when that
    fails the message is "Invalid civil-date code". *)
Theorem string_dispatch (h : Host) :
  (forall (s : string) (y m d : Z),
      exec ISO_REGEX s <> None -> iso_triple s = Some (y, m, d) ->
      ~ real_date y m d ->
      CivilDate.new h (CivilDate.AString s) = Throw "Invalid date")
  /\ (CivilDate.new h (CivilDate.AString "2025-02-30") = Throw "Invalid date"
      /\ CivilDate.new h (CivilDate.AString "2023-02-29") = Throw "Invalid date")
  /\ (offsets_bounded h -> local_midnight h 19782 ->
      CivilDate.new h (CivilDate.AString "2024-02-29")
      = Ok (CivilDate.mk (Number.of_Z 19782)))
  /\ (forall s : string,
         exec ISO_REGEX s = None ->
         CivilDate.new h (CivilDate.AString s)
         = (let* days := decode s in Ok (CivilDate.mk days))
         /\ (forall msg : string,
                decode s = Throw msg ->
                CivilDate.new h (CivilDate.AString s)
                = Throw "Invalid civil-date code"))
  /\ (CivilDate.new h (CivilDate.AString "invalid")
      = Throw "Invalid civil-date code"
      /\ CivilDate.new h (CivilDate.AString "2025/01/01")
         = Throw "Invalid civil-date code").
Proof.
  split; [ | split; [ | split; [ | split ] ] ].
  - apply new_iso_unreal.
  - split.
    + apply (new_iso_unreal h "2025-02-30" 2025 2 30);
        [ discriminate | reflexivity | ].
      intros [_ [_ H]]. apply H. reflexivity.
    + apply (new_iso_unreal h "2023-02-29" 2023 2 29);
        [ discriminate | reflexivity | ].
      intros [_ [_ H]]. apply H. reflexivity.
  - intros B L.
    apply (new_iso_real h "2024-02-29" 2024 2 29 B).
    + reflexivity.
    + repeat split; discriminate.
    + split; discriminate.
    + exact L.
  - intros s X. unfold CivilDate.new. rewrite X. split; [ reflexivity | ].
    intros msg D. rewrite D. cbn [bind]. now rewrite (decode_throws s msg D).
  - split; reflexivity.
Qed.

Lemma string_dispatch_witness :
  CivilDate.new central (CivilDate.AString "2025-02-31") = Throw "Invalid date"
  /\ CivilDate.new central (CivilDate.AString "2024-02-29")
     = Ok (CivilDate.mk (Number.of_Z 19782))
  /\ CivilDate.new central (CivilDate.AString "2025-1-1")
     = Throw "Invalid civil-date code".
Proof.
  destruct (string_dispatch central) as (P1 & _ & P3 & P4 & _).
  split; [ | split ].
  - apply (P1 "2025-02-31" 2025 2 31); [ discriminate | reflexivity | ].
    intros [_ [_ H]]. apply H. reflexivity.
  - apply P3.
    + intros t isUTC. reflexivity.
    + reflexivity.
  - apply (proj2 (P4 "2025-1-1" eq_refl) "Invalid civil-date code").
    reflexivity.
Defined.

(** C7: [toDate] of a day count [d] is the moment [d * 86,400,000]
    milliseconds after the epoch, midnight UTC of day [d]; [toDate 20445]
    has the UTC fields 2025, December (month 11), 23, 0 hours and 0
    minutes. *)
Theorem toDate_is_utc_midnight :
  (forall d : Z,
      Z.abs d <= 100000000 ->
      exists date : Date,
        toDate (OfNumber (Number.of_Z d)) = Ok date
        /\ DateValue date = Some (d * 86400000)
        /\ Date.getUTCHours date = Number.of_Z 0
        /\ Date.getUTCMinutes date = Number.of_Z 0
        /\ day_number (YearFromTime (d * 86400000))
             (MonthFromTime (d * 86400000) + 1)
             (DateFromTime (d * 86400000)) = d)
  /\ (exists date : Date,
         toDate (OfNumber (Number.of_Z 20445)) = Ok date
         /\ Date.getUTCFullYear date = Number.of_Z 2025
         /\ Date.getUTCMonth date = Number.of_Z 11
         /\ Date.getUTCDate date = Number.of_Z 23
         /\ Date.getUTCHours date = Number.of_Z 0
         /\ Date.getUTCMinutes date = Number.of_Z 0).
Proof.
  split.
  - intros d H. exists (Date.mk (Some (d * msPerDay))).
    destruct (midnight_hours d) as [Hh Hm].
    split; [ now apply toDate_days | ].
    split; [ reflexivity | ].
    unfold Date.getUTCHours, Date.getUTCMinutes, Date.field. cbn [DateValue].
    rewrite Hh, Hm. repeat split.
    change 86400000 with msPerDay.
    rewrite fields_day_number. apply Day_whole.
  - exists (Date.mk (Some (20445 * msPerDay))).
    split; [ apply toDate_days; discriminate | ].
    repeat split; vm_compute; reflexivity.
Qed.

Lemma toDate_is_utc_midnight_witness :
  exists date : Date,
    toDate (OfNumber (Number.of_Z 1296)) = Ok date
    /\ DateValue date = Some (1296 * 86400000)
    /\ Date.getUTCHours date = Number.of_Z 0
    /\ Date.getUTCMinutes date = Number.of_Z 0
    /\ day_number (YearFromTime (1296 * 86400000))
         (MonthFromTime (1296 * 86400000) + 1)
         (DateFromTime (1296 * 86400000)) = 1296.
Proof. apply (proj1 toDate_is_utc_midnight 1296). discriminate. Defined.

(** C8 at [NaN]: the guard of the constructor compares, and both
    comparisons are false on [NaN], so [NaN] is stored although it is not
    in the range; [toString] then prints it. *)
Theorem new_accepts_NaN (h : Host) :
  CivilDate.new h (CivilDate.ANumber NaN) = Ok (CivilDate.mk NaN)
  /\ ~ in_range NaN
  /\ CivilDate.toString (CivilDate.mk NaN) = Ok "NAN".
Proof. split; [ reflexivity | split; [ intros [] | reflexivity ] ]. Qed.

(** For every other number the constructor does what C8 says: it returns
    exactly on the range, keeps the number as it is, and throws "Days out
    of range" otherwise. *)
Lemma new_number_stored (h : Host) (n : number) :
  n <> NaN ->
  (in_range n ->
   exists cd, CivilDate.new h (CivilDate.ANumber n) = Ok cd
              /\ CivilDate.value cd = n)
  /\ (~ in_range n ->
      CivilDate.new h (CivilDate.ANumber n) = Throw "Days out of range").
Proof.
  intros Hn. destruct (new_number h n Hn) as [In Out]. split; [ | exact Out ].
  intros R. exists (CivilDate.mk n). split; [ now apply In | reflexivity ].
Qed.

Example new_1000 (h : Host) :
  CivilDate.new h (CivilDate.ANumber (Number.of_Z 1000))
  = Throw "Days out of range".
Proof. reflexivity. Qed.

Example new_50000 (h : Host) :
  CivilDate.new h (CivilDate.ANumber (Number.of_Z 50000))
  = Throw "Days out of range".
Proof. reflexivity. Qed.

Example new_fraction (h : Host) :
  CivilDate.new h (CivilDate.ANumber (Fin (204459 # 10)))
  = Ok (CivilDate.mk (Fin (204459 # 10))).
Proof. reflexivity. Qed.

(** C9, as the code has it: the ISO form round-trips where the local day
    exists.  For a string of the form [dddd-dd-dd] that names a date of
    the calendar whose day number lies in [1296, 46655], on a host whose
    offsets are below a day and whose local midnight of that day exists,
    the constructor accepts the string, the value is the day number, and
    [toISOString] gives the string back. *)
Theorem iso_round_trip (h : Host) (s : string) (y m d : Z) :
  offsets_bounded h ->
  iso_triple s = Some (y, m, d) -> real_date y m d ->
  1296 <= day_number y m d <= 46655 ->
  local_midnight h (day_number y m d) ->
  exists cd : CivilDate.t,
    CivilDate.new h (CivilDate.AString s) = Ok cd
    /\ CivilDate.value cd = Number.of_Z (day_number y m d)
    /\ CivilDate.toISOString h cd = Ok s.
Proof.
  intros B T R N L.
  exists (CivilDate.mk (Number.of_Z (day_number y m d))).
  split; [ apply new_iso_real; auto; lia | ].
  split; [ reflexivity | ].
  apply toISOString_day_number; auto; try lia.
  pose proof (day_number_year y m d R ltac:(lia)). lia.
Qed.

(** C9, as the claim has it, fails: 2011-12-30 is a date of the calendar
    whose day number 15338 lies in the range, and on a host where that
    local day is skipped the constructor refuses the string with "Invalid
    date". *)
Lemma iso_refused_on_skipped_day :
  iso_triple "2011-12-30" = Some (2011, 12, 30)
  /\ real_date 2011 12 30
  /\ day_number 2011 12 30 = 15338
  /\ offsets_bounded apia
  /\ ~ local_midnight apia 15338
  /\ CivilDate.new apia (CivilDate.AString "2011-12-30") = Throw "Invalid date".
Proof.
  split; [ reflexivity | ].
  split; [ repeat split; discriminate | ].
  split; [ reflexivity | ].
  split; [ | split; [ vm_compute; discriminate | vm_compute; reflexivity ] ].
  intros t isUTC. unfold apia. cbn [LocalTZA].
  destruct isUTC;
    [ destruct (t <? 1325239200000) | destruct (t <? 1325289600000) ];
    reflexivity.
Qed.

Lemma iso_round_trip_witness :
  exists cd : CivilDate.t,
    CivilDate.new central (CivilDate.AString "2024-02-29") = Ok cd
    /\ CivilDate.value cd = Number.of_Z (day_number 2024 2 29)
    /\ CivilDate.toISOString central cd = Ok "2024-02-29".
Proof.
  apply (iso_round_trip central "2024-02-29" 2024 2 29).
  - intros t isUTC. reflexivity.
  - reflexivity.
  - repeat split; discriminate.
  - split; discriminate.
  - reflexivity.
Defined.




(** The product is the double product: 0.3 days, the double 0.3 being
    5404319552844595 / 2^54, is 25,920,000 ms although the exact product
    lies just below. *)
Example toDate_three_tenths :
  toDate (OfNumber (Fin (5404319552844595 # 18014398509481984)))
  = Ok (Date.mk (Some 25920000)).
Proof. vm_compute. reflexivity. Qed.

(** Half a day is noon; a fraction of a millisecond is cut off. *)
Example toDate_half_day :
  toDate (OfNumber (Fin (1 # 2))) = Ok (Date.mk (Some 43200000)).
Proof. reflexivity. Qed.

Example toDate_sub_millisecond :
  toDate (OfNumber (Fin (1 # 137438953472))) = Ok (Date.mk (Some 0)).
Proof. reflexivity. Qed.

End DateClaims.

(** * Further properties of the code *)

(** ** Codes as keys *)

Section CodeKeys.

Lemma in_below (k : Z) (n : nat) :
  0 <= k < Z.of_nat n -> In k (map Z.of_nat (seq 0 n)).
Proof.
  intros H. rewrite <- (Z2Nat.id k) by lia. apply in_map, in_seq. lia.
Qed.

(** The digits [encode] writes are ordered like their values: the ten
    digits come before the upper-case letters. *)
Lemma upper_digit_compare (j k : Z) :
  0 <= j < 36 -> 0 <= k < 36 ->
  Ascii.compare (Str.upper_char (Str.digit_char j))
    (Str.upper_char (Str.digit_char k)) = (j ?= k).
Proof.
  intros Hj Hk.
  assert (H : forallb
                (fun k =>
                   match Ascii.compare (Str.upper_char (Str.digit_char j))
                           (Str.upper_char (Str.digit_char k)), j ?= k with
                   | Eq, Eq | Lt, Lt | Gt, Gt => true
                   | _, _ => false
                   end) (map Z.of_nat (seq 0 36)) = true).
  { revert j Hj.
    apply (every_below
             (fun j =>
                forallb
                  (fun k =>
                     match Ascii.compare (Str.upper_char (Str.digit_char j))
                             (Str.upper_char (Str.digit_char k)), j ?= k with
                     | Eq, Eq | Lt, Lt | Gt, Gt => true
                     | _, _ => false
                     end) (map Z.of_nat (seq 0 36))) 36).
    vm_compute. reflexivity. }
  rewrite forallb_forall in H. specialize (H k (in_below k 36 Hk)).
  destruct (Ascii.compare _ _), (j ?= k); (reflexivity || discriminate).
Qed.

Lemma three_digit_compare (a1 a2 a3 b1 b2 b3 : Z) :
  0 <= a1 < 36 -> 0 <= a2 < 36 -> 0 <= a3 < 36 ->
  0 <= b1 < 36 -> 0 <= b2 < 36 -> 0 <= b3 < 36 ->
  String.compare (upper3 a1 a2 a3) (upper3 b1 b2 b3)
  = ((a1 * 36 + a2) * 36 + a3 ?= (b1 * 36 + b2) * 36 + b3).
Proof.
  intros A1 A2 A3 B1 B2 B3. unfold upper3. cbn [String.compare].
  rewrite !upper_digit_compare by assumption.
  destruct (Z.compare_spec a1 b1); destruct (Z.compare_spec a2 b2);
    destruct (Z.compare_spec a3 b3); symmetry;
    first [ apply Z.compare_eq_iff; lia
          | apply Z.compare_lt_iff; lia
          | apply Z.compare_gt_iff; lia ].
Qed.

(** X1: Codes sort like the days they stand for: the lexicographic order of
    two codes by character code is the order of the two day counts. *)
Theorem encode_preserves_order (a b : Z) :
  1296 <= a <= 46655 -> 1296 <= b <= 46655 ->
  exists ca cb : string,
    encode (Number.of_Z a) = Ok ca /\ encode (Number.of_Z b) = Ok cb
    /\ String.compare ca cb = (a ?= b).
Proof.
  intros Ha Hb.
  destruct (encode_in_range a Ha) as (a1 & a2 & a3 & Ea & (A1 & A2 & A3) & Ca & _).
  destruct (encode_in_range b Hb) as (b1 & b2 & b3 & Eb & (B1 & B2 & B3) & Cb & _).
  exists (upper3 a1 a2 a3), (upper3 b1 b2 b3).
  split; [ exact Ca | ]. split; [ exact Cb | ].
  rewrite three_digit_compare by assumption. now rewrite <- Ea, <- Eb.
Qed.

Lemma encode_preserves_order_witness :
  exists ca cb : string,
    encode (Number.of_Z 20445) = Ok ca /\ encode (Number.of_Z 20447) = Ok cb
    /\ String.compare ca cb = (20445 ?= 20447).
Proof. apply encode_preserves_order; split; discriminate. Defined.

Lemma upper_char_idempotent (c : ascii) :
  Str.upper_char (Str.upper_char c) = Str.upper_char c.
Proof.
  apply Ascii.eqb_eq.
  apply (every_char
           (fun c => Ascii.eqb (Str.upper_char (Str.upper_char c))
                       (Str.upper_char c))).
  vm_compute. reflexivity.
Qed.

Lemma toUpperCase_upper3 (a b c : Z) :
  Str.toUpperCase (upper3 a b c) = upper3 a b c.
Proof. unfold upper3. cbn [Str.toUpperCase]. now rewrite !upper_char_idempotent. Qed.

Lemma code_shape_upper3 (a b c : Z) :
  0 <= a < 36 -> 0 <= b < 36 -> 0 <= c < 36 -> code_shape (upper3 a b c).
Proof.
  intros Ha Hb Hc. unfold upper3. do 3 eexists.
  split; [ reflexivity | ].
  repeat split; apply alnum_upper_digit_char; assumption.
Qed.

Lemma iso_match_not_code (s : string) :
  exec ISO_REGEX s <> None -> test CODE_REGEX s = false.
Proof.
  intros H. destruct (exec ISO_REGEX s) as [ caps | ] eqn:X; [ | congruence ].
  destruct (exec_ISO_REGEX_inv s caps X)
    as (y1 & y2 & y3 & y4 & m1 & m2 & d1 & d2 & -> & _).
  destruct (test CODE_REGEX _) eqn:T; [ | reflexivity ].
  apply test_CODE_REGEX in T. destruct T as (a & b & c & E & _). discriminate E.
Qed.

Lemma code_not_iso (s : string) : code_shape s -> exec ISO_REGEX s = None.
Proof.
  intros C. destruct (exec ISO_REGEX s) eqn:X; [ | reflexivity ].
  assert (T : test CODE_REGEX s = false) by (apply iso_match_not_code; congruence).
  apply test_CODE_REGEX in C. congruence.
Qed.

(** X2: No string is both of the ISO form and a code, so the order in which
    the constructor tries the two patterns changes nothing. *)
Theorem patterns_disjoint (s : string) :
  (exec ISO_REGEX s <> None -> test CODE_REGEX s = false)
  /\ (test CODE_REGEX s = true -> exec ISO_REGEX s = None).
Proof.
  split; [ apply iso_match_not_code | ].
  intros T. apply code_not_iso. now apply test_CODE_REGEX.
Qed.

Lemma patterns_disjoint_witness :
  test CODE_REGEX "2025-12-23" = false /\ exec ISO_REGEX "FRX" = None.
Proof.
  split.
  - apply (proj1 (patterns_disjoint "2025-12-23")). discriminate.
  - apply (proj2 (patterns_disjoint "FRX")). reflexivity.
Defined.

Lemma encode_result (days : number) (code : string) :
  encode days = Ok code ->
  code = "NAN"
  \/ exists a b c,
      (1 <= a < 36 /\ 0 <= b < 36 /\ 0 <= c < 36)
      /\ code = upper3 a b c
      /\ Number.floor days = Number.of_Z ((a * 36 + b) * 36 + c).
Proof.
  intros E. destruct days as [ q | | | ]; try discriminate E.
  - right. unfold encode in E.
    destruct ((Fin q < MIN_DAYS)%num || (Fin q > MAX_DAYS)%num) eqn:G;
      [ discriminate | ].
    apply in_range_guard in G; [ | discriminate ].
    pose proof (floor_in_range q G) as F.
    destruct (three_digits (Qfloor q) F) as (a & b & c & Eq & Ha & Hb & Hc).
    exists a, b, c. split; [ auto | ].
    assert (E' : encode (Fin q) = Ok code)
      by (unfold encode; rewrite (proj2 (in_range_guard (Fin q) ltac:(discriminate)) G);
          exact E).
    rewrite (encode_floors q G), Eq, encode_three in E' by assumption.
    injection E' as <-. split; [ reflexivity | ].
    simpl Number.floor. now rewrite Eq.
  - left. vm_compute in E. now injection E as <-.
Qed.

(** X3: Whatever [encode] returns is a code in canonical form: three
    characters that [decode] accepts, already in upper case, and not of
    the ISO form. *)
Theorem encode_canonical (days : number) (code : string) :
  encode days = Ok code ->
  test CODE_REGEX code = true
  /\ Str.toUpperCase code = code
  /\ exec ISO_REGEX code = None.
Proof.
  intros E.
  destruct (encode_result days code E) as [ -> | (a & b & c & (Ha & Hb & Hc) & -> & _) ].
  - repeat split; reflexivity.
  - assert (C : code_shape (upper3 a b c)) by (apply code_shape_upper3; lia).
    split; [ now apply test_CODE_REGEX | ].
    split; [ apply toUpperCase_upper3 | now apply code_not_iso ].
Qed.

Lemma encode_canonical_witness :
  test CODE_REGEX "FRX" = true
  /\ Str.toUpperCase "FRX" = "FRX"
  /\ exec ISO_REGEX "FRX" = None.
Proof. apply (encode_canonical (Fin (204459 # 10)) "FRX"). reflexivity. Defined.

Lemma base36_unique (a1 a2 a3 b1 b2 b3 : Z) :
  0 <= a1 < 36 -> 0 <= a2 < 36 -> 0 <= a3 < 36 ->
  0 <= b1 < 36 -> 0 <= b2 < 36 -> 0 <= b3 < 36 ->
  (a1 * 36 + a2) * 36 + a3 = (b1 * 36 + b2) * 36 + b3 ->
  a1 = b1 /\ a2 = b2 /\ a3 = b3.
Proof. lia. Qed.

Lemma decode_of_shape (s : string) :
  code_shape s ->
  exists a b c,
    (0 <= a < 36 /\ 0 <= b < 36 /\ 0 <= c < 36)
    /\ Str.toUpperCase s = upper3 a b c
    /\ decode s = Ok (Number.of_Z ((a * 36 + b) * 36 + c)).
Proof.
  intros (x & y & z & -> & Hx & Hy & Hz).
  destruct (decode_shape x y z Hx Hy Hz) as (a & b & c & B & _ & U & D).
  exists a, b, c. auto.
Qed.

(** X4: Two codes stand for the same day exactly when they are the same up to
    the case of their letters. *)
Theorem decode_equal_iff_same_letters (s1 s2 : string) :
  code_shape s1 -> code_shape s2 ->
  (decode s1 = decode s2 <-> Str.toUpperCase s1 = Str.toUpperCase s2).
Proof.
  intros C1 C2.
  destruct (decode_of_shape s1 C1) as (a1 & a2 & a3 & (A1 & A2 & A3) & U1 & D1).
  destruct (decode_of_shape s2 C2) as (b1 & b2 & b3 & (B1 & B2 & B3) & U2 & D2).
  rewrite D1, D2, U1, U2. split.
  - intros E. injection E as E.
    destruct (base36_unique a1 a2 a3 b1 b2 b3 A1 A2 A3 B1 B2 B3 E)
      as (-> & -> & ->).
    reflexivity.
  - intros E.
    assert (V : decode (upper3 a1 a2 a3) = decode (upper3 b1 b2 b3))
      by now rewrite E.
    rewrite !decode_upper3 in V by assumption. exact V.
Qed.

Lemma decode_equal_iff_same_letters_witness :
  decode "frx" = decode "FrX" <-> Str.toUpperCase "frx" = Str.toUpperCase "FrX".
Proof.
  apply decode_equal_iff_same_letters.
  - exists "f"%char, "r"%char, "x"%char. repeat split; reflexivity.
  - exists "F"%char, "r"%char, "X"%char. repeat split; reflexivity.
Defined.

End CodeKeys.

(** ** Codes through the class and through [toDate] *)

Section CodeUse.
Import Time.

Lemma new_of_code (h : Host) (s : string) :
  code_shape s ->
  CivilDate.new h (CivilDate.AString s)
  = (let* days := decode s in Ok (CivilDate.mk days)).
Proof. intros C. unfold CivilDate.new. now rewrite (code_not_iso s C). Qed.

Lemma encode_below_range (v : Z) :
  v < 1296 -> encode (Number.of_Z v) = Throw "Days out of range".
Proof.
  intros H. unfold encode, MIN_DAYS. rewrite lt_of_Z.
  destruct (Z.ltb_spec v 1296); [ reflexivity | lia ].
Qed.

(** X5: A day count written as its code and read again by the constructor is
    the floor of the day count: a number of [1296, 46655] given to the
    constructor, turned into a code with [toString], and given to the
    constructor as a string, comes back floored. *)
Theorem number_to_code_and_back (h : Host) (n : number) :
  in_range n ->
  (let* cd := CivilDate.new h (CivilDate.ANumber n) in
   let* code := CivilDate.toString cd in
   CivilDate.new h (CivilDate.AString code))
  = Ok (CivilDate.mk (Number.floor n)).
Proof.
  intros R.
  assert (Hn : n <> NaN) by (intros ->; exact R).
  rewrite (proj1 (new_number h n Hn) R). cbn [bind].
  unfold CivilDate.toString. cbn [CivilDate.value].
  destruct n as [ q | | | ]; try contradiction.
  pose proof (floor_in_range q R) as F.
  destruct (encode_in_range (Qfloor q) F) as (a & b & c & Eq & (Ha & Hb & Hc) & E & D).
  rewrite (encode_floors q R), E. cbn [bind].
  rewrite new_of_code by (apply code_shape_upper3; assumption).
  rewrite D. reflexivity.
Qed.

Lemma number_to_code_and_back_witness :
  (let* cd := CivilDate.new central (CivilDate.ANumber (Fin (204459 # 10))) in
   let* code := CivilDate.toString cd in
   CivilDate.new central (CivilDate.AString code))
  = Ok (CivilDate.mk (Number.floor (Fin (204459 # 10)))).
Proof. apply number_to_code_and_back. split; discriminate. Defined.

(** X6: A code given to the constructor and written again with [toString]
    comes back in upper case when its value is at least 1296; a code below
    "100" is accepted by the constructor, and [toString] then throws "Days
    out of range". *)
Theorem code_to_class_and_back (h : Host) (s : string) :
  code_shape s ->
  exists v : Z,
    decode s = Ok (Number.of_Z v)
    /\ (1296 <= v ->
        (let* cd := CivilDate.new h (CivilDate.AString s) in CivilDate.toString cd)
        = Ok (Str.toUpperCase s))
    /\ (v < 1296 ->
        (let* cd := CivilDate.new h (CivilDate.AString s) in CivilDate.toString cd)
        = Throw "Days out of range").
Proof.
  intros C.
  destruct (decode_of_shape s C) as (a & b & c & (Ha & Hb & Hc) & U & D).
  exists ((a * 36 + b) * 36 + c). split; [ exact D | ].
  rewrite (new_of_code h s C), D. cbn [bind]. unfold CivilDate.toString.
  cbn [CivilDate.value]. split.
  - intros V. rewrite U. apply encode_three; lia.
  - apply encode_below_range.
Qed.

Lemma code_to_class_and_back_witness :
  exists v : Z,
    decode "0zz" = Ok (Number.of_Z v)
    /\ (1296 <= v ->
        (let* cd := CivilDate.new central (CivilDate.AString "0zz") in
         CivilDate.toString cd) = Ok (Str.toUpperCase "0zz"))
    /\ (v < 1296 ->
        (let* cd := CivilDate.new central (CivilDate.AString "0zz") in
         CivilDate.toString cd) = Throw "Days out of range").
Proof.
  apply code_to_class_and_back.
  exists "0"%char, "z"%char, "z"%char. repeat split; reflexivity.
Defined.

(** X7: [toDate] of a string: a string that is not a code throws "Invalid
    civil-date code"; a code gives midnight UTC of the day it stands for,
    the same with lower-case letters, and never an invalid date. *)
Theorem toDate_of_code (s : string) :
  (code_shape s ->
   exists v : Z,
     0 <= v <= 46655 /\ decode s = Ok (Number.of_Z v)
     /\ toDate (OfString s) = Ok (Date.mk (Some (v * 86400000)))
     /\ toDate (OfString (Str.toUpperCase s)) = toDate (OfString s))
  /\ (~ code_shape s -> toDate (OfString s) = Throw "Invalid civil-date code").
Proof.
  split.
  - intros C.
    destruct (decode_of_shape s C) as (a & b & c & (Ha & Hb & Hc) & U & D).
    exists ((a * 36 + b) * 36 + c). split; [ lia | ]. split; [ exact D | ].
    assert (T : toDate (OfString s)
                = toDate (OfNumber (Number.of_Z ((a * 36 + b) * 36 + c))))
      by (unfold toDate; now rewrite D).
    split.
    + rewrite T. apply toDate_days. lia.
    + rewrite T, U. unfold toDate. now rewrite decode_upper3 by assumption.
  - intros N. unfold toDate, decode.
    destruct (test CODE_REGEX s) eqn:T; [ | reflexivity ].
    apply test_CODE_REGEX in T. contradiction.
Qed.

Lemma toDate_of_code_witness :
  (exists v : Z,
      0 <= v <= 46655 /\ decode "frx" = Ok (Number.of_Z v)
      /\ toDate (OfString "frx") = Ok (Date.mk (Some (v * 86400000)))
      /\ toDate (OfString (Str.toUpperCase "frx")) = toDate (OfString "frx"))
  /\ toDate (OfString "2025-12-23") = Throw "Invalid civil-date code".
Proof.
  split.
  - apply (proj1 (toDate_of_code "frx")).
    exists "f"%char, "r"%char, "x"%char. repeat split; reflexivity.
  - apply (proj2 (toDate_of_code "2025-12-23")).
    intros (a & b & c & E & _). discriminate E.
Defined.

(** X8: The code of a day and the day itself name the same moment: [toDate] of
    [encode n] is [toDate] of the floor of [n]. *)
Theorem toDate_of_encoded (n : number) :
  in_range n ->
  (let* code := encode n in toDate (OfString code))
  = toDate (OfNumber (Number.floor n)).
Proof.
  intros R. destruct n as [ q | | | ]; try contradiction.
  pose proof (floor_in_range q R) as F.
  destruct (encode_in_range (Qfloor q) F) as (a & b & c & Eq & _ & E & D).
  rewrite (encode_floors q R), E. cbn [bind]. unfold toDate. now rewrite D.
Qed.

Lemma toDate_of_encoded_witness :
  (let* code := encode (Fin (204459 # 10)) in toDate (OfString code))
  = toDate (OfNumber (Number.floor (Fin (204459 # 10)))).
Proof. apply toDate_of_encoded. split; discriminate. Defined.

End CodeUse.

(** ** Dates in and out of the class *)

Section DateUse.
Import Time.

(** The year, month and date of a time value depend on its day only. *)
Lemma fields_of_day (t1 t2 : Z) :
  Day t1 = Day t2 ->
  YearFromTime t1 = YearFromTime t2
  /\ MonthFromTime t1 = MonthFromTime t2
  /\ DateFromTime t1 = DateFromTime t2.
Proof.
  intros E.
  assert (Y : YearFromTime t1 = YearFromTime t2)
    by (unfold YearFromTime; now rewrite E).
  assert (M : MonthFromTime t1 = MonthFromTime t2)
    by (unfold MonthFromTime, DayWithinYear, InLeapYear; now rewrite E, Y).
  split; [ exact Y | ]. split; [ exact M | ].
  unfold DateFromTime, DayWithinYear, InLeapYear. now rewrite E, Y, M.
Qed.

Lemma Day_shifted (d off : Z) :
  Z.abs off < msPerDay ->
  Day (d * msPerDay + off) = if 0 <=? off then d else d - 1.
Proof.
  unfold Day, msPerDay. intros H.
  destruct (Z.leb_spec 0 off).
  - symmetry. apply Z.div_unique with off; lia.
  - symmetry. apply Z.div_unique with (off + 86400000); lia.
Qed.

(** X9: [fromDate] is not the inverse of [toDate] everywhere: [toDate] gives
    midnight UTC, and [fromDate] reads it in local time.  With a local
    offset of zero or ahead of UTC the day comes back; behind UTC the day
    before comes back. *)
Theorem fromDate_of_toDate (h : Host) (d : Z) :
  offsets_bounded h -> 1 <= d <= 99999999 ->
  exists date : Date,
    toDate (OfNumber (Number.of_Z d)) = Ok date
    /\ fromDate h date
       = Number.of_Z (if 0 <=? LocalTZA h (d * 86400000) true then d else d - 1).
Proof.
  intros B H. exists (Date.mk (Some (d * msPerDay))).
  split; [ apply toDate_days; lia | ].
  assert (E : Day (LocalTime h (d * msPerDay))
              = if 0 <=? LocalTZA h (d * msPerDay) true then d else d - 1)
    by (unfold LocalTime; apply Day_shifted, B).
  rewrite fromDate_local_day; rewrite E; change msPerDay with 86400000.
  - reflexivity.
  - destruct (0 <=? LocalTZA h (d * 86400000) true); lia.
Qed.

Lemma fromDate_of_toDate_witness :
  exists date : Date,
    toDate (OfNumber (Number.of_Z 20445)) = Ok date
    /\ fromDate central date
       = Number.of_Z
           (if 0 <=? LocalTZA central (20445 * 86400000) true
            then 20445 else 20445 - 1).
Proof.
  apply fromDate_of_toDate.
  - intros t isUTC. reflexivity.
  - split; discriminate.
Defined.

(** The ISO string of a [CivilDate] whose value is a day number from 1970
    on is written from the fields of that day. *)
Lemma class_iso_of_day (h : Host) (n : Z) :
  offsets_bounded h -> 0 <= n <= 99999999 -> local_midnight h n ->
  CivilDate.toISOString h (CivilDate.mk (Number.of_Z n))
  = Ok (toISOString h (Date.mk (Some (Time.UTC h (n * msPerDay))))).
Proof.
  intros B N L.
  unfold CivilDate.toISOString, CivilDate.toDate. cbn [CivilDate.value].
  rewrite toDate_days by lia. cbn [bind].
  unfold Date.getUTCFullYear, Date.getUTCMonth, Date.getUTCDate, Date.field.
  cbn [DateValue].
  pose proof (fields_real_date (n * msPerDay)) as R.
  pose proof (fields_day_number (n * msPerDay)) as F.
  rewrite Day_whole in F.
  rewrite (of_fields_real_date h _ (MonthFromTime (n * msPerDay) + 1) _ _ R).
  - rewrite F, (TimeClipZ_midnight h n B N). reflexivity.
  - rewrite F. lia.
  - rewrite to_integer_of_Z. f_equal. lia.
Qed.

Lemma toISOString_same_day (h : Host) (t1 t2 : Z) :
  Day (LocalTime h t1) = Day (LocalTime h t2) ->
  toISOString h (Date.mk (Some t1)) = toISOString h (Date.mk (Some t2)).
Proof.
  intros E. destruct (fields_of_day _ _ E) as (Y & M & D).
  unfold toISOString, Date.getFullYear, Date.getMonth, Date.getDate, Date.field.
  cbn [DateValue]. now rewrite Y, M, D.
Qed.

(** X10: A [CivilDate] built from a [Date] shows that date's local calendar
    day: its [toISOString] is the function [toISOString] of the date, time
    of day dropped.  The same holds for the constructor without argument
    and the current time. *)
Theorem class_iso_of_date (h : Host) (date : Date) (t : Z) :
  DateValue date = Some t ->
  offsets_bounded h ->
  0 <= Day (LocalTime h t) <= 99999999 ->
  local_midnight h (Day (LocalTime h t)) ->
  (let* cd := CivilDate.new h (CivilDate.ADate date) in
   CivilDate.toISOString h cd) = Ok (toISOString h date)
  /\ (date = Date.current h ->
      (let* cd := CivilDate.new h CivilDate.Undefined in
       CivilDate.toISOString h cd) = Ok (toISOString h date)).
Proof.
  intros V B N L. destruct date as [ v ]. cbn [DateValue] in V. subst v.
  assert (E : (let* cd := CivilDate.new h (CivilDate.ADate (Date.mk (Some t))) in
               CivilDate.toISOString h cd)
              = Ok (toISOString h (Date.mk (Some t)))).
  { unfold CivilDate.new. cbn [bind].
    rewrite fromDate_local_day by lia.
    rewrite (class_iso_of_day h _ B N L). f_equal.
    apply toISOString_same_day. exact L. }
  split; [ exact E | ].
  intros C. unfold CivilDate.new. rewrite <- C. exact E.
Qed.

Lemma class_iso_of_date_witness :
  (let* cd := CivilDate.new central (CivilDate.ADate (Date.mk (Some 1766552400000))) in
   CivilDate.toISOString central cd)
  = Ok (toISOString central (Date.mk (Some 1766552400000))).
Proof.
  apply (class_iso_of_date central (Date.mk (Some 1766552400000)) 1766552400000).
  - reflexivity.
  - intros t isUTC. reflexivity.
  - split; discriminate.
  - reflexivity.
Defined.

(** *** What [toISOString] writes *)

Lemma digit_of_digit_char (v : Z) :
  0 <= v < 10 ->
  Str.is_digit (Str.digit_char v) = true /\ digit_of (Str.digit_char v) = v.
Proof.
  intros H. split; [ now apply is_digit_digit_char | ].
  unfold digit_of. rewrite digit_char_code by exact H. lia.
Qed.

Lemma two_digits_written (m : Z) :
  0 <= m <= 99 ->
  exists c1 c2,
    Str.padStart 2 "0" (Str.int_toString 10 m)
    = String c1 (String c2 EmptyString)
    /\ Str.is_digit c1 = true /\ Str.is_digit c2 = true
    /\ digit_of c1 * 10 + digit_of c2 = m.
Proof.
  intros H.
  assert (B1 : 0 <= m / 10 < 10) by (Z.div_mod_to_equations; lia).
  assert (B2 : 0 <= m mod 10 < 10) by (apply Z.mod_pos_bound; lia).
  destruct (digit_of_digit_char _ B1) as [I1 V1].
  destruct (digit_of_digit_char _ B2) as [I2 V2].
  exists (Str.digit_char (m / 10)), (Str.digit_char (m mod 10)).
  assert (E : digit_of (Str.digit_char (m / 10)) * 10
              + digit_of (Str.digit_char (m mod 10)) = m)
    by (rewrite V1, V2; Z.div_mod_to_equations; lia).
  split; [ | auto ].
  rewrite <- E at 1. now apply write_two.
Qed.

Lemma four_digits_written (y : Z) :
  1000 <= y <= 9999 ->
  exists c1 c2 c3 c4,
    Str.int_toString 10 y
    = String c1 (String c2 (String c3 (String c4 EmptyString)))
    /\ forallb Str.is_digit [c1; c2; c3; c4] = true
    /\ ((digit_of c1 * 10 + digit_of c2) * 10 + digit_of c3) * 10 + digit_of c4 = y.
Proof.
  intros H.
  assert (B1 : 0 <= y / 1000 < 10) by (Z.div_mod_to_equations; lia).
  assert (B2 : 0 <= (y / 100) mod 10 < 10) by (apply Z.mod_pos_bound; lia).
  assert (B3 : 0 <= (y / 10) mod 10 < 10) by (apply Z.mod_pos_bound; lia).
  assert (B4 : 0 <= y mod 10 < 10) by (apply Z.mod_pos_bound; lia).
  destruct (digit_of_digit_char _ B1) as [I1 V1].
  destruct (digit_of_digit_char _ B2) as [I2 V2].
  destruct (digit_of_digit_char _ B3) as [I3 V3].
  destruct (digit_of_digit_char _ B4) as [I4 V4].
  exists (Str.digit_char (y / 1000)), (Str.digit_char ((y / 100) mod 10)),
    (Str.digit_char ((y / 10) mod 10)), (Str.digit_char (y mod 10)).
  assert (E : ((digit_of (Str.digit_char (y / 1000)) * 10
                + digit_of (Str.digit_char ((y / 100) mod 10))) * 10
               + digit_of (Str.digit_char ((y / 10) mod 10))) * 10
              + digit_of (Str.digit_char (y mod 10)) = y)
    by (rewrite V1, V2, V3, V4; Z.div_mod_to_equations; lia).
  split; [ | split; [ cbn [forallb]; now rewrite I1, I2, I3, I4 | exact E ] ].
  rewrite <- E at 1. apply write_four; try assumption. rewrite E. lia.
Qed.

Lemma fields_ranges (t : Z) :
  0 <= MonthFromTime t <= 11 /\ 1 <= DateFromTime t <= 31.
Proof.
  destruct (fields_real_date t) as [Hm Hd].
  pose proof (days_in_month_le (YearFromTime t) (MonthFromTime t + 1)). lia.
Qed.

Lemma local_date_written (h : Host) (t : Z) :
  1000 <= YearFromTime (LocalTime h t) <= 9999 ->
  iso_triple (toISOString h (Date.mk (Some t)))
  = Some (YearFromTime (LocalTime h t),
          MonthFromTime (LocalTime h t) + 1,
          DateFromTime (LocalTime h t))
  /\ String.length (toISOString h (Date.mk (Some t))) = 10%nat.
Proof.
  intros Y.
  destruct (fields_ranges (LocalTime h t)) as [Hm Hd].
  unfold toISOString, Date.getFullYear, Date.getMonth, Date.getDate, Date.field.
  cbn [DateValue]. rewrite !toString_of_Z, toString_add_one by lia.
  destruct (four_digits_written _ Y) as (c1 & c2 & c3 & c4 & -> & Dy & <-).
  destruct (two_digits_written (MonthFromTime (LocalTime h t) + 1) ltac:(lia))
    as (m1 & m2 & -> & M1 & M2 & <-).
  destruct (two_digits_written (DateFromTime (LocalTime h t)) ltac:(lia))
    as (d1 & d2 & -> & D1 & D2 & <-).
  cbn [append iso_triple String.length].
  cbn [forallb] in Dy |- *. rewrite !andb_true_iff in Dy.
  destruct Dy as (Y1 & Y2 & Y3 & Y4 & _).
  rewrite Y1, Y2, Y3, Y4, M1, M2, D1, D2. split; reflexivity.
Qed.

(** X11: For a local year of four digits [toISOString] writes ten characters
    [dddd-dd-dd] that spell the local year, the local month counted from 1,
    and the local day of the month. *)
Theorem toISOString_spells_local_date (h : Host) (date : Date) (t : Z) :
  DateValue date = Some t ->
  1000 <= YearFromTime (LocalTime h t) <= 9999 ->
  iso_triple (toISOString h date)
  = Some (YearFromTime (LocalTime h t),
          MonthFromTime (LocalTime h t) + 1,
          DateFromTime (LocalTime h t))
  /\ String.length (toISOString h date) = 10%nat.
Proof.
  intros V Y. destruct date as [ v ]. cbn [DateValue] in V. subst v.
  now apply local_date_written.
Qed.

Lemma toISOString_spells_local_date_witness :
  iso_triple (toISOString central (Date.mk (Some 1766552400000)))
  = Some (YearFromTime (LocalTime central 1766552400000),
          MonthFromTime (LocalTime central 1766552400000) + 1,
          DateFromTime (LocalTime central 1766552400000))
  /\ String.length (toISOString central (Date.mk (Some 1766552400000))) = 10%nat.
Proof.
  apply (toISOString_spells_local_date central _ 1766552400000).
  - reflexivity.
  - split; discriminate.
Defined.

Lemma new_written_local_day (h : Host) (t : Z) :
  offsets_bounded h ->
  0 <= Day (LocalTime h t) ->
  YearFromTime (LocalTime h t) <= 9999 ->
  local_midnight h (Day (LocalTime h t)) ->
  CivilDate.new h (CivilDate.AString (toISOString h (Date.mk (Some t))))
  = Ok (CivilDate.mk (Number.of_Z (Day (LocalTime h t))))
  /\ CivilDate.new h (CivilDate.ADate (Date.mk (Some t)))
     = Ok (CivilDate.mk (Number.of_Z (Day (LocalTime h t)))).
Proof.
  intros B N Y L.
  pose proof (fields_real_date (LocalTime h t)) as R.
  pose proof (fields_day_number (LocalTime h t)) as F.
  assert (Y0 : 1970 <= YearFromTime (LocalTime h t))
    by (apply (day_number_year _ _ _ R); rewrite F; exact N).
  assert (Up : Day (LocalTime h t) <= 99999999).
  { pose proof (YearFromDay_spec (Day (LocalTime h t))) as S.
    fold (YearFromTime (LocalTime h t)) in S.
    pose proof (DayFromYear_mono (YearFromTime (LocalTime h t) + 1) 10000
                  ltac:(lia)) as Mo.
    change (DayFromYear 10000) with 2932897 in Mo. lia. }
  split.
  - rewrite (new_iso_real h _ _ _ _ B (proj1 (local_date_written h t ltac:(lia))) R);
      rewrite F; try reflexivity; try assumption; lia.
  - unfold CivilDate.new. rewrite fromDate_local_day by lia. reflexivity.
Qed.

(** X12: Writing a date as an ISO string and constructing from the string is
    the same as constructing from the date: for a date whose local day is
    in 1970 to 9999, the constructor accepts [toISOString date] and gives
    the value it gives for the date itself. *)
Theorem new_of_written_date (h : Host) (date : Date) (t : Z) :
  DateValue date = Some t ->
  offsets_bounded h ->
  0 <= Day (LocalTime h t) ->
  YearFromTime (LocalTime h t) <= 9999 ->
  local_midnight h (Day (LocalTime h t)) ->
  CivilDate.new h (CivilDate.AString (toISOString h date))
  = CivilDate.new h (CivilDate.ADate date)
  /\ CivilDate.new h (CivilDate.ADate date)
     = Ok (CivilDate.mk (Number.of_Z (Day (LocalTime h t)))).
Proof.
  intros V B N Y L. destruct date as [ v ]. cbn [DateValue] in V. subst v.
  destruct (new_written_local_day h t B N Y L) as [E D].
  split; [ now rewrite E, D | exact D ].
Qed.

Lemma new_of_written_date_witness :
  CivilDate.new central
    (CivilDate.AString (toISOString central (Date.mk (Some 1766552400000))))
  = CivilDate.new central (CivilDate.ADate (Date.mk (Some 1766552400000)))
  /\ CivilDate.new central (CivilDate.ADate (Date.mk (Some 1766552400000)))
     = Ok (CivilDate.mk (Number.of_Z (Day (LocalTime central 1766552400000)))).
Proof.
  apply (new_of_written_date central _ 1766552400000).
  - reflexivity.
  - intros t isUTC. reflexivity.
  - discriminate.
  - discriminate.
  - reflexivity.
Defined.

(** *** [fromDate] over all years *)

Lemma DayFromMonth_range (mn l : Z) :
  0 <= l <= 1 -> 0 <= DayFromMonth mn l <= 335.
Proof.
  intros H. unfold DayFromMonth.
  destruct mn as [ | p | p ]; try lia.
  repeat (destruct p as [ p | p | ]; try lia).
Qed.

Lemma leap_range (y : Z) : 0 <= leap y <= 1.
Proof. destruct (leap_cases y) as [ -> | -> ]; lia. Qed.

Lemma MakeDay_of_fields (y mn d : Z) :
  0 <= mn <= 11 ->
  Z.abs (DayFromYear y + DayFromMonth mn (leap y)) <= 100000000 ->
  MakeDay (Number.of_Z y) (Number.of_Z mn) (Number.of_Z d)
  = Some (DayFromYear y + DayFromMonth mn (leap y) + d - 1).
Proof.
  intros Hm B. unfold MakeDay. rewrite !to_integer_of_Z.
  replace (mn / 12) with 0 by (symmetry; apply Z.div_small; lia).
  replace (mn mod 12) with mn by (symmetry; apply Z.mod_small; lia).
  rewrite Z.add_0_r.
  destruct (Z.leb_spec
              (Z.abs ((DayFromYear y + DayFromMonth mn (leap y)) * msPerDay))
              maxTime) as [ _ | G ]; [ reflexivity | ].
  unfold msPerDay, maxTime in G. lia.
Qed.

Lemma MakeFullYear_cases (y : Z) :
  MakeFullYear (Number.of_Z y)
  = Number.of_Z (if (0 <=? y) && (y <=? 99) then 1900 + y else y).
Proof.
  unfold MakeFullYear. rewrite to_integer_of_Z.
  destruct ((0 <=? y) && (y <=? 99)); reflexivity.
Qed.

Lemma Date_UTC_of_fields (y mn d : Z) :
  0 <= mn <= 11 -> 1 <= d <= 31 ->
  Z.abs (DayFromYear y + DayFromMonth mn (leap y)) <= 99999900 ->
  MakeFullYear (Number.of_Z y) = Number.of_Z y ->
  Date.UTC (Number.of_Z y) (Number.of_Z mn) (Number.of_Z d)
  = Number.of_Z ((DayFromYear y + DayFromMonth mn (leap y) + d - 1) * msPerDay).
Proof.
  intros Hm Hd B F. unfold Date.UTC. rewrite F.
  rewrite MakeDay_of_fields by (assumption || lia).
  unfold MakeDate, MakeTime, TimeClipZ. cbn [Z.mul Z.add]. rewrite Z.add_0_r.
  destruct (Z.leb_spec
              (Z.abs ((DayFromYear y + DayFromMonth mn (leap y) + d - 1) * msPerDay))
              maxTime) as [ _ | G ]; [ reflexivity | ].
  unfold msPerDay, maxTime in G. lia.
Qed.

(** X13: [fromDate] over the years.  For a local year outside 0 to 99 the
    result is the day number of the local date, before 1970 as well.  For
    a local year [y] of 0 to 99 the two-digit rule of [Date.UTC] applies
    and the result is the day number of the same month and day of year
    [1900 + y]. *)
Theorem fromDate_by_local_year (h : Host) (t : Z) :
  (~ 0 <= YearFromTime (LocalTime h t) <= 99 ->
   Z.abs (Day (LocalTime h t)) <= 99999000 ->
   fromDate h (Date.mk (Some t)) = Number.of_Z (Day (LocalTime h t)))
  /\ (0 <= YearFromTime (LocalTime h t) <= 99 ->
      fromDate h (Date.mk (Some t))
      = Number.of_Z
          (day_number (1900 + YearFromTime (LocalTime h t))
             (MonthFromTime (LocalTime h t) + 1)
             (DateFromTime (LocalTime h t)))).
Proof.
  destruct (fields_ranges (LocalTime h t)) as [Hm Hd].
  pose proof (fields_day_number (LocalTime h t)) as F. unfold day_number in F.
  replace (MonthFromTime (LocalTime h t) + 1 - 1)
    with (MonthFromTime (LocalTime h t)) in F by lia.
  unfold fromDate, Date.getFullYear, Date.getMonth, Date.getDate, Date.field.
  cbn [DateValue]. split.
  - intros Y N.
    pose proof (DayFromMonth_range (MonthFromTime (LocalTime h t))
                  (leap (YearFromTime (LocalTime h t))) (leap_range _)) as Mr.
    assert (Fy : MakeFullYear (Number.of_Z (YearFromTime (LocalTime h t)))
                 = Number.of_Z (YearFromTime (LocalTime h t))).
    { rewrite MakeFullYear_cases.
      destruct (Z.leb_spec 0 (YearFromTime (LocalTime h t)));
        destruct (Z.leb_spec (YearFromTime (LocalTime h t)) 99);
        cbn [andb]; try reflexivity; lia. }
    rewrite Date_UTC_of_fields; try assumption; try lia.
    rewrite F, floor_div_day by lia. reflexivity.
  - intros Y. unfold Date.UTC. rewrite MakeFullYear_cases.
    destruct (Z.leb_spec 0 (YearFromTime (LocalTime h t))); [ | lia ].
    destruct (Z.leb_spec (YearFromTime (LocalTime h t)) 99); [ | lia ].
    cbn [andb].
    pose proof (DayFromYear_mono 1900 (1900 + YearFromTime (LocalTime h t))
                  ltac:(lia)) as Lo.
    pose proof (DayFromYear_mono (1900 + YearFromTime (LocalTime h t)) 1999
                  ltac:(lia)) as Hi.
    change (DayFromYear 1900) with (-25567) in Lo.
    change (DayFromYear 1999) with 10592 in Hi.
    pose proof (DayFromMonth_range (MonthFromTime (LocalTime h t))
                  (leap (1900 + YearFromTime (LocalTime h t))) (leap_range _)) as Mr.
    rewrite MakeDay_of_fields by (assumption || lia).
    change (MakeTime 0 0 0 0) with 0. unfold MakeDate, TimeClipZ.
    rewrite Z.add_0_r.
    unfold day_number.
    replace (MonthFromTime (LocalTime h t) + 1 - 1)
      with (MonthFromTime (LocalTime h t)) by lia.
    match goal with
    | |- context [ Z.abs ?x <=? maxTime ] =>
        destruct (Z.leb_spec (Z.abs x) maxTime) as [ _ | G ]
    end.
    + rewrite floor_div_day by lia. reflexivity.
    + unfold msPerDay, maxTime in G. lia.
Qed.

Lemma fromDate_by_local_year_witness :
  fromDate central (Date.mk (Some (-86400000000)))
  = Number.of_Z (Day (LocalTime central (-86400000000)))
  /\ fromDate central (Date.mk (Some (-60589274400000)))
     = Number.of_Z
         (day_number (1900 + YearFromTime (LocalTime central (-60589274400000)))
            (MonthFromTime (LocalTime central (-60589274400000)) + 1)
            (DateFromTime (LocalTime central (-60589274400000)))).
Proof.
  split.
  - apply (proj1 (fromDate_by_local_year central (-86400000000))).
    + intros [_ H]. apply H. reflexivity.
    + discriminate.
  - apply (proj2 (fromDate_by_local_year central (-60589274400000))).
    split; discriminate.
Defined.

(** *** Years of fewer than four digits *)

Lemma length_append (a b : string) :
  String.length (a ++ b) = (String.length a + String.length b)%nat.
Proof. induction a as [ | c a IH ]; simpl; [ reflexivity | now rewrite IH ]. Qed.

Lemma short_year_length (y : Z) :
  0 <= y < 1000 -> (1 <= String.length (Str.int_toString 10 y) <= 3)%nat.
Proof.
  intros H. unfold Str.int_toString.
  destruct (Z.ltb_spec y 0); [ lia | ].
  destruct (Z.lt_ge_cases y 10) as [ L1 | G1 ].
  - rewrite digits_one by exact L1. simpl. lia.
  - assert (E1 : y = y / 10 * 10 + y mod 10) by (Z.div_mod_to_equations; lia).
    assert (B1 : 0 <= y mod 10 < 10) by (apply Z.mod_pos_bound; lia).
    assert (Q1 : 0 < y / 10 < 100) by (Z.div_mod_to_equations; lia).
    rewrite E1, digits_snoc by lia. rewrite length_append.
    destruct (Z.lt_ge_cases (y / 10) 10) as [ L2 | G2 ].
    + rewrite digits_one by exact L2. simpl. lia.
    + assert (E2 : y / 10 = y / 10 / 10 * 10 + (y / 10) mod 10)
        by (Z.div_mod_to_equations; lia).
      assert (B2 : 0 <= (y / 10) mod 10 < 10) by (apply Z.mod_pos_bound; lia).
      assert (Q2 : 0 < y / 10 / 10 < 10) by (Z.div_mod_to_equations; lia).
      rewrite E2, digits_snoc by lia. rewrite length_append.
      rewrite digits_one by lia. simpl. lia.
Qed.

(** X14: [toISOString] does not pad the year: for a local year of 0 to 999 the
    string has fewer than ten characters, and the constructor does not
    take it back but throws "Invalid civil-date code". *)
Theorem early_year_not_padded (h : Host) (date : Date) (t : Z) :
  DateValue date = Some t ->
  0 <= YearFromTime (LocalTime h t) < 1000 ->
  (String.length (toISOString h date) < 10)%nat
  /\ CivilDate.new h (CivilDate.AString (toISOString h date))
     = Throw "Invalid civil-date code".
Proof.
  intros V Y. destruct date as [ v ]. cbn [DateValue] in V. subst v.
  destruct (fields_ranges (LocalTime h t)) as [Hm Hd].
  assert (L : (7 <= String.length (toISOString h (Date.mk (Some t))) <= 9)%nat).
  { unfold toISOString, Date.getFullYear, Date.getMonth, Date.getDate, Date.field.
    cbn [DateValue]. rewrite !toString_of_Z, toString_add_one by lia.
    destruct (two_digits_written (MonthFromTime (LocalTime h t) + 1) ltac:(lia))
      as (m1 & m2 & -> & _).
    destruct (two_digits_written (DateFromTime (LocalTime h t)) ltac:(lia))
      as (d1 & d2 & -> & _).
    pose proof (short_year_length _ Y) as S.
    rewrite length_append. cbn [append String.length]. lia. }
  split; [ lia | ].
  unfold CivilDate.new.
  destruct (exec ISO_REGEX (toISOString h (Date.mk (Some t)))) as [ caps | ] eqn:X.
  - destruct (exec_ISO_REGEX_inv _ caps X)
      as (y1 & y2 & y3 & y4 & m1 & m2 & d1 & d2 & E & _).
    rewrite E in L. cbn [String.length] in L. lia.
  - unfold decode.
    destruct (test CODE_REGEX (toISOString h (Date.mk (Some t)))) eqn:T;
      [ | reflexivity ].
    apply test_CODE_REGEX in T. destruct T as (a & b & c & E & _).
    rewrite E in L. cbn [String.length] in L. lia.
Qed.

Lemma early_year_not_padded_witness :
  (String.length (toISOString central (Date.mk (Some (-60589274400000)%Z))) < 10)%nat
  /\ CivilDate.new central
       (CivilDate.AString (toISOString central (Date.mk (Some (-60589274400000)))))
     = Throw "Invalid civil-date code".
Proof.
  apply (early_year_not_padded central _ (-60589274400000)).
  - reflexivity.
  - split; [ discriminate | reflexivity ].
Defined.

(** *** Values no [Date] can hold *)

(** X15: [toISOString] of the class never throws.  For a value whose moment is
    no time value (an integer beyond 100,000,000 days either way, [NaN],
    an infinity) the result is the string "NaN-NaN-NaN". *)
Theorem class_iso_of_unreachable_value (h : Host) (n : number) :
  (Number.to_integer n = None
   \/ exists z : Z, n = Number.of_Z z /\ 100000000 < Z.abs z) ->
  CivilDate.toISOString h (CivilDate.mk n) = Ok "NaN-NaN-NaN".
Proof.
  intros H.
  assert (D : Date.of_number (n * MS_PER_DAY)%num = Date.mk None).
  { destruct H as [ H | (z & -> & H) ].
    - destruct n; try discriminate; reflexivity.
    - unfold Date.of_number. rewrite TimeClip_days.
      destruct (Z.leb_spec (Z.abs z) 100000000); [ lia | reflexivity ]. }
  unfold CivilDate.toISOString, CivilDate.toDate, toDate.
  cbn [CivilDate.value bind]. rewrite D. reflexivity.
Qed.

Lemma class_iso_of_unreachable_value_witness :
  CivilDate.toISOString central (CivilDate.mk NaN) = Ok "NaN-NaN-NaN"
  /\ CivilDate.toISOString central (CivilDate.mk (Number.of_Z (-100000001)))
     = Ok "NaN-NaN-NaN".
Proof.
  split.
  - apply class_iso_of_unreachable_value. left. reflexivity.
  - apply class_iso_of_unreachable_value. right.
    exists (-100000001). split; reflexivity.
Defined.

(** *** The moment behind an ISO string *)

(** X16: [toDate] of a [CivilDate] built from an ISO string is midnight UTC of
    the date written in the string: its UTC year, month (counted from 0)
    and day are the numbers of the string, whatever the local offset. *)
Theorem class_toDate_of_iso (h : Host) (s : string) (y m d : Z) :
  offsets_bounded h ->
  iso_triple s = Some (y, m, d) -> real_date y m d ->
  0 <= day_number y m d <= 99999999 ->
  local_midnight h (day_number y m d) ->
  exists (cd : CivilDate.t) (date : Date),
    CivilDate.new h (CivilDate.AString s) = Ok cd
    /\ CivilDate.toDate cd = Ok date
    /\ Date.getUTCFullYear date = Number.of_Z y
    /\ Date.getUTCMonth date = Number.of_Z (m - 1)
    /\ Date.getUTCDate date = Number.of_Z d
    /\ Date.getUTCHours date = Number.of_Z 0
    /\ Date.getUTCMinutes date = Number.of_Z 0.
Proof.
  intros B T R N L.
  exists (CivilDate.mk (Number.of_Z (day_number y m d))),
    (Date.mk (Some (day_number y m d * msPerDay))).
  split; [ now apply new_iso_real | ].
  split; [ unfold CivilDate.toDate; cbn [CivilDate.value]; apply toDate_days; lia | ].
  destruct (day_number_fields y m d (day_number y m d * msPerDay) R (Day_whole _))
    as (Fy & Fm & Fd).
  destruct (midnight_hours (day_number y m d)) as [Hh Hmin].
  unfold Date.getUTCFullYear, Date.getUTCMonth, Date.getUTCDate,
    Date.getUTCHours, Date.getUTCMinutes, Date.field. cbn [DateValue].
  now rewrite Fy, Fm, Fd, Hh, Hmin.
Qed.

Lemma class_toDate_of_iso_witness :
  exists (cd : CivilDate.t) (date : Date),
    CivilDate.new central (CivilDate.AString "2025-12-23") = Ok cd
    /\ CivilDate.toDate cd = Ok date
    /\ Date.getUTCFullYear date = Number.of_Z 2025
    /\ Date.getUTCMonth date = Number.of_Z (12 - 1)
    /\ Date.getUTCDate date = Number.of_Z 23
    /\ Date.getUTCHours date = Number.of_Z 0
    /\ Date.getUTCMinutes date = Number.of_Z 0.
Proof.
  apply (class_toDate_of_iso central "2025-12-23" 2025 12 23).
  - intros t isUTC. reflexivity.
  - reflexivity.
  - repeat split; discriminate.
  - split; discriminate.
  - reflexivity.
Defined.

(** *** ISO strings of the first century *)

Lemma YearFromDay_after_1898 (d : Z) : -25600 <= d -> 1898 <= YearFromDay d.
Proof.
  intros H. unfold YearFromDay. cbv zeta.
  destruct (d <? DayFromYear (1970 + 400 * d / 146097));
    [ | destruct (DayFromYear (1970 + 400 * d / 146097 + 1) <=? d) ];
    Z.div_mod_to_equations; lia.
Qed.

Lemma MakeDay_of_integers (year month date : number) (y mn d : Z) :
  Number.to_integer year = Some y -> Number.to_integer month = Some mn ->
  Number.to_integer date = Some d ->
  0 <= mn <= 11 ->
  Z.abs (DayFromYear y + DayFromMonth mn (leap y)) <= 100000000 ->
  MakeDay year month date
  = Some (DayFromYear y + DayFromMonth mn (leap y) + d - 1).
Proof.
  intros Ey Em Ed Hm B. unfold MakeDay. rewrite Ey, Em, Ed.
  replace (mn / 12) with 0 by (symmetry; apply Z.div_small; lia).
  replace (mn mod 12) with mn by (symmetry; apply Z.mod_small; lia).
  rewrite Z.add_0_r.
  destruct (Z.leb_spec
              (Z.abs ((DayFromYear y + DayFromMonth mn (leap y)) * msPerDay))
              maxTime) as [ _ | G ]; [ reflexivity | ].
  unfold msPerDay, maxTime in G. lia.
Qed.

Lemma Day_lower (t k : Z) : k * msPerDay <= t -> k <= Day t.
Proof.
  intros H. unfold Day. apply Z.div_le_lower_bound; unfold msPerDay in *; lia.
Qed.

(** X17: An ISO string whose year is 0000 to 0099 is refused with "Invalid
    date" even when it names a date of the calendar: [new Date(y, m, d)]
    takes such a year for 1900 + y, and the year read back differs. *)
Theorem iso_two_digit_year_rejected (h : Host) (s : string) (y m d : Z) :
  offsets_bounded h ->
  exec ISO_REGEX s <> None -> iso_triple s = Some (y, m, d) ->
  0 <= y <= 99 ->
  CivilDate.new h (CivilDate.AString s) = Throw "Invalid date".
Proof.
  intros B E T Y.
  destruct (exec ISO_REGEX s) as [ caps | ] eqn:X; [ clear E | congruence ].
  destruct (exec_ISO_REGEX_inv s caps X)
    as (y1 & y2 & y3 & y4 & m1 & m2 & d1 & d2 & S & _ & _ & Hm & Hd).
  destruct (triple_shape s y m d T)
    as (z1 & z2 & z3 & z4 & n1 & n2 & e1 & e2 & S' & _ & Ey & Em & Ed).
  rewrite S in S'. injection S' as <- <- <- <- <- <- <- <-.
  rewrite <- Em in Hm. rewrite <- Ed in Hd.
  rewrite (new_iso_unfold h s y m d T Hm Hd). cbv zeta.
  match goal with
  | |- (if ?b then _ else _) = _ => destruct b eqn:V
  end; [ exfalso | reflexivity ].
  apply andb_true_iff in V. destruct V as [V _].
  apply andb_true_iff in V. destruct V as [V _].
  revert V. unfold Date.of_fields. rewrite MakeFullYear_cases.
  destruct (Z.leb_spec 0 y); [ | lia ]. destruct (Z.leb_spec y 99); [ | lia ].
  cbn [andb].
  pose proof (DayFromYear_mono 1900 (1900 + y) ltac:(lia)) as Lo.
  pose proof (DayFromYear_mono (1900 + y) 1999 ltac:(lia)) as Hi.
  change (DayFromYear 1900) with (-25567) in Lo.
  change (DayFromYear 1999) with 10592 in Hi.
  pose proof (DayFromMonth_range (m - 1) (leap (1900 + y)) (leap_range _)) as Mr.
  rewrite (MakeDay_of_integers _ _ _ (1900 + y) (m - 1) d
             (to_integer_of_Z _) (to_integer_sub m 1 ltac:(lia)) (to_integer_of_Z d))
    by lia.
  change (MakeTime 0 0 0 0) with 0. unfold MakeDate. cbn [option_map].
  rewrite Z.add_0_r.
  unfold Date.getFullYear, Date.field, TimeClipZ.
  match goal with
  | |- context [ Z.abs ?x <=? maxTime ] => destruct (Z.abs x <=? maxTime)
  end; cbn [DateValue]; [ | discriminate ].
  rewrite strict_eq_of_Z. intros V. apply Z.eqb_eq in V.
  set (n := DayFromYear (1900 + y) + DayFromMonth (m - 1) (leap (1900 + y)) + d - 1)
    in *.
  assert (A : -25600 <= Day (LocalTime h (Time.UTC h (n * msPerDay)))).
  { apply Z.le_trans with (n - 2); [ unfold n; lia | ].
    apply Day_lower. unfold LocalTime, Time.UTC.
    pose proof (B (n * msPerDay) false) as B1.
    pose proof (B (n * msPerDay - LocalTZA h (n * msPerDay) false) true) as B2.
    unfold msPerDay in *. lia. }
  pose proof (YearFromDay_after_1898 _ A) as Yr.
  unfold YearFromTime in V. lia.
Qed.

Lemma iso_two_digit_year_rejected_witness :
  CivilDate.new central (CivilDate.AString "0050-01-01") = Throw "Invalid date".
Proof.
  apply (iso_two_digit_year_rejected central "0050-01-01" 50 1 1).
  - intros t isUTC. reflexivity.
  - discriminate.
  - reflexivity.
  - split; discriminate.
Defined.

(** *** Independence of the time zone *)

(** X18: An ISO string means the same day on every host: two hosts whose
    offsets are below a day and whose local midnight of the date exists
    construct the same [CivilDate] from it, the one of the day number of
    the date written. *)
Theorem new_iso_same_on_all_hosts (h1 h2 : Host) (s : string) (y m d : Z) :
  iso_triple s = Some (y, m, d) -> real_date y m d ->
  0 <= day_number y m d <= 99999999 ->
  offsets_bounded h1 -> local_midnight h1 (day_number y m d) ->
  offsets_bounded h2 -> local_midnight h2 (day_number y m d) ->
  CivilDate.new h1 (CivilDate.AString s) = CivilDate.new h2 (CivilDate.AString s)
  /\ CivilDate.new h1 (CivilDate.AString s)
     = Ok (CivilDate.mk (Number.of_Z (day_number y m d))).
Proof.
  intros T R N B1 L1 B2 L2.
  rewrite (new_iso_real h1 s y m d B1 T R N L1).
  rewrite (new_iso_real h2 s y m d B2 T R N L2). auto.
Qed.

Lemma new_iso_same_on_all_hosts_witness :
  CivilDate.new central (CivilDate.AString "2025-12-23")
  = CivilDate.new (fixed_offset 0 32400000) (CivilDate.AString "2025-12-23")
  /\ CivilDate.new central (CivilDate.AString "2025-12-23")
     = Ok (CivilDate.mk (Number.of_Z (day_number 2025 12 23))).
Proof.
  apply (new_iso_same_on_all_hosts central (fixed_offset 0 32400000)
           "2025-12-23" 2025 12 23).
  - reflexivity.
  - repeat split; discriminate.
  - split; discriminate.
  - intros t isUTC. reflexivity.
  - reflexivity.
  - intros t isUTC. reflexivity.
  - reflexivity.
Defined.

(** X19: A day count written as its ISO string and read again is the day
    count: for an integer value from day 0 (1970-01-01) to the end of year
    9999, the constructor accepts what [toISOString] of the class returns
    and gives the value back. *)
Theorem value_to_iso_and_back (h : Host) (n : Z) :
  offsets_bounded h -> 0 <= n -> YearFromDay n <= 9999 ->
  local_midnight h n ->
  (let* s := CivilDate.toISOString h (CivilDate.mk (Number.of_Z n)) in
   CivilDate.new h (CivilDate.AString s))
  = Ok (CivilDate.mk (Number.of_Z n)).
Proof.
  intros B N Y L.
  assert (Up : n <= 99999999).
  { pose proof (YearFromDay_spec n) as S.
    pose proof (DayFromYear_mono (YearFromDay n + 1) 10000 ltac:(lia)) as Mo.
    change (DayFromYear 10000) with 2932897 in Mo. lia. }
  rewrite (class_iso_of_day h n B ltac:(lia) L). cbn [bind].
  pose proof (new_written_local_day h (Time.UTC h (n * msPerDay)) B) as E.
  assert (L0 : Day (LocalTime h (Time.UTC h (n * msPerDay))) = n) by exact L.
  unfold YearFromTime in E. rewrite L0 in E.
  destruct (E N Y L) as [E1 _]. exact E1.
Qed.

Lemma value_to_iso_and_back_witness :
  (let* s := CivilDate.toISOString central (CivilDate.mk (Number.of_Z 20445)) in
   CivilDate.new central (CivilDate.AString s))
  = Ok (CivilDate.mk (Number.of_Z 20445)).
Proof.
  apply value_to_iso_and_back.
  - intros t isUTC. reflexivity.
  - discriminate.
  - discriminate.
  - reflexivity.
Defined.

End DateUse.
